(** * Dentapp backend: invoicing arithmetic, analytics roll-ups and CRUD handlers

    A shallow embedding of the calculation helpers of
    [app/services/facturacion.py] and [app/services/analytics_service.py] and
    of the patient, appointment, conversation, template and invoice route
    handlers of [app/api/routes], followed by the properties established
    about them.

    Conventions of the embedding:
    - a Python [float] is a binary64 number ([PrimFloat.float]); [+], [-], [*]
      and [/] are the IEEE operations, as in CPython; an [int] is a [Z], and
      where a value comes from a JSON body with no declared type the
      operators act on it as Python does, by the type it has at run time;
    - a Python exception is a value of [exn], and a function that may raise
      returns a [result]; [exception] and [outcome] add the exceptions of
      the arithmetic and of the database driver;
    - a Python [dict] is a [gmap] from strings, and the list of its items
      where the order of insertion matters; text is taken to be ASCII;
    - for the route handlers, which address documents by [_id], a collection
      is a map from [_id]s to documents and a document is the [gmap] of its
      other fields; for the analytics service, which reads whole collections
      in order, a collection is the list of its documents, each a record of
      the fields the service reads;
    - [datetime.utcnow()] is an explicit argument [now], and a [datetime] is
      a number of microseconds, or, for the dashboard, which reads the month
      and the year, the record of its attributes. *)

From Stdlib Require Import ZArith Lia List String Ascii Floats.
From Stdlib Require Import Decimal DecimalString DecimalFacts DecimalPos DecimalN.
From stdpp Require Import base option gmap strings list.

#[local] Set Warnings "-inexact-float".
#[local] Set Warnings "-register-all".

(** ** Python runtime fragments *)

Module Py.

Inductive exn :=
| KeyError
| AttributeError
| TypeError
| ValueError
| ValidationError
| HTTPException (status_code : Z) (detail : string).

Inductive result (A : Type) :=
| Ok (a : A)
| Raise (e : exn).
Arguments Ok {A} a.
Arguments Raise {A} e.

Definition bind {A B} (r : result A) (k : A → result B) : result B :=
  match r with
  | Ok a => k a
  | Raise e => Raise e
  end.

(** *** Floats *)

(** [float(z)] for a Python [int]: the nearest binary64 number. *)
Definition float_of_Z (z : Z) : float :=
  SF2Prim (binary_normalize prec emax z 0 false).

(** The integer nearest to [num / den] ([den] positive), ties to even. *)
Definition rne_div (num den : Z) : Z :=
  let q := (num / den)%Z in
  let r := (num mod den)%Z in
  match (2 * r ?= den)%Z with
  | Lt => q
  | Gt => (q + 1)%Z
  | Eq => if Z.even q then q else (q + 1)%Z
  end.

(** The binary64 number nearest to [n / d], for positive [n] and [d], with
    sign [s]. *)
Definition nearest_ratio (s : bool) (n d : Z) : float :=
  let '(mz, ez, lz) := SFdiv_core_binary prec emax n 0 d 0 in
  SF2Prim (binary_round_aux prec emax s mz ez lz).

(** [round(x, 2)].  CPython prints the exact binary value of [x] correctly
    rounded (ties to even) to two places after the point and reads the
    decimal string back as the nearest float; infinities, NaN and zeros are
    returned as they are, and a negative value that rounds to zero gives
    [-0.0]. *)
Definition round2 (x : float) : float :=
  match Prim2SF x with
  | S754_finite s m e =>
      let cents :=
        match e with
        | Zneg k => rne_div (Zpos m * 100) (2 ^ Zpos k)
        | _ => (Zpos m * 100 * 2 ^ e)%Z
        end in
      if (cents =? 0)%Z then (if s then PrimFloat.neg_zero else PrimFloat.zero)
      else nearest_ratio s cents 100
  | _ => x
  end.

(** [sum(xs)] over floats: the accumulator starts at [0] and the items are
    added from left to right. *)
Definition py_sum (xs : list float) : float :=
  fold_left PrimFloat.add xs 0%float.

(** pydantic's [ge=0] and [le=100] on a [float] field ([NaN] fails both). *)
Definition ge0 (x : float) : bool := (0 <=? x)%float.
Definition le100 (x : float) : bool := (x <=? 100)%float.


(** *** Strings *)

Definition is_digit (c : ascii) : bool :=
  let n := N_of_ascii c in (48 <=? n)%N && (n <=? 57)%N.

Definition digit_value (c : ascii) : Z := Z.of_N (N_of_ascii c) - 48.

(** The characters [int()] strips from the ends of an ASCII string: tab to
    carriage return, and the space.  Text is taken to be ASCII. *)
Definition is_space (c : ascii) : bool :=
  let n := N_of_ascii c in
  ((9 <=? n)%N && (n <=? 13)%N) || (n =? 32)%N.

Fixpoint all_chars (P : ascii → bool) (s : string) : bool :=
  match s with
  | EmptyString => true
  | String c s' => P c && all_chars P s'
  end.

Fixpoint lstrip (s : string) : string :=
  match s with
  | EmptyString => EmptyString
  | String c s' => if is_space c then lstrip s' else s
  end.

Fixpoint rstrip (s : string) : string :=
  match s with
  | EmptyString => EmptyString
  | String c s' =>
      match rstrip s' with
      | EmptyString => if is_space c then EmptyString else String c EmptyString
      | r => String c r
      end
  end.

(** The digits of a decimal literal, most significant first; a single
    underscore may separate two digits.  [after_digit] tells whether the
    previous character was a digit. *)
Fixpoint int_digits (acc : Z) (after_digit : bool) (s : string) : option Z :=
  match s with
  | EmptyString => if after_digit then Some acc else None
  | String c s' =>
      if is_digit c then int_digits (10 * acc + digit_value c) true s'
      else if Ascii.eqb c "_" && after_digit then int_digits acc false s'
      else None
  end.

Fixpoint count_digits (s : string) : nat :=
  match s with
  | EmptyString => 0
  | String c s' => (if is_digit c then 1 else 0) + count_digits s'
  end.

(** [sys.get_int_max_str_digits()]: the longest run of decimal digits that
    CPython converts to or from an [int]. *)
Definition int_max_str_digits : nat := 4300.

(** [int(s)] in base 10; [None] is [ValueError], also for a literal of more
    than [int_max_str_digits] digits. *)
Definition py_int (s : string) : option Z :=
  let literal := rstrip (lstrip s) in
  let digits :=
    match literal with
    | String "+" r => r
    | String "-" r => r
    | r => r
    end in
  if (int_max_str_digits <? count_digits digits)%nat then None
  else
    match literal with
    | String "+" r => int_digits 0 false r
    | String "-" r => Z.opp <$> int_digits 0 false r
    | r => int_digits 0 false r
    end.

(** [str(z)] for a Python [int]. *)
Definition str_of_nonneg (z : Z) : string :=
  NilEmpty.string_of_uint (N.to_uint (Z.to_N z)).

Definition py_str_of_Z (z : Z) : string :=
  if (z <? 0)%Z then String "-" (str_of_nonneg (- z)) else str_of_nonneg z.

(** Whether CPython converts the [int] to a decimal string at all: it raises
    [ValueError] past [int_max_str_digits] digits. *)
Definition str_digits_ok (z : Z) : bool :=
  (String.length (str_of_nonneg (Z.abs z)) <=? int_max_str_digits)%nat.

Fixpoint zeros (k : nat) : string :=
  match k with
  | O => EmptyString
  | S k' => String "0" (zeros k')
  end.

Definition zfill (width : nat) (s : string) : string :=
  zeros (width - String.length s) +:+ s.

(** [f"{z:04d}"]: the sign, when there is one, counts in the width. *)
Definition format_04d (z : Z) : string :=
  if (z <? 0)%Z then String "-" (zfill 3 (str_of_nonneg (- z)))
  else zfill 4 (str_of_nonneg z).

(** [s.split(sep)] for a one-character separator. *)
Fixpoint split_on (sep : ascii) (s : string) : list string :=
  match s with
  | EmptyString => [EmptyString]
  | String c s' =>
      if Ascii.eqb c sep then EmptyString :: split_on sep s'
      else match split_on sep s' with
           | h :: t => String c h :: t
           | [] => [String c EmptyString]
           end
  end.

(** [s[1:]] *)
Definition drop_first (s : string) : string :=
  match s with
  | EmptyString => EmptyString
  | String _ s' => s'
  end.

(** *** Values held by dictionaries and stored documents *)

(** A [datetime] is the number of microseconds since [datetime.min]. *)
Inductive value :=
| VNone
| VBool (b : bool)
| VInt (z : Z)
| VFloat (f : float)
| VStr (s : string)
| VDate (t : Z)
| VList (l : list value)
| VDict (d : gmap string value).

(** [v == "literal"]: only a string equals a string. *)
Definition eq_str (v : value) (s : string) : bool :=
  match v with
  | VStr s' => String.eqb s' s
  | _ => false
  end.

(** [v in [s1, ...]] for a list of string literals. *)
Definition in_strs (v : value) (l : list string) : bool :=
  existsb (eq_str v) l.

(** [c.isalpha()] on ASCII text, and the string tests [s.isdigit()] and
    [s.isalpha()], which fail on the empty string. *)
Definition is_alpha (c : ascii) : bool :=
  let n := N_of_ascii c in
  ((65 <=? n)%N && (n <=? 90)%N) || ((97 <=? n)%N && (n <=? 122)%N).

Definition py_isdigit (s : string) : bool :=
  negb (String.eqb s "") && all_chars is_digit s.

Definition py_isalpha (s : string) : bool :=
  negb (String.eqb s "") && all_chars is_alpha s.

(** *** Numbers that are an [int] or a [float] *)

Inductive number :=
| Int (z : Z)
| Float (f : float).

(** [sum(xs)] over floats as Python returns it: the [int] 0 for no item. *)
Definition sum_floats (xs : list float) : number :=
  match xs with
  | [] => Int 0
  | _ => Float (py_sum xs)
  end.

(** [round(x, 2)]: an [int] is returned as it is. *)
Definition round2_number (x : number) : number :=
  match x with
  | Int z => Int z
  | Float f => Float (round2 f)
  end.

Definition value_of_number (x : number) : value :=
  match x with
  | Int z => VInt z
  | Float f => VFloat f
  end.

(** The [float] a pydantic [float] field holds for a number. *)
Definition float_of_number (x : number) : float :=
  match x with
  | Int z => float_of_Z z
  | Float f => f
  end.

(** [f"{z:02d}"] *)
Definition format_02d (z : Z) : string :=
  if (z <? 0)%Z then String "-" (zfill 1 (str_of_nonneg (- z)))
  else zfill 2 (str_of_nonneg z).

(** *** Further exceptions *)

Inductive exception :=
| Known (e : exn)
| OverflowError
| ZeroDivisionError
| MemoryError
| DuplicateKeyError.

Inductive outcome (A : Type) :=
| Return (a : A)
| Throw (e : exception).
Arguments Return {A} a.
Arguments Throw {A} e.

Definition lift {A} (r : result A) : outcome A :=
  match r with
  | Ok a => Return a
  | Raise e => Throw (Known e)
  end.

Definition and_then {A B} (r : outcome A) (k : A → outcome B) : outcome B :=
  match r with
  | Return a => k a
  | Throw e => Throw e
  end.

(** The results of [f] on the items of a list, up to the first that
    raises. *)
Fixpoint for_each {A B} (f : A → result B) (l : list A) : result (list B) :=
  match l with
  | [] => Ok []
  | a :: l' => bind (f a) (λ b, bind (for_each f l') (λ bs, Ok (b :: bs)))
  end.

(** The results of [f] on the items of a list, up to the first that raises
    any exception. *)
Fixpoint try_each {A B} (f : A → outcome B) (l : list A) : outcome (list B) :=
  match l with
  | [] => Return []
  | a :: l' =>
      and_then (f a) (λ b, and_then (try_each f l') (λ bs, Return (b :: bs)))
  end.

(** *** Arithmetic on the values a JSON body decodes to

    A JSON number decodes to an [int] of any size or to a [float], and
    nothing checks the type of the values of a [dict]: Python decides at
    each operation.  A [bool] is an [int]. *)

Definition as_number (v : value) : option number :=
  match v with
  | VBool b => Some (Int (if b then 1 else 0))
  | VInt z => Some (Int z)
  | VFloat f => Some (Float f)
  | _ => None
  end.

(** The [float] an [int] converts to in mixed arithmetic: the nearest
    binary64 number, [OverflowError] past the largest one. *)
Definition to_float (x : number) : outcome float :=
  match x with
  | Float f => Return f
  | Int z =>
      let f := float_of_Z z in
      if is_infinity f then Throw OverflowError else Return f
  end.

(** An operator on two numbers: exact on two [int]s, on floats otherwise. *)
Definition num_op (op_int : Z → Z → Z) (op_float : float → float → float)
    (a b : number) : outcome value :=
  match a, b with
  | Int x, Int y => Return (VInt (op_int x y))
  | _, _ =>
      and_then (to_float a) (λ x,
      and_then (to_float b) (λ y, Return (VFloat (op_float x y))))
  end.

Fixpoint repeat_string (n : nat) (s : string) : string :=
  match n with
  | O => EmptyString
  | S n' => s +:+ repeat_string n' s
  end.

(** [PY_SSIZE_T_MAX] on a 64-bit build. *)
Definition ssize_t_max : Z := 2 ^ 63 - 1.

(** [seq * n] for a [str] or a [list]: the count has to fit an index and
    the length of the result too; memory is taken to suffice for every
    sequence whose length fits. *)
Definition py_repeat (seq : value) (n : Z) : outcome value :=
  if negb ((- ssize_t_max - 1 <=? n)%Z && (n <=? ssize_t_max)%Z)
  then Throw OverflowError
  else
    match seq with
    | VStr s =>
        if (n <? 1)%Z || Nat.eqb (String.length s) 0
        then Return (VStr EmptyString)
        else if (ssize_t_max / n <? Z.of_nat (String.length s))%Z
             then Throw OverflowError
             else Return (VStr (repeat_string (Z.to_nat n) s))
    | VList l =>
        if (n <=? 0)%Z || Nat.eqb (length l) 0 then Return (VList [])
        else if (ssize_t_max / n <? Z.of_nat (length l))%Z
             then Throw MemoryError
             else Return (VList (concat (replicate (Z.to_nat n) l)))
    | _ => Throw (Known TypeError)
    end.

(** [a * b] *)
Definition py_mul (a b : value) : outcome value :=
  match as_number a, as_number b with
  | Some x, Some y => num_op Z.mul PrimFloat.mul x y
  | None, Some (Int n) => py_repeat a n
  | Some (Int n), None => py_repeat b n
  | _, _ => Throw (Known TypeError)
  end.

(** [a - b] *)
Definition py_sub (a b : value) : outcome value :=
  match as_number a, as_number b with
  | Some x, Some y => num_op Z.sub PrimFloat.sub x y
  | _, _ => Throw (Known TypeError)
  end.

(** [a + b] *)
Definition py_add (a b : value) : outcome value :=
  match as_number a, as_number b with
  | Some x, Some y => num_op Z.add PrimFloat.add x y
  | _, _ =>
      match a, b with
      | VStr s1, VStr s2 => Return (VStr (s1 +:+ s2))
      | VList l1, VList l2 => Return (VList (l1 ++ l2))
      | _, _ => Throw (Known TypeError)
      end
  end.

(** [a / 100]: the quotient of an [int] by 100 is the float nearest to the
    exact quotient, [OverflowError] when there is none; a float is divided
    by 100.0. *)
Definition py_div_100 (a : value) : outcome value :=
  match as_number a with
  | Some (Int z) =>
      let q := if (z =? 0)%Z then PrimFloat.zero
               else nearest_ratio (z <? 0)%Z (Z.abs z) 100 in
      if is_infinity q then Throw OverflowError else Return (VFloat q)
  | Some (Float f) => Return (VFloat (f / 100))
  | None => Throw (Known TypeError)
  end.

(** [a > 0] *)
Definition py_gt_0 (a : value) : outcome bool :=
  match as_number a with
  | Some (Int z) => Return (0 <? z)%Z
  | Some (Float f) => Return (0 <? f)%float
  | None => Throw (Known TypeError)
  end.

(** [round(a, 2)]: an [int] is returned as such. *)
Definition py_round_2 (a : value) : outcome value :=
  match as_number a with
  | Some x => Return (value_of_number (round2_number x))
  | None => Throw (Known TypeError)
  end.

(** The last instant a [datetime] can hold, 9999-12-31 23:59:59.999999, in
    microseconds since [datetime.min]. *)
Definition datetime_max : Z := 3652059 * 86400000000 - 1.

(** [t + timedelta(days=d)], out of range beyond year 9999 or before
    year 1. *)
Definition add_days (t d : Z) : outcome Z :=
  let r := (t + d * 86400000000)%Z in
  if (0 <=? r)%Z && (r <=? datetime_max)%Z then Return r else Throw OverflowError.

End Py.
Import Py.

(** ** [app/models/factura.py] and [app/models/analytics.py] *)

Module Models.

Record LineaFactura := {
  concepto : string;
  cantidad : float;
  precio_unitario : float;
  descuento : float;
  tipo_iva : string;
  base_imponible : float;
  cuota_iva : float;
  total_linea : float
}.

(** [Literal["21", "10", "4", "0", "exento"]] *)
Definition tipos_iva : list string := ["21"; "10"; "4"; "0"; "exento"]%string.

Definition LineaFactura_valid (l : LineaFactura) : bool :=
  ge0 (cantidad l) && ge0 (precio_unitario l)
  && (ge0 (descuento l) && le100 (descuento l))
  && bool_decide (tipo_iva l ∈ tipos_iva)
  && ge0 (base_imponible l) && ge0 (cuota_iva l) && ge0 (total_linea l).

(** Constructing the model validates its fields. *)
Definition new_LineaFactura (l : LineaFactura) : result LineaFactura :=
  if LineaFactura_valid l then Ok l else Raise ValidationError.

Record ConversionFunnel := {
  period_start : Z;
  period_end : Z;
  total_inquiries : Z;
  scheduled_appointments : Z;
  completed_appointments : Z;
  evaluations_done : Z;
  quotes_sent : Z;
  quotes_accepted : Z;
  treatments_started : Z;
  treatments_completed : Z;
  inquiry_to_appointment_rate : float;
  appointment_to_treatment_rate : float;
  quote_to_treatment_rate : float;
  overall_conversion_rate : float
}.

(** Field validators: every field of [ConversionFunnel] is required, the
    counts are [int] with [ge=0], the rates are [float] with [ge=0, le=100]
    (an [int] is accepted for a [float]).  A missing or rejected field is a
    [ValidationError]. *)
Definition field_datetime (kw : gmap string value) (k : string) : result Z :=
  match kw !! k with
  | Some (VDate t) => Ok t
  | _ => Raise ValidationError
  end.

Definition field_count (kw : gmap string value) (k : string) : result Z :=
  match kw !! k with
  | Some (VInt z) => if (0 <=? z)%Z then Ok z else Raise ValidationError
  | _ => Raise ValidationError
  end.

Definition field_rate (kw : gmap string value) (k : string) : result float :=
  match kw !! k with
  | Some (VFloat f) => if ge0 f && le100 f then Ok f else Raise ValidationError
  | Some (VInt z) =>
      let f := float_of_Z z in
      if ge0 f && le100 f then Ok f else Raise ValidationError
  | _ => Raise ValidationError
  end.

(** The constructor of [ConversionFunnel], applied to keyword arguments
    [kw]; a keyword that names no field is ignored. *)
Definition new_ConversionFunnel (kw : gmap string value)
    : result ConversionFunnel :=
  bind (field_datetime kw "period_start") (λ ps,
  bind (field_datetime kw "period_end") (λ pe,
  bind (field_count kw "total_inquiries") (λ ti,
  bind (field_count kw "scheduled_appointments") (λ sa,
  bind (field_count kw "completed_appointments") (λ ca,
  bind (field_count kw "evaluations_done") (λ ed,
  bind (field_count kw "quotes_sent") (λ qs,
  bind (field_count kw "quotes_accepted") (λ qa,
  bind (field_count kw "treatments_started") (λ ts,
  bind (field_count kw "treatments_completed") (λ tc,
  bind (field_rate kw "inquiry_to_appointment_rate") (λ r1,
  bind (field_rate kw "appointment_to_treatment_rate") (λ r2,
  bind (field_rate kw "quote_to_treatment_rate") (λ r3,
  bind (field_rate kw "overall_conversion_rate") (λ r4,
  Ok {| period_start := ps; period_end := pe; total_inquiries := ti;
        scheduled_appointments := sa; completed_appointments := ca;
        evaluations_done := ed; quotes_sent := qs; quotes_accepted := qa;
        treatments_started := ts; treatments_completed := tc;
        inquiry_to_appointment_rate := r1;
        appointment_to_treatment_rate := r2;
        quote_to_treatment_rate := r3;
        overall_conversion_rate := r4 |})))))))))))))).

End Models.
Import Models.

(** ** [app/services/facturacion.py] *)

Module FacturacionService.

Definition iva_porcentaje : gmap string float :=
  {[ "21" := 0.21; "10" := 0.10; "4" := 0.04; "0" := 0.00; "exento" := 0.00 ]}%float.

Definition calcular_linea_factura (concepto : string)
    (cantidad precio_unitario : float) (tipo_iva : string) (descuento : float)
    : result LineaFactura :=
  let subtotal_linea := (cantidad * precio_unitario)%float in
  let importe_descuento :=
    if (0 <? descuento)%float then (subtotal_linea * (descuento / 100))%float
    else 0%float in
  let base_imponible := (subtotal_linea - importe_descuento)%float in
  let cuota_iva :=
    (base_imponible * default 0.21 (iva_porcentaje !! tipo_iva))%float in
  let total_linea := (base_imponible + cuota_iva)%float in
  new_LineaFactura
    {| concepto := concepto;
       cantidad := cantidad;
       precio_unitario := precio_unitario;
       descuento := descuento;
       tipo_iva := tipo_iva;
       base_imponible := round2 base_imponible;
       cuota_iva := round2 cuota_iva;
       total_linea := round2 total_linea |}.

Definition calcular_totales_factura (lineas : list LineaFactura)
    : gmap string float :=
  let subtotal := py_sum (map base_imponible lineas) in
  let total_iva := py_sum (map cuota_iva lineas) in
  let total_factura := py_sum (map total_linea lineas) in
  {[ "subtotal" := round2 subtotal;
     "total_iva" := round2 total_iva;
     "total_factura" := round2 total_factura ]}.

(** The f-string raises [ValueError] when one of the two numbers has more
    digits than CPython prints. *)
Definition generar_numero_factura (serie : string) (anio ultimo_numero : Z)
    : result string :=
  let nuevo_numero := (ultimo_numero + 1)%Z in
  if str_digits_ok anio && str_digits_ok nuevo_numero then
    Ok ("F" +:+ py_str_of_Z anio +:+ "-" +:+ serie +:+ format_04d nuevo_numero)
  else Raise ValueError.

(** [d.get(k)] *)
Definition dict_get (d : gmap string value) (k : string) : value :=
  default VNone (d !! k).

(** [d.get(k, {}).get(k')]: only a [dict] has a [get]. *)
Definition dict_get_nested (d : gmap string value) (k k' : string)
    : result value :=
  match default (VDict ∅) (d !! k) with
  | VDict e => Ok (dict_get e k')
  | _ => Raise AttributeError
  end.

Section Hash.
(** The built-in and library functions the hash goes through: [str(v)],
    [json.dumps(d, sort_keys=True)] (which raises on a value it cannot
    serialise) and [hashlib.sha256(s.encode()).hexdigest()]. *)
Variable py_str : value → string.
Variable json_dumps : gmap string value → result string.
Variable sha256_hexdigest : string → string.

Definition campos_hash (factura_data : gmap string value)
    : result (gmap string value) :=
  bind (dict_get_nested factura_data "emisor" "nif") (λ emisor_nif,
  bind (dict_get_nested factura_data "receptor" "nombre_completo")
    (λ receptor_nombre,
  Ok ({[ "numero" := dict_get factura_data "numero";
         "fecha_emision" := VStr (py_str (dict_get factura_data "fecha_emision"));
         "emisor_nif" := emisor_nif;
         "receptor_nombre" := receptor_nombre;
         "total_factura" := VStr (py_str (dict_get factura_data "total_factura")) ]}
      : gmap string value))).

Definition generar_hash_verifactu (factura_data : gmap string value)
    : result string :=
  bind (campos_hash factura_data) (λ campos,
  bind (json_dumps campos) (λ hash_string,
  Ok (sha256_hexdigest hash_string))).
End Hash.

Definition validar_nif_cif (nif : string) : bool :=
  if String.eqb nif "" || negb (String.length nif =? 9)%nat then false
  else
    let primera := substring 0 1 nif in
    let numeros := substring 1 7 nif in
    let ultima := substring 8 1 nif in
    if py_isalpha primera then py_isdigit numeros
    else py_isdigit (substring 0 8 nif) && py_isalpha ultima.

End FacturacionService.
Import FacturacionService.

(** ** [app/services/analytics_service.py] *)

Module AnalyticsService.

(** The service reads whole collections in their natural order.  A stored
    document is represented by the fields the service reads, at the types the
    models of [app/models] give them; [None] stands for an absent key. *)

Inductive doc_id :=
| IdObject (hex : string)
| IdStr (s : string).

#[global] Instance doc_id_eq_dec : EqDecision doc_id.
Proof. solve_decision. Defined.

Record ReceptorDoc := {
  nombre_completo : option string
}.

Record FacturaDoc := {
  estado : option string;
  receptor : option ReceptorDoc;
  total_factura : option float
}.

Record PatientDoc := {
  _id : doc_id;
  name : option string
}.

Record AppointmentDoc := {
  date : option Z;
  status : option string;
  treatment_name : option string
}.

Record Db := {
  facturas : list FacturaDoc;
  patients : list PatientDoc;
  appointments : list AppointmentDoc
}.

(** The filter [{"receptor.nombre_completo": {"$exists": True},
    "estado": {"$in": ["emitida", "pagada"]}}] *)
Definition factura_emitida_o_pagada (f : FacturaDoc) : bool :=
  match receptor f with
  | Some r => bool_decide (is_Some (nombre_completo r))
  | None => false
  end
  && match estado f with
     | Some e => bool_decide (e ∈ ["emitida"; "pagada"]%string)
     | None => false
     end.

(** [f.get("receptor", {}).get("nombre_completo")] *)
Definition receptor_nombre (f : FacturaDoc) : option string :=
  match receptor f with
  | Some r => nombre_completo r
  | None => None
  end.

Definition calculate_patient_ltv (patient_id : doc_id) (db : Db) : float :=
  let facturas := filter (λ f, factura_emitida_o_pagada f = true) (facturas db) in
  match List.find (λ p, bool_decide (_id p = patient_id)) (patients db) with
  | None => 0%float
  | Some patient =>
      let patient_facturas :=
        filter (λ f, receptor_nombre f = name patient) facturas in
      let ltv := py_sum (map (λ f, default 0%float (total_factura f)) patient_facturas) in
      round2 ltv
  end.

(** [x.get("date", datetime.min)] *)
Definition date_key (a : AppointmentDoc) : Z := default 0%Z (date a).

(** [max(appointments, key=...)] on a non-empty list: the first item whose
    key no other item exceeds. *)
Definition max_by_date (first : AppointmentDoc) (rest : list AppointmentDoc)
    : AppointmentDoc :=
  fold_left (λ best a, if (date_key best <? date_key a)%Z then a else best)
            rest first.

Definition microseconds_per_day : Z := 86400000000.

(** [(now - d).days] *)
Definition timedelta_days (now d : Z) : Z := ((now - d) / microseconds_per_day)%Z.

Definition _calculate_churn_risk (now : Z) (visits : Z) (avg_days : float)
    (appointments : list AppointmentDoc) : result string :=
  match appointments with
  | [] => Ok "alto"%string
  | first :: rest =>
      let last_appointment := max_by_date first rest in
      match date last_appointment with
      | None => Raise KeyError
      | Some d =>
          let days_since_last := timedelta_days now d in
          let by_visits := if (visits <? 3)%Z then "medio"%string else "bajo"%string in
          if (0 <? avg_days)%float then
            let ratio := (float_of_Z days_since_last / avg_days)%float in
            if (2 <? ratio)%float then Ok "alto"%string
            else if (1.5 <? ratio)%float then Ok "medio"%string
            else Ok by_visits
          else Ok by_visits
      end
  end.

(** The filter [{"date": {"$gte": period_start, "$lte": period_end}}] *)
Definition in_period (period_start period_end : Z) (a : AppointmentDoc) : bool :=
  match date a with
  | Some d => (period_start <=? d)%Z && (d <=? period_end)%Z
  | None => false
  end.

(** Truth value of [a.get("treatment_name")] *)
Definition has_treatment (a : AppointmentDoc) : bool :=
  match treatment_name a with
  | Some s => negb (String.eqb s "")
  | None => false
  end.

Definition is_completada (a : AppointmentDoc) : bool :=
  bool_decide (status a = Some "completada"%string).

(** [(a / b * 100) if b > 0 else 0] *)
Definition rate (a b : Z) : value :=
  if (0 <? b)%Z then VFloat (float_of_Z a / float_of_Z b * 100)%float
  else VInt 0.

(** The keyword arguments [analyze_conversion_funnel] passes to
    [ConversionFunnel]. *)
Definition funnel_kwargs (period_start period_end : Z)
    (appointments : list AppointmentDoc) : gmap string value :=
  let total_inquiries := Z.of_nat (length appointments) in
  let consultations :=
    Z.of_nat (length (filter (λ a, is_completada a = true) appointments)) in
  let treatments :=
    Z.of_nat (length (filter (λ a, has_treatment a = true) appointments)) in
  {[ "period_start" := VDate period_start;
     "period_end" := VDate period_end;
     "total_inquiries" := VInt total_inquiries;
     "consultations" := VInt consultations;
     "treatments" := VInt treatments;
     "consultation_conversion_rate" := rate consultations total_inquiries;
     "treatment_conversion_rate" := rate treatments consultations;
     "overall_conversion_rate" := rate treatments total_inquiries ]}.

Definition analyze_conversion_funnel (period_start period_end : Z) (db : Db)
    : result ConversionFunnel :=
  let appointments :=
    filter (λ a, in_period period_start period_end a = true) (appointments db) in
  new_ConversionFunnel (funnel_kwargs period_start period_end appointments).

End AnalyticsService.

(** ** [app/api/routes/patients.py] and [app/api/routes/facturas.py] *)

Module Routes.

(** The routes address documents by [_id]: a collection is a map from
    [ObjectId]s to documents, a document being the map of its other fields
    (so a document that is found is never an empty, false, [dict]). *)

Record Db (oid : Type) `{Countable oid} := {
  patients : gmap oid (gmap string value);
  facturas : gmap oid (gmap string value)
}.
Arguments patients {oid _ _} d.
Arguments facturas {oid _ _} d.

Definition is_none (v : value) : bool :=
  match v with
  | VNone => true
  | _ => false
  end.

(** The [try] block of [crear_factura]: any exception leaves
    [ultimo_numero] at 0. *)
Definition extraer_ultimo_numero (numero : value) : Z :=
  match numero with
  | VStr numero =>
      match split_on "-" numero !! 1%nat with
      | Some num_parte => default 0%Z (py_int (drop_first num_parte))
      | None => 0%Z
      end
  | _ => 0%Z
  end.

(** The number [crear_factura] gives an invoice that arrives without one,
    from the result [ultima_factura] of its [find_one] over the series and
    the year. *)
Definition siguiente_numero (serie : string) (anio_actual : Z)
    (ultima_factura : option (gmap string value)) : result string :=
  let ultimo_numero :=
    match ultima_factura with
    | Some doc =>
        match doc !! "numero" with
        | Some numero => extraer_ultimo_numero numero
        | None => 0%Z
        end
    | None => 0%Z
    end in
  generar_numero_factura serie anio_actual ultimo_numero.

Section Handlers.
Context {oid : Type} `{Countable oid}.

(** [ObjectId(s)] of the [bson] library, [None] when it raises
    [InvalidId]. *)
Variable ObjectId_of : string → option oid.

(** The validation error, if any, of [Factura] applied to the fields of a
    stored document. *)
Variable Factura_error : gmap string value → option string.

(** [ObjectId.is_valid(s)]: [s] is not empty and [ObjectId(s)] does not
    raise. *)
Definition is_valid (s : string) : bool :=
  negb (String.eqb s "")
  && match ObjectId_of s with
     | Some _ => true
     | None => false
     end.

(** The [ObjectId] a handler works with once [is_valid] has let the request
    id through; [None] when it has not. *)
Definition checked_id (s : string) : option oid :=
  if is_valid s then ObjectId_of s else None.

Definition set_patients (db : Db oid) (c : gmap oid (gmap string value))
    : Db oid :=
  {| patients := c; facturas := facturas db |}.

Definition set_facturas (db : Db oid) (c : gmap oid (gmap string value))
    : Db oid :=
  {| patients := patients db; facturas := c |}.

(** [update_one({"_id": o}, {"$set": update_data})] on a document. *)
Definition apply_set (update_data doc : gmap string value)
    : gmap string value :=
  update_data ∪ doc.

(** The query of [crear_factura] for the last invoice of a series and year:
    [find_one] over the invoices whose [serie] is the given one and whose
    [numero] matches the regular expression ["^F{anio}"], sorted by [numero]
    in descending order, strings being compared character by character. *)
Definition de_serie_y_anio (serie : string) (anio : Z)
    (doc : gmap string value) : bool :=
  eq_str (dict_get doc "serie") serie
  && match doc !! "numero" with
     | Some (VStr numero) => String.prefix ("F" +:+ py_str_of_Z anio) numero
     | _ => false
     end.

Definition numero_de (doc : gmap string value) : string :=
  match doc !! "numero" with
  | Some (VStr numero) => numero
  | _ => EmptyString
  end.

Definition ultima_factura (db : Db oid) (serie : string) (anio : Z)
    : option (gmap string value) :=
  match List.filter (de_serie_y_anio serie anio)
          (map snd (map_to_list (facturas db))) with
  | [] => None
  | doc :: docs =>
      Some (fold_left
              (λ best d, if String.ltb (numero_de best) (numero_de d)
                         then d else best)
              docs doc)
  end.

(** The number under which [crear_factura] stores an invoice that arrives
    with number [numero]. *)
Definition numero_asignado (db : Db oid) (numero serie : string)
    (anio_actual : Z) : result string :=
  if String.eqb numero "" then
    siguiente_numero serie anio_actual (ultima_factura db serie anio_actual)
  else Ok numero.

Definition get_patient (db : Db oid) (patient_id : string)
    : result (gmap string value) :=
  match checked_id patient_id with
  | None => Raise (HTTPException 400 "ID de paciente inválido")
  | Some o =>
      match patients db !! o with
      | None => Raise (HTTPException 404 "Paciente no encontrado")
      | Some patient => Ok patient
      end
  end.

(** [patient] holds the fields the request body sets
    ([model_dump(exclude_unset=True)]). *)
Definition update_patient (db : Db oid) (patient_id : string)
    (patient : gmap string value) (now : Z)
    : Db oid * result (gmap string value) :=
  match checked_id patient_id with
  | None => (db, Raise (HTTPException 400 "ID de paciente inválido"))
  | Some o =>
      let update_data := patient in
      if bool_decide (dom update_data = ∅) then
        (db, Raise (HTTPException 400 "No hay datos para actualizar"))
      else
        let update_data := <["updated_at" := VDate now]> update_data in
        match patients db !! o with
        | None => (db, Raise (HTTPException 404 "Paciente no encontrado"))
        | Some doc =>
            let updated_patient := apply_set update_data doc in
            (set_patients db (<[o := updated_patient]> (patients db)),
             Ok updated_patient)
        end
  end.

Definition delete_patient (db : Db oid) (patient_id : string)
    : Db oid * result unit :=
  match checked_id patient_id with
  | None => (db, Raise (HTTPException 400 "ID de paciente inválido"))
  | Some o =>
      match patients db !! o with
      | None => (db, Raise (HTTPException 404 "Paciente no encontrado"))
      | Some _ => (set_patients db (delete o (patients db)), Ok ())
      end
  end.

(** [Factura] applied to a stored document, inside a handler whose
    [except Exception] turns a failure into a 500 with prefix [what]. *)
Definition as_Factura (what : string) (doc : gmap string value)
    : result (gmap string value) :=
  match Factura_error doc with
  | None => Ok doc
  | Some e => Raise (HTTPException 500 (what +:+ e))
  end.

Definition obtener_factura (db : Db oid) (factura_id : string)
    : result (gmap string value) :=
  match checked_id factura_id with
  | None => Raise (HTTPException 400 "ID de factura invalido")
  | Some o =>
      match facturas db !! o with
      | None => Raise (HTTPException 404 "Factura no encontrada")
      | Some factura => as_Factura "Error al obtener factura: " factura
      end
  end.

(** [factura_update] holds the fields the request body sets. *)
Definition actualizar_factura (db : Db oid) (factura_id : string)
    (factura_update : gmap string value) (now : Z)
    : Db oid * result (gmap string value) :=
  match checked_id factura_id with
  | None => (db, Raise (HTTPException 400 "ID de factura invalido"))
  | Some o =>
      match facturas db !! o with
      | None => (db, Raise (HTTPException 404 "Factura no encontrada"))
      | Some factura_existente =>
          if in_strs (dict_get factura_existente "estado")
                     ["emitida"; "pagada"]%string
          then (db, Raise (HTTPException 400
                      "No se pueden editar facturas emitidas o pagadas"))
          else
            let update_data :=
              filter (λ kv, is_none kv.2 = false) factura_update in
            let update_data := <["updated_at" := VDate now]> update_data in
            let factura_actualizada := apply_set update_data factura_existente in
            (set_facturas db (<[o := factura_actualizada]> (facturas db)),
             as_Factura "Error al actualizar factura: " factura_actualizada)
      end
  end.

Definition anular_factura (db : Db oid) (factura_id : string) (now : Z)
    : Db oid * result (gmap string value) :=
  match checked_id factura_id with
  | None => (db, Raise (HTTPException 400 "ID de factura invalido"))
  | Some o =>
      match facturas db !! o with
      | None => (db, Raise (HTTPException 404 "Factura no encontrada"))
      | Some factura =>
          let update_data : gmap string value :=
            {[ "estado" := VStr "anulada"; "updated_at" := VDate now ]} in
          (set_facturas db (<[o := apply_set update_data factura]> (facturas db)),
           Ok {[ "message" := VStr "Factura anulada correctamente";
                 "factura_id" := VStr factura_id ]})
      end
  end.

(** [insert_one] with the [ObjectId] the driver generates for the document,
    [new_id]; an [_id] already in the collection is a [DuplicateKeyError]. *)
Definition insert_one (c : gmap oid (gmap string value)) (new_id : oid)
    (doc : gmap string value) : outcome (gmap oid (gmap string value)) :=
  match c !! new_id with
  | Some _ => Throw DuplicateKeyError
  | None => Return (<[new_id := doc]> c)
  end.

(** [patient] is [model_dump()] of the request body; the two times are the
    two readings of the clock, at the resolution the database keeps
    (milliseconds), so that the document found after the insert is the one
    inserted. *)
Definition create_patient (db : Db oid) (new_id : oid)
    (patient : gmap string value) (created_at updated_at : Z)
    : Db oid * outcome (gmap string value) :=
  let patient_dict :=
    <["updated_at" := VDate updated_at]>
      (<["created_at" := VDate created_at]> patient) in
  match insert_one (patients db) new_id patient_dict with
  | Throw e => (db, Throw e)
  | Return c => (set_patients db c, Return patient_dict)
  end.

Definition obtener_qr_factura (db : Db oid) (factura_id : string)
    : result (gmap string value) :=
  match checked_id factura_id with
  | None => Raise (HTTPException 400 "ID de factura invalido")
  | Some o =>
      match facturas db !! o with
      | None => Raise (HTTPException 404 "Factura no encontrada")
      | Some factura =>
          Ok {[ "factura_id" := VStr factura_id;
                "numero" := dict_get factura "numero";
                "qr_data" := dict_get factura "qr_data";
                "verificacion_hash" := dict_get factura "verificacion_hash" ]}
      end
  end.

(** [fecha_envio] and [now] are the two readings of the clock. *)
Definition enviar_factura_hacienda (db : Db oid) (factura_id : string)
    (fecha_envio now : Z) : Db oid * result (gmap string value) :=
  match checked_id factura_id with
  | None => (db, Raise (HTTPException 400 "ID de factura invalido"))
  | Some o =>
      match facturas db !! o with
      | None => (db, Raise (HTTPException 404 "Factura no encontrada"))
      | Some factura =>
          let update_data : gmap string value :=
            {[ "estado" := VStr "emitida";
               "fecha_envio_hacienda" := VDate fecha_envio;
               "respuesta_hacienda" := VStr "Aceptada (simulado)";
               "updated_at" := VDate now ]} in
          (set_facturas db (<[o := apply_set update_data factura]> (facturas db)),
           Ok {[ "message" := VStr "Factura enviada a Hacienda correctamente";
                 "factura_id" := VStr factura_id;
                 "estado" := VStr "emitida" ]})
      end
  end.

Definition procesar_pago_factura (db : Db oid) (factura_id metodo_pago : string)
    (now : Z) : Db oid * result (gmap string value) :=
  match checked_id factura_id with
  | None => (db, Raise (HTTPException 400 "ID de factura invalido"))
  | Some o =>
      match facturas db !! o with
      | None => (db, Raise (HTTPException 404 "Factura no encontrada"))
      | Some factura =>
          let update_data : gmap string value :=
            {[ "estado" := VStr "pagada";
               "forma_pago" := VStr metodo_pago;
               "updated_at" := VDate now ]} in
          (set_facturas db (<[o := apply_set update_data factura]> (facturas db)),
           Ok {[ "message" := VStr "Pago procesado correctamente";
                 "factura_id" := VStr factura_id;
                 "metodo_pago" := VStr metodo_pago;
                 "estado" := VStr "pagada" ]})
      end
  end.

(** What [crear_factura] goes through besides the database: the functions
    of the hash; [generar_qr_data_verifactu] applied to the [Factura] built
    from the dictionary, which fails when the dictionary is no valid
    [Factura]; and [str(e)] for the detail of a 500. *)
Variable py_str : value → string.
Variable json_dumps : gmap string value → result string.
Variable sha256_hexdigest : string → string.
Variable qr_data_of : gmap string value → result string.
Variable str_of_exception : exception → string.

Definition str_field (d : gmap string value) (k : string) : string :=
  match d !! k with
  | Some (VStr s) => s
  | _ => EmptyString
  end.

(** [factura] is [model_dump()] of the validated request body; its dates
    and the two timestamps are taken at the resolution the database keeps
    (milliseconds), so that the document found after the insert is the one
    inserted. *)
Definition crear_factura (db : Db oid) (new_id : oid)
    (factura : gmap string value) (anio_actual created_at updated_at : Z)
    : Db oid * result (gmap string value) :=
  let error e := Raise (HTTPException 500 ("Error al crear factura: " +:+ e)) in
  match numero_asignado db (str_field factura "numero")
          (str_field factura "serie") anio_actual with
  | Raise e => (db, error (str_of_exception (Known e)))
  | Ok numero =>
  let factura_dict := <["numero" := VStr numero]> factura in
  match generar_hash_verifactu py_str json_dumps sha256_hexdigest factura_dict with
  | Raise e => (db, error (str_of_exception (Known e)))
  | Ok verificacion_hash =>
      let factura_dict :=
        <["verificacion_hash" := VStr verificacion_hash]> factura_dict in
      match qr_data_of factura_dict with
      | Raise e => (db, error (str_of_exception (Known e)))
      | Ok qr_data =>
          let factura_dict :=
            <["updated_at" := VDate updated_at]>
              (<["created_at" := VDate created_at]>
                 (<["qr_data" := VStr qr_data]> factura_dict)) in
          match insert_one (facturas db) new_id factura_dict with
          | Throw e => (db, error (str_of_exception e))
          | Return c =>
              (set_facturas db c,
               as_Factura "Error al crear factura: " factura_dict)
          end
      end
  end
  end.

(** The handlers of appointments, conversations and message templates touch
    one collection each, which they take and return here.  [appointment] and
    [template] hold the fields the request body sets. *)

(** [app/api/routes/appointments.py] *)
Definition get_appointment (appointments : gmap oid (gmap string value))
    (appointment_id : string) : result (gmap string value) :=
  match checked_id appointment_id with
  | None => Raise (HTTPException 400 "ID de cita inválido")
  | Some o =>
      match appointments !! o with
      | None => Raise (HTTPException 404 "Cita no encontrada")
      | Some appointment => Ok appointment
      end
  end.

Definition update_appointment (appointments : gmap oid (gmap string value))
    (appointment_id : string) (appointment : gmap string value)
    : gmap oid (gmap string value) * result (gmap string value) :=
  match checked_id appointment_id with
  | None => (appointments, Raise (HTTPException 400 "ID de cita inválido"))
  | Some o =>
      let update_data := appointment in
      if bool_decide (dom update_data = ∅) then
        (appointments, Raise (HTTPException 400 "No hay datos para actualizar"))
      else
        match appointments !! o with
        | None => (appointments, Raise (HTTPException 404 "Cita no encontrada"))
        | Some doc =>
            let updated := apply_set update_data doc in
            (<[o := updated]> appointments, Ok updated)
        end
  end.

Definition delete_appointment (appointments : gmap oid (gmap string value))
    (appointment_id : string)
    : gmap oid (gmap string value) * result unit :=
  match checked_id appointment_id with
  | None => (appointments, Raise (HTTPException 400 "ID de cita inválido"))
  | Some o =>
      match appointments !! o with
      | None => (appointments, Raise (HTTPException 404 "Cita no encontrada"))
      | Some _ => (delete o appointments, Ok ())
      end
  end.

(** [app/api/routes/conversations.py] *)
Definition get_conversation (conversations : gmap oid (gmap string value))
    (conversation_id : string) : result (gmap string value) :=
  match checked_id conversation_id with
  | None => Raise (HTTPException 400 "ID de conversación inválido")
  | Some o =>
      match conversations !! o with
      | None => Raise (HTTPException 404 "Conversación no encontrada")
      | Some conversation => Ok conversation
      end
  end.

Definition update_conversation_status
    (conversations : gmap oid (gmap string value))
    (conversation_id status : string)
    : gmap oid (gmap string value) * result (gmap string value) :=
  match checked_id conversation_id with
  | None => (conversations,
             Raise (HTTPException 400 "ID de conversación inválido"))
  | Some o =>
      match conversations !! o with
      | None => (conversations,
                 Raise (HTTPException 404 "Conversación no encontrada"))
      | Some doc =>
          let updated := apply_set {[ "status" := VStr status ]} doc in
          (<[o := updated]> conversations, Ok updated)
      end
  end.

(** [app/api/routes/templates.py] *)
Definition get_message_template (message_templates : gmap oid (gmap string value))
    (template_id : string) : result (gmap string value) :=
  match checked_id template_id with
  | None => Raise (HTTPException 400 "ID de plantilla inválido")
  | Some o =>
      match message_templates !! o with
      | None => Raise (HTTPException 404 "Plantilla no encontrada")
      | Some template => Ok template
      end
  end.

Definition update_message_template (message_templates : gmap oid (gmap string value))
    (template_id : string) (template : gmap string value)
    : gmap oid (gmap string value) * result (gmap string value) :=
  match checked_id template_id with
  | None => (message_templates, Raise (HTTPException 400 "ID de plantilla inválido"))
  | Some o =>
      let update_data := template in
      if bool_decide (dom update_data = ∅) then
        (message_templates, Raise (HTTPException 400 "No hay datos para actualizar"))
      else
        match message_templates !! o with
        | None => (message_templates, Raise (HTTPException 404 "Plantilla no encontrada"))
        | Some doc =>
            let updated := apply_set update_data doc in
            (<[o := updated]> message_templates, Ok updated)
        end
  end.

Definition delete_message_template (message_templates : gmap oid (gmap string value))
    (template_id : string)
    : gmap oid (gmap string value) * result unit :=
  match checked_id template_id with
  | None => (message_templates, Raise (HTTPException 400 "ID de plantilla inválido"))
  | Some o =>
      match message_templates !! o with
      | None => (message_templates, Raise (HTTPException 404 "Plantilla no encontrada"))
      | Some _ => (delete o message_templates, Ok ())
      end
  end.
End Handlers.

(** A reading of [ObjectId] for concrete runs: 24 hexadecimal digits, taken
    case-insensitively. *)
Definition is_hex (c : ascii) : bool :=
  let n := N_of_ascii c in
  ((48 <=? n)%N && (n <=? 57)%N) || ((65 <=? n)%N && (n <=? 70)%N)
  || ((97 <=? n)%N && (n <=? 102)%N).

Definition lower (c : ascii) : ascii :=
  let n := N_of_ascii c in
  if (65 <=? n)%N && (n <=? 90)%N then ascii_of_N (n + 32) else c.

Fixpoint lower_string (s : string) : string :=
  match s with
  | EmptyString => EmptyString
  | String c s' => String (lower c) (lower_string s')
  end.

Definition hex24 (s : string) : option string :=
  if (String.length s =? 24)%nat && all_chars is_hex s
  then Some (lower_string s) else None.

End Routes.

(** ** [FacturacionService.crear_factura_desde_tratamientos] *)

Module Tratamientos.

(** A treatment is a [dict] of the request body ([tratamientos: List[dict]]):
    any JSON values under any keys. *)
Definition Tratamiento := gmap string value.

(** [iva_porcentaje.get(tipo_iva, 0.21)]: a [list] or a [dict] cannot be
    looked up, and only a string equals a key. *)
Definition iva_de (tipo_iva : value) : outcome float :=
  match tipo_iva with
  | VList _ => Throw (Known TypeError)
  | VDict _ => Throw (Known TypeError)
  | VStr t => Return (default 0.21%float (iva_porcentaje !! t))
  | _ => Return 0.21%float
  end.

(** The [float] that a pydantic [float] field holds for a number, in the
    default (lax) mode: an [int] is converted when a float is near it, a
    [bool] counts as 0 or 1. *)
Definition campo_float (v : value) : option float :=
  match v with
  | VFloat f => Some f
  | VInt z => let f := float_of_Z z in if is_infinity f then None else Some f
  | VBool b => Some (if b then 1%float else 0%float)
  | _ => None
  end.

(** [LineaFactura(...)] on the values [calcular_linea_factura] passes: the
    text fields have to be strings, the others numbers (the quantity, the
    price and the discount are numbers already when the arithmetic has not
    raised), and then the constraints of the model apply. *)
Definition new_LineaFactura_valores
    (concepto cantidad precio_unitario descuento tipo_iva
     base_imponible cuota_iva total_linea : value) : outcome LineaFactura :=
  match concepto, tipo_iva with
  | VStr concepto, VStr tipo_iva =>
      match campo_float cantidad, campo_float precio_unitario,
            campo_float descuento, campo_float base_imponible,
            campo_float cuota_iva, campo_float total_linea with
      | Some cantidad, Some precio_unitario, Some descuento,
        Some base_imponible, Some cuota_iva, Some total_linea =>
          lift (new_LineaFactura
                  {| Models.concepto := concepto;
                     Models.cantidad := cantidad;
                     Models.precio_unitario := precio_unitario;
                     Models.descuento := descuento;
                     Models.tipo_iva := tipo_iva;
                     Models.base_imponible := base_imponible;
                     Models.cuota_iva := cuota_iva;
                     Models.total_linea := total_linea |})
      | _, _, _, _, _, _ => Throw (Known ValidationError)
      end
  | _, _ => Throw (Known ValidationError)
  end.

(** [calcular_linea_factura] as Python runs it on the values of a treatment,
    which nothing has checked to be floats: two [int]s are multiplied and
    subtracted exactly, a value that is no number raises [TypeError] at the
    first operation that does not take it. *)
Definition calcular_linea_factura_valores
    (concepto cantidad precio_unitario tipo_iva descuento : value)
    : outcome LineaFactura :=
  and_then (py_mul cantidad precio_unitario) (λ subtotal_linea,
  and_then (py_gt_0 descuento) (λ con_descuento,
  and_then (if con_descuento : bool
            then and_then (py_div_100 descuento) (py_mul subtotal_linea)
            else Return (VInt 0)) (λ importe_descuento,
  and_then (py_sub subtotal_linea importe_descuento) (λ base_imponible,
  and_then (iva_de tipo_iva) (λ iva,
  and_then (py_mul base_imponible (VFloat iva)) (λ cuota_iva,
  and_then (py_add base_imponible cuota_iva) (λ total_linea,
  and_then (py_round_2 base_imponible) (λ base_imponible_2,
  and_then (py_round_2 cuota_iva) (λ cuota_iva_2,
  and_then (py_round_2 total_linea) (λ total_linea_2,
  new_LineaFactura_valores concepto cantidad precio_unitario descuento
    tipo_iva base_imponible_2 cuota_iva_2 total_linea_2)))))))))).

Section Factura.
(** [EmisorData] and [ReceptorData] objects are passed along as they are. *)
Context {EmisorData ReceptorData : Type}.

Record FacturaCreate := {
  numero : string;
  serie : string;
  fecha_emision : Z;
  fecha_vencimiento : Z;
  emisor : EmisorData;
  receptor : ReceptorData;
  lineas : list LineaFactura;
  subtotal : float;
  total_iva : float;
  total_factura : float;
  tipo_factura : string;
  estado : string;
  appointment_id : option string;
  notas : option string;
  forma_pago : string
}.

(** The constraints of [FacturaBase] that the values built here can fail:
    at least one line, and totals that are not negative. *)
Definition new_FacturaCreate (f : FacturaCreate) : result FacturaCreate :=
  if negb (Nat.eqb (length (lineas f)) 0)
     && ge0 (subtotal f) && ge0 (total_iva f) && ge0 (total_factura f)
  then Ok f else Raise ValidationError.

Definition calcular_fecha_vencimiento (fecha_emision dias_vencimiento : Z)
    : outcome Z :=
  add_days fecha_emision dias_vencimiento.

(** The call of the loop, with [tratamiento.get(key, default)] for each
    argument. *)
Definition linea_de_tratamiento (tratamiento : Tratamiento)
    : outcome LineaFactura :=
  calcular_linea_factura_valores
    (default (VStr "Tratamiento dental") (tratamiento !! "concepto"))
    (default (VInt 1) (tratamiento !! "cantidad"))
    (default (VInt 0) (tratamiento !! "precio_unitario"))
    (default (VStr "21") (tratamiento !! "tipo_iva"))
    (default (VInt 0) (tratamiento !! "descuento")).

(** [totales[k]]; the three keys are always there. *)
Definition total (totales : gmap string float) (k : string) : float :=
  default 0%float (totales !! k).

Definition crear_factura_desde_tratamientos (now : Z) (emisor : EmisorData)
    (receptor : ReceptorData) (tratamientos : list Tratamiento)
    (serie forma_pago : string) (notas appointment_id : option string)
    : outcome FacturaCreate :=
  and_then (try_each linea_de_tratamiento tratamientos) (λ lineas,
  let totales := calcular_totales_factura lineas in
  let fecha_emision := now in
  and_then (calcular_fecha_vencimiento fecha_emision 30) (λ fecha_vencimiento,
  lift (new_FacturaCreate
    {| numero := "";
       serie := serie;
       fecha_emision := fecha_emision;
       fecha_vencimiento := fecha_vencimiento;
       emisor := emisor;
       receptor := receptor;
       lineas := lineas;
       subtotal := total totales "subtotal";
       total_iva := total totales "total_iva";
       total_factura := total totales "total_factura";
       tipo_factura := "F1";
       estado := "borrador";
       appointment_id := appointment_id;
       notas := notas;
       forma_pago := forma_pago |}))).
End Factura.

End Tratamientos.

(** ** [DashboardService] and the financial dashboard *)

Module DashboardService.

(** A [datetime] object, by its attributes. *)
Record datetime := {
  year : Z;
  month : Z;
  day : Z;
  hour : Z;
  minute : Z;
  second : Z;
  microsecond : Z
}.

(** A validated [Factura], by the fields the dashboard reads. *)
Record Factura := {
  fecha_emision : datetime;
  lineas : list LineaFactura;
  total_factura : float;
  estado : string
}.

Definition emitida_o_pagada (f : Factura) : bool :=
  bool_decide (estado f ∈ ["emitida"; "pagada"]%string).

Definition del_mes (mes anio : Z) (f : Factura) : bool :=
  (month (fecha_emision f) =? mes)%Z && (year (fecha_emision f) =? anio)%Z.

Definition calcular_metricas_mensuales (facturas : list Factura)
    (mes anio : Z) : gmap string value :=
  let facturas_mes := List.filter (del_mes mes anio) facturas in
  let ingresos_total :=
    sum_floats (map total_factura (List.filter emitida_o_pagada facturas_mes)) in
  let facturas_pagadas :=
    List.filter (λ f, String.eqb (estado f) "pagada") facturas_mes in
  let ingresos_cobrados := sum_floats (map total_factura facturas_pagadas) in
  {[ "mes" := VInt mes;
     "anio" := VInt anio;
     "ingresos_total" := value_of_number (round2_number ingresos_total);
     "ingresos_cobrados" := value_of_number (round2_number ingresos_cobrados);
     "num_facturas" := VInt (Z.of_nat (length facturas_mes));
     "num_facturas_pagadas" := VInt (Z.of_nat (length facturas_pagadas)) ]}.

(** A [dict] whose order of insertion matters is the list of its items, each
    key once.  [d[k] = f(d[k])] when [k] is in [d], and [d[k] = v] at the end
    when it is not. *)
Fixpoint upsert {A} (k : string) (f : A → A) (v : A)
    (d : list (string * A)) : list (string * A) :=
  match d with
  | [] => [(k, v)]
  | (k', x) :: d' =>
      if String.eqb k' k then (k', f x) :: d' else (k', x) :: upsert k f v d'
  end.

(** The items of the result stand for the dictionaries
    [{"estado": k, "cantidad": v}]. *)
Definition contar_estado (estados_count : list (string * Z))
    (factura : Factura) : list (string * Z) :=
  upsert (estado factura) (λ n, (n + 1)%Z) 1%Z estados_count.

Definition calcular_distribucion_estados (facturas : list Factura)
    : list (string * Z) :=
  fold_left contar_estado facturas [].

(** The accumulation loop of [calcular_ingresos_por_tratamiento]. *)
Definition acumular_linea (acc : list (string * float))
    (linea : LineaFactura) : list (string * float) :=
  upsert (concepto linea)
         (λ v, (v + total_linea linea)%float) (total_linea linea) acc.

Definition acumular_factura (acc : list (string * float))
    (factura : Factura) : list (string * float) :=
  if emitida_o_pagada factura
  then fold_left acumular_linea (lineas factura) acc
  else acc.

Definition acumular_ingresos (facturas : list Factura)
    : list (string * float) :=
  fold_left acumular_factura facturas [].

Section Sorted.
(** [sorted(items, key=lambda x: x[1], reverse=True)] *)
Variable sorted_by_value : list (string * float) → list (string * float).

(** The items of the result stand for the dictionaries
    [{"tratamiento": k, "ingresos": round(v, 2)}]. *)
Definition calcular_ingresos_por_tratamiento (facturas : list Factura)
    : list (string * float) :=
  map (λ kv, (kv.1, round2 kv.2)) (sorted_by_value (acumular_ingresos facturas)).

Record DashboardFinanciero := {
  ingresos_mes_actual : float;
  ingresos_mes_anterior : float;
  ingresos_anio_actual : float;
  total_facturas : Z;
  facturas_pendientes : Z;
  facturas_pagadas : Z;
  facturas_anuladas : Z;
  importe_pendiente : float;
  importe_cobrado_mes : float;
  tratamiento_mas_facturado : option string;
  valor_medio_factura : float;
  ingresos_por_mes : list (string * number);
  ingresos_por_tratamiento : list (string * float);
  facturas_por_estado : list (string * Z)
}.

(** [metricas["ingresos_total"]], as the number it is. *)
Definition ingresos_total_del_mes (facturas : list Factura) (mes anio : Z)
    : number :=
  round2_number
    (sum_floats (map total_factura
       (List.filter emitida_o_pagada (List.filter (del_mes mes anio) facturas)))).

Definition con_estado (e : string) (f : Factura) : bool :=
  String.eqb (estado f) e.

(** The month and year of the [i]-th turn of the loop over the last twelve
    months. *)
Definition mes_hace (mes_actual anio_actual i : Z) : Z * Z :=
  let mes := (mes_actual - i)%Z in
  let anio := anio_actual in
  if (mes <=? 0)%Z then ((mes + 12)%Z, (anio - 1)%Z) else (mes, anio).

(** What [obtener_dashboard_financiero] computes once every stored document
    has been validated: the dashboard of the invoices [facturas], with
    [ahora] the current time.  The items of [ingresos_por_mes] stand for the
    dictionaries [{"mes": label, "ingresos": amount}]. *)
Definition dashboard_financiero (facturas : list Factura)
    (ahora : datetime) : DashboardFinanciero :=
  let mes_actual := month ahora in
  let anio_actual := year ahora in
  let '(mes_anterior, anio_anterior) :=
    if (mes_actual =? 1)%Z then (12%Z, (anio_actual - 1)%Z)
    else ((mes_actual - 1)%Z, anio_actual) in
  let ingresos_mes_actual := ingresos_total_del_mes facturas mes_actual anio_actual in
  let ingresos_mes_anterior :=
    ingresos_total_del_mes facturas mes_anterior anio_anterior in
  let facturas_anio :=
    List.filter (λ f, (year (fecha_emision f) =? anio_actual)%Z) facturas in
  let ingresos_anio_actual :=
    sum_floats (map total_factura (List.filter emitida_o_pagada facturas_anio)) in
  let importe_pendiente :=
    sum_floats (map total_factura (List.filter (con_estado "emitida") facturas)) in
  let importe_cobrado_mes :=
    sum_floats (map total_factura
      (List.filter (λ f, con_estado "pagada" f
                         && (month (fecha_emision f) =? mes_actual)%Z) facturas)) in
  let ingresos_por_tratamiento := calcular_ingresos_por_tratamiento facturas in
  let facturas_validas := List.filter emitida_o_pagada facturas in
  let valor_medio_factura :=
    match facturas_validas with
    | [] => Int 0
    | _ => Float (py_sum (map total_factura facturas_validas)
                  / float_of_Z (Z.of_nat (length facturas_validas)))%float
    end in
  let ingresos_por_mes :=
    fold_left
      (λ acc i,
         let '(mes, anio) := mes_hace mes_actual anio_actual i in
         (py_str_of_Z anio +:+ "-" +:+ format_02d mes,
          ingresos_total_del_mes facturas mes anio) :: acc)
      (map Z.of_nat (seq 0 12)) [] in
  {| ingresos_mes_actual := float_of_number (round2_number ingresos_mes_actual);
     ingresos_mes_anterior := float_of_number (round2_number ingresos_mes_anterior);
     ingresos_anio_actual := float_of_number (round2_number ingresos_anio_actual);
     total_facturas := Z.of_nat (length facturas);
     facturas_pendientes :=
       Z.of_nat (length (List.filter (con_estado "emitida") facturas));
     facturas_pagadas :=
       Z.of_nat (length (List.filter (con_estado "pagada") facturas));
     facturas_anuladas :=
       Z.of_nat (length (List.filter (con_estado "anulada") facturas));
     importe_pendiente := float_of_number (round2_number importe_pendiente);
     importe_cobrado_mes := float_of_number (round2_number importe_cobrado_mes);
     tratamiento_mas_facturado :=
       match ingresos_por_tratamiento with
       | [] => None
       | kv :: _ => Some kv.1
       end;
     valor_medio_factura := float_of_number (round2_number valor_medio_factura);
     ingresos_por_mes := ingresos_por_mes;
     ingresos_por_tratamiento := take 10 ingresos_por_tratamiento;
     facturas_por_estado := calcular_distribucion_estados facturas |}.

(** [Factura] applied to the fields of a stored document: the validated
    invoice, or the exception the model raises; and [str(e)]. *)
Variable Factura_de : gmap string value → result Factura.
Variable str_of_exn : exn → string.

(** The handler reads every stored invoice, [facturas_list], in stored order
    and validates each before it computes anything; the first document that
    [Factura] rejects ends the request with a 500. *)
Definition obtener_dashboard_financiero
    (facturas_list : list (gmap string value)) (ahora : datetime)
    : result DashboardFinanciero :=
  match for_each Factura_de facturas_list with
  | Ok facturas => Ok (dashboard_financiero facturas ahora)
  | Raise e =>
      Raise (HTTPException 500
               ("Error al obtener dashboard: " +:+ str_of_exn e))
  end.
End Sorted.

(** A reading of [sorted] for concrete runs: insertion in descending order of
    the amounts, an item going after the items that are not smaller. *)
Fixpoint insertar_desc (kv : string * float) (l : list (string * float))
    : list (string * float) :=
  match l with
  | [] => [kv]
  | kv' :: l' =>
      if (kv'.2 <? kv.2)%float then kv :: l else kv' :: insertar_desc kv l'
  end.

Definition ordenar_desc (l : list (string * float)) : list (string * float) :=
  foldr insertar_desc [] (rev l).

End DashboardService.

(** * Properties *)

Import AnalyticsService.

(** ** Reference definitions, in the words of the specification *)

Module Spec.

(** The VAT rate of a VAT type: 21, 10 and 4 per cent, nothing for ["0"] and
    ["exento"], and 21 per cent for any other string. *)
Definition iva_rate (t : string) : float :=
  if decide (t = "21"%string) then 0.21%float
  else if decide (t = "10"%string) then 0.10%float
  else if decide (t = "4"%string) then 0.04%float
  else if decide (t = "0"%string) then 0.00%float
  else if decide (t = "exento"%string) then 0.00%float
  else 0.21%float.

(** The value of a decimal numeral read from its most significant digit,
    starting from [acc]. *)
Fixpoint uint_val (acc : N) (d : uint) : N :=
  match d with
  | Nil => acc
  | D0 d => uint_val (10 * acc) d
  | D1 d => uint_val (10 * acc + 1) d
  | D2 d => uint_val (10 * acc + 2) d
  | D3 d => uint_val (10 * acc + 3) d
  | D4 d => uint_val (10 * acc + 4) d
  | D5 d => uint_val (10 * acc + 5) d
  | D6 d => uint_val (10 * acc + 6) d
  | D7 d => uint_val (10 * acc + 7) d
  | D8 d => uint_val (10 * acc + 8) d
  | D9 d => uint_val (10 * acc + 9) d
  end.

(** Two invoice dictionaries agree on the five core fields, each read the
    way the hash reads it. *)
Definition mismos_campos (d1 d2 : gmap string value) : Prop :=
  dict_get d1 "numero" = dict_get d2 "numero"
  ∧ dict_get d1 "fecha_emision" = dict_get d2 "fecha_emision"
  ∧ dict_get_nested d1 "emisor" "nif" = dict_get_nested d2 "emisor" "nif"
  ∧ dict_get_nested d1 "receptor" "nombre_completo"
    = dict_get_nested d2 "receptor" "nombre_completo"
  ∧ dict_get d1 "total_factura" = dict_get d2 "total_factura".

Definition campos_nucleo : list string :=
  ["numero"; "fecha_emision"; "emisor"; "receptor"; "total_factura"]%string.

(** An invoice counts towards a patient's lifetime value when its [estado] is
    ["emitida"] or ["pagada"] and it is attributed to the patient: it names a
    receiver, and the name is the patient's. *)
Definition factura_de (p : PatientDoc) (f : FacturaDoc) : Prop :=
  (estado f = Some "emitida"%string ∨ estado f = Some "pagada"%string)
  ∧ ∃ n, receptor_nombre f = Some n ∧ name p = Some n.

#[global] Instance factura_de_dec p f : Decision (factura_de p f).
Proof.
  unfold factura_de. apply and_dec; [apply _|].
  destruct (receptor_nombre f) as [n|].
  - destruct (decide (name p = Some n)) as [Hn|Hn].
    + left. eauto.
    + right. intros (n' & [= <-] & Hn'). contradiction.
  - right. intros (n' & [=] & _).
Defined.

(** The date of the latest appointment. *)
Definition ultima_fecha (first : Z) (rest : list Z) : Z :=
  fold_left Z.max rest first.

(** Churn risk from the dates of the appointments. *)
Definition churn_label (now visits : Z) (avg_days : float) (dates : list Z)
    : string :=
  match dates with
  | [] => "alto"
  | d :: ds =>
      let days_since_last :=
        ((now - ultima_fecha d ds) / microseconds_per_day)%Z in
      let ratio := (float_of_Z days_since_last / avg_days)%float in
      if (0 <? avg_days)%float && (2 <? ratio)%float then "alto"
      else if (0 <? avg_days)%float && (1.5 <? ratio)%float then "medio"
      else if (visits <? 3)%Z then "medio"
      else "bajo"
  end.

(** Successor count over predecessor count, times 100, and 0 when the
    predecessor count is 0. *)
Definition conversion_rate (successor predecessor : nat) : value :=
  match predecessor with
  | O => VInt 0
  | S _ =>
      VFloat (float_of_Z (Z.of_nat successor)
              / float_of_Z (Z.of_nat predecessor) * 100)%float
  end.

(** The value under a key of an ordered dictionary. *)
Fixpoint assoc {A} (k : string) (d : list (string * A)) : option A :=
  match d with
  | [] => None
  | (k', x) :: d' => if String.eqb k' k then Some x else assoc k d'
  end.

(** The number of invoices in a given [estado]. *)
Definition facturas_en_estado (e : string)
    (facturas : list DashboardService.Factura) : nat :=
  length (List.filter (DashboardService.con_estado e) facturas).



(** The amounts billed under a concept: the [total_linea] of the lines with
    that concept in the invoices that are ["emitida"] or ["pagada"], in
    stored order. *)
Definition importes_de (c : string) (lineas : list LineaFactura) : list float :=
  map total_linea (List.filter (λ l, String.eqb (concepto l) c) lineas).

Definition lineas_facturadas (facturas : list DashboardService.Factura)
    : list LineaFactura :=
  concat (map DashboardService.lineas
            (List.filter DashboardService.emitida_o_pagada facturas)).

(** Adding amounts to a running total that may not have started. *)
Definition sumar (o : option float) (xs : list float) : option float :=
  fold_left (λ o x, Some (match o with
                          | Some v => (v + x)%float
                          | None => x
                          end)) xs o.

(** The invoices in none of the three counted states. *)
Definition en_otro_estado (f : DashboardService.Factura) : bool :=
  negb (DashboardService.con_estado "emitida" f)
  && negb (DashboardService.con_estado "pagada" f)
  && negb (DashboardService.con_estado "anulada" f).

(** The value an update leaves under a key of an invoice: the time of the
    update for [updated_at], the value the update sets when it is not
    [None], and the stored value otherwise. *)
Definition campo_actualizado (factura_update factura : gmap string value)
    (now : Z) (k : string) : option value :=
  if decide (k = "updated_at"%string) then Some (VDate now)
  else match factura_update !! k with
       | Some v => if Routes.is_none v then factura !! k else Some v
       | None => factura !! k
       end.

End Spec.

(** ** Invoice lines and totals *)

Section Lineas.

Lemma iva_porcentaje_rate (t : string) :
  default 0.21%float (iva_porcentaje !! t) = Spec.iva_rate t.
Proof.
  unfold Spec.iva_rate.
  repeat (case_decide; [subst t; vm_compute; reflexivity|]).
  unfold iva_porcentaje.
  rewrite !lookup_insert_ne by congruence.
  rewrite lookup_singleton_ne by congruence.
  reflexivity.
Qed.

Lemma float_neq (a b : float) : (a =? b)%float ≠ (a =? a)%float → a ≠ b.
Proof. intros Hne ->. apply Hne. reflexivity. Qed.

(** C3, as amended.  For a quantity and a unit price that are not negative,
    a discount between 0 and 100 and one of the five VAT types, the line has
    [base_imponible] equal to [q*p - q*p*(d/100)] (no subtraction when the
    discount is 0), evaluated in binary64 in that order and rounded to two
    decimals, [cuota_iva] equal to the unrounded base times the rate of the
    VAT type, rounded, and [total_linea] equal to the unrounded base plus the
    unrounded VAT, rounded; the line is returned when the three rounded
    amounts pass the model's [ge=0] validation.  Any other VAT type is
    rejected by the model. *)
Theorem calcular_linea_factura_amounts (c : string) (q p d : float) (t : string) :
  ge0 q = true → ge0 p = true → ge0 d = true → le100 d = true →
  let sub := (q * p)%float in
  let base := (sub - (if (0 <? d)%float then sub * (d / 100) else 0))%float in
  let cuota := (base * Spec.iva_rate t)%float in
  let total := (base + cuota)%float in
  (t ∈ tipos_iva →
   ge0 (round2 base) = true → ge0 (round2 cuota) = true →
   ge0 (round2 total) = true →
   calcular_linea_factura c q p t d =
     Ok {| concepto := c; cantidad := q; precio_unitario := p;
           descuento := d; tipo_iva := t;
           base_imponible := round2 base;
           cuota_iva := round2 cuota;
           total_linea := round2 total |})
  ∧ (t ∉ tipos_iva → calcular_linea_factura c q p t d = Raise ValidationError).
Proof.
  intros Hq Hp Hd0 Hd100 sub base cuota total.
  unfold calcular_linea_factura, new_LineaFactura, LineaFactura_valid.
  rewrite iva_porcentaje_rate. cbn [cantidad precio_unitario descuento tipo_iva
    base_imponible cuota_iva total_linea].
  fold sub. fold base. fold cuota. fold total.
  rewrite Hq, Hp, Hd0, Hd100. cbn [andb].
  split.
  - intros Ht Hb Hc Htot.
    rewrite (bool_decide_eq_true_2 _ Ht), Hb, Hc, Htot. reflexivity.
  - intros Ht. rewrite (bool_decide_eq_false_2 _ Ht). reflexivity.
Qed.

Lemma calcular_linea_factura_amounts_witness :
  calcular_linea_factura "Empaste" 1 3.45 "21" 10 =
    Ok {| concepto := "Empaste"; cantidad := 1; precio_unitario := 3.45;
          descuento := 10; tipo_iva := "21";
          base_imponible := 3.1; cuota_iva := 0.65; total_linea := 3.76 |}.
Proof.
  refine (proj1 (calcular_linea_factura_amounts "Empaste" 1 3.45 10 "21"
                   _ _ _ _) _ _ _ _);
    first [ vm_compute; reflexivity | repeat constructor ].
Defined.

(** C3 as stated fails twice: a VAT type outside the five is rejected instead
    of being charged 21 per cent, and for a price of 3.45 with a 10 per cent
    discount the line carries a base of 3.10 where [q*p*(1 - d/100)] rounds
    to 3.11. *)
Lemma calcular_linea_factura_not_as_stated :
  calcular_linea_factura "Empaste" 1 1 "99" 0 = Raise ValidationError
  ∧ ∃ l, calcular_linea_factura "Empaste" 1 3.45 "21" 10 = Ok l
         ∧ base_imponible l = 3.1%float
         ∧ round2 (1 * 3.45 * (1 - 10 / 100)) = 3.11%float
         ∧ base_imponible l ≠ round2 (1 * 3.45 * (1 - 10 / 100)).
Proof.
  split; [vm_compute; reflexivity|].
  eexists. split; [vm_compute; reflexivity|].
  cbn [base_imponible].
  split; [reflexivity|]. split; [vm_compute; reflexivity|].
  apply float_neq. vm_compute. discriminate.
Qed.

(** What the function computes: for a non-empty list of lines the three
    totals are the sums of the lines' [base_imponible], [cuota_iva] and
    [total_linea], each rounded to two decimals on its own. *)
Lemma calcular_totales_factura_sums (lineas : list LineaFactura) :
  lineas ≠ [] →
  calcular_totales_factura lineas !! "subtotal"
    = Some (round2 (py_sum (map base_imponible lineas)))
  ∧ calcular_totales_factura lineas !! "total_iva"
    = Some (round2 (py_sum (map cuota_iva lineas)))
  ∧ calcular_totales_factura lineas !! "total_factura"
    = Some (round2 (py_sum (map total_linea lineas)))
  ∧ dom (calcular_totales_factura lineas)
    = {[ "subtotal"; "total_iva"; "total_factura" ]}.
Proof.
  intros _. unfold calcular_totales_factura.
  split; [|split; [|split]].
  - apply lookup_insert_eq.
  - rewrite lookup_insert_ne by discriminate. apply lookup_insert_eq.
  - rewrite !lookup_insert_ne by discriminate. apply lookup_singleton_eq.
  - rewrite !dom_insert_L, dom_singleton_L. set_solver.
Qed.

(** C1.  The totals of an invoice do not add up: on the single line that
    [calcular_linea_factura] builds for one unit at 1.00 with a 5 per cent
    discount and 10 per cent VAT, [calcular_totales_factura] returns a
    subtotal of 0.95, VAT of 0.10 and a total of 1.04, where the subtotal
    plus the VAT is 1.05.  The line's total is rounded from the unrounded
    base and VAT (0.95 + 0.095), and the invoice total is the sum of the
    line totals, not the subtotal plus the VAT. *)
Theorem calcular_totales_factura_total_diverges :
  ∃ l, calcular_linea_factura "Revision" 1 1 "10" 5 = Ok l
       ∧ base_imponible l = 0.95%float
       ∧ cuota_iva l = 0.1%float
       ∧ total_linea l = 1.04%float
       ∧ calcular_totales_factura [l] !! "subtotal" = Some 0.95%float
       ∧ calcular_totales_factura [l] !! "total_iva" = Some 0.1%float
       ∧ calcular_totales_factura [l] !! "total_factura" = Some 1.04%float
       ∧ round2 (0.95 + 0.1) = 1.05%float
       ∧ (1.04 =? 1.05)%float = false.
Proof.
  eexists. split; [vm_compute; reflexivity|].
  cbn [base_imponible cuota_iva total_linea].
  split; [reflexivity|]. split; [reflexivity|]. split; [reflexivity|].
  split; [vm_compute; reflexivity|].
  split; [vm_compute; reflexivity|].
  split; [vm_compute; reflexivity|].
  split; vm_compute; reflexivity.
Qed.

End Lineas.

(** ** Invoice numbers *)

Section Numeros.

Lemma uint_val_of_lu (d : uint) (acc : N) :
  Spec.uint_val acc d
  = (Unsigned.of_lu (Decimal.rev d) + acc * 10 ^ Unsigned.usize d)%N.
Proof.
  revert acc. induction d; intros acc; cbn [Spec.uint_val Unsigned.usize];
    [ cbn; lia | .. ];
    rewrite IHd; unfold Decimal.rev; cbn [Decimal.revapp];
    rewrite (Unsigned.of_lu_revapp d (_ Nil)); unfold Decimal.rev;
    cbn [Unsigned.of_lu]; rewrite N.pow_succ_r'; lia.
Qed.

Lemma uint_val_to_uint (n : N) : Spec.uint_val 0 (N.to_uint n) = n.
Proof.
  rewrite uint_val_of_lu, N.mul_0_l, N.add_0_r.
  rewrite <- Unsigned.of_uint_alt.
  exact (DecimalN.Unsigned.of_to n).
Qed.

Ltac digit_step IH :=
  match goal with
  | |- context [is_digit ?c] =>
      change (is_digit c) with true; cbv iota;
      let v := eval vm_compute in (digit_value c) in
      change (digit_value c) with v
  end;
  rewrite <- (IH _ true) by (right; reflexivity); f_equal; lia.

Lemma int_digits_uint (d : uint) (acc : N) (b : bool) :
  d ≠ Nil ∨ b = true →
  int_digits (Z.of_N acc) b (NilEmpty.string_of_uint d)
  = Some (Z.of_N (Spec.uint_val acc d)).
Proof.
  revert acc b. induction d; intros acc b Hb;
    cbn [NilEmpty.string_of_uint int_digits Spec.uint_val];
    try digit_step IHd.
  destruct Hb as [Hb| ->]; [congruence | reflexivity].
Qed.

Lemma string_of_uint_digits (d : uint) :
  all_chars is_digit (NilEmpty.string_of_uint d) = true.
Proof. induction d; cbn [NilEmpty.string_of_uint all_chars]; auto. Qed.

Lemma string_of_uint_nonempty (n : N) :
  NilEmpty.string_of_uint (N.to_uint n) ≠ EmptyString.
Proof.
  destruct n as [|p]; [discriminate|].
  cbn [N.to_uint]. pose proof (Unsigned.to_uint_nonnil p) as Hp.
  destruct (Pos.to_uint p); [congruence | discriminate ..].
Qed.

Lemma is_digit_cases (c : ascii) :
  is_digit c = true →
  is_space c = false ∧ c ≠ "+"%char ∧ c ≠ "-"%char ∧ c ≠ "_"%char.
Proof.
  destruct c as [[] [] [] [] [] [] [] []]; vm_compute; intros Hc;
    try discriminate Hc; repeat split; discriminate.
Qed.

Lemma all_chars_app (P : ascii → bool) (s1 s2 : string) :
  all_chars P (s1 +:+ s2) = all_chars P s1 && all_chars P s2.
Proof.
  induction s1 as [|c s1 IH]; simpl; [reflexivity|].
  rewrite IH. apply andb_assoc.
Qed.

Lemma zeros_digits (k : nat) : all_chars is_digit (zeros k) = true.
Proof. induction k; cbn [zeros all_chars]; auto. Qed.

Lemma lstrip_digits (s : string) : all_chars is_digit s = true → lstrip s = s.
Proof.
  destruct s as [|c s]; [reflexivity|]. cbn [all_chars lstrip].
  intros [Hc _]%andb_true_iff.
  destruct (is_digit_cases c Hc) as [-> _]. reflexivity.
Qed.

Lemma rstrip_digits (s : string) : all_chars is_digit s = true → rstrip s = s.
Proof.
  induction s as [|c s IH]; [reflexivity|]. cbn [all_chars rstrip].
  intros [Hc Hs]%andb_true_iff. rewrite (IH Hs).
  destruct (is_digit_cases c Hc) as [-> _]. destruct s; reflexivity.
Qed.

Lemma count_digits_le (s : string) : (count_digits s ≤ String.length s)%nat.
Proof.
  induction s as [|c s IH]; cbn [count_digits String.length]; [lia|].
  destruct (is_digit c); lia.
Qed.

(** On a non-empty string of at most [int_max_str_digits] digits [int] reads
    the digits. *)
Lemma py_int_digits (s : string) :
  s ≠ EmptyString → all_chars is_digit s = true →
  (String.length s ≤ int_max_str_digits)%nat →
  py_int s = int_digits 0 false s.
Proof.
  intros Hne Hs Hlen. unfold py_int.
  rewrite (lstrip_digits s Hs), (rstrip_digits s Hs).
  destruct s as [|c s]; [congruence|].
  cbn [all_chars] in Hs. apply andb_true_iff in Hs as [Hc _].
  assert (Hcount : (int_max_str_digits <? count_digits (String c s))%nat = false).
  { apply Nat.ltb_ge. pose proof (count_digits_le (String c s)). lia. }
  destruct c as [[] [] [] [] [] [] [] []];
    try (vm_compute in Hc; discriminate Hc); rewrite Hcount; reflexivity.
Qed.

Lemma int_digits_zeros (k : nat) (b : bool) (s : string) :
  int_digits 0 b (zeros k +:+ s)
  = int_digits 0 (b || negb (Nat.eqb k 0)) s.
Proof.
  revert b. induction k as [|k IH]; intros b.
  - cbn. rewrite orb_false_r. reflexivity.
  - cbn [zeros].
    change (String "0" (zeros k) +:+ s) with (String "0" (zeros k +:+ s)).
    cbn [int_digits].
    change (is_digit "0") with true. cbv iota.
    change (10 * 0 + digit_value "0")%Z with 0%Z.
    rewrite IH. cbn. rewrite orb_true_r. reflexivity.
Qed.

Lemma length_zeros (k : nat) : String.length (zeros k) = k.
Proof. induction k; cbn [zeros String.length]; congruence. Qed.

Lemma length_append (s1 s2 : string) :
  String.length (s1 +:+ s2) = (String.length s1 + String.length s2)%nat.
Proof. induction s1 as [|c s1 IH]; simpl; [reflexivity|]. rewrite IH. reflexivity. Qed.

Lemma length_zfill (width : nat) (s : string) :
  String.length (zfill width s) = Nat.max width (String.length s).
Proof. unfold zfill. rewrite length_append, length_zeros. lia. Qed.

(** Reading back a number printed with at least [width] digits. *)
Lemma py_int_zfill (width : nat) (z : Z) :
  (0 ≤ z)%Z → (width ≤ int_max_str_digits)%nat →
  (String.length (str_of_nonneg z) ≤ int_max_str_digits)%nat →
  py_int (zfill width (str_of_nonneg z)) = Some z.
Proof.
  intros Hz Hwidth Hlen.
  pose proof (length_zfill width (str_of_nonneg z)) as Hfill.
  revert Hfill. unfold zfill, str_of_nonneg in *.
  set (d := N.to_uint (Z.to_N z)) in *.
  set (k := (width - String.length (NilEmpty.string_of_uint d))%nat).
  intros Hfill.
  assert (Hd : d ≠ Nil).
  { unfold d. destruct (Z.to_N z) as [|p]; [discriminate|].
    apply Unsigned.to_uint_nonnil. }
  rewrite py_int_digits.
  - rewrite int_digits_zeros.
    rewrite (int_digits_uint d 0) by (left; exact Hd).
    unfold d. rewrite uint_val_to_uint. f_equal. lia.
  - pose proof (string_of_uint_nonempty (Z.to_N z)) as Hne. fold d in Hne.
    destruct k; [exact Hne | discriminate].
  - rewrite all_chars_app, zeros_digits, string_of_uint_digits. reflexivity.
  - rewrite Hfill. lia.
Qed.

Lemma split_on_free (sep : ascii) (s : string) :
  all_chars (λ c, negb (Ascii.eqb c sep)) s = true → split_on sep s = [s].
Proof.
  induction s as [|c s IH]; [reflexivity|]. cbn [all_chars split_on].
  intros [Hc Hs]%andb_true_iff. apply negb_true_iff in Hc. rewrite Hc.
  rewrite (IH Hs). reflexivity.
Qed.

Lemma split_on_first (sep : ascii) (s1 s2 : string) :
  all_chars (λ c, negb (Ascii.eqb c sep)) s1 = true →
  split_on sep (s1 +:+ String sep s2) = s1 :: split_on sep s2.
Proof.
  induction s1 as [|c s1 IH]; cbn [all_chars].
  - intros _. change (EmptyString +:+ String sep s2) with (String sep s2).
    cbn [split_on]. rewrite Ascii.eqb_refl. reflexivity.
  - intros [Hc Hs]%andb_true_iff. apply negb_true_iff in Hc.
    change (String c s1 +:+ String sep s2)
      with (String c (s1 +:+ String sep s2)).
    cbn [split_on]. rewrite Hc, (IH Hs). reflexivity.
Qed.

Lemma digits_dash_free (s : string) :
  all_chars is_digit s = true →
  all_chars (λ c, negb (Ascii.eqb c "-")) s = true.
Proof.
  induction s as [|c s IH]; [reflexivity|]. cbn [all_chars].
  intros [Hc Hs]%andb_true_iff. rewrite (IH Hs), andb_true_r.
  apply negb_true_iff, Ascii.eqb_neq. apply (is_digit_cases c Hc).
Qed.

Lemma format_04d_nonneg (z : Z) :
  (0 ≤ z)%Z → format_04d z = zfill 4 (py_str_of_Z z).
Proof.
  intros Hz. unfold format_04d, py_str_of_Z.
  destruct (Z.ltb_spec z 0); [lia | reflexivity].
Qed.

Lemma generar_numero_factura_ok (serie : string) (anio n : Z) (numero : string) :
  generar_numero_factura serie anio n = Ok numero →
  str_digits_ok (n + 1) = true
  ∧ numero = "F" +:+ py_str_of_Z anio +:+ "-" +:+ serie +:+ format_04d (n + 1).
Proof.
  unfold generar_numero_factura.
  destruct (str_digits_ok anio); [|discriminate].
  destruct (str_digits_ok (n + 1)); [|discriminate].
  intros [= <-]. split; reflexivity.
Qed.

Lemma extraer_generado (c : ascii) (anio n : Z) (numero : string) :
  c ≠ "-"%char → (0 ≤ anio)%Z → (0 ≤ n)%Z →
  generar_numero_factura (String c EmptyString) anio n = Ok numero →
  Routes.extraer_ultimo_numero (VStr numero) = (n + 1)%Z.
Proof.
  intros Hc Hanio Hn Hgen.
  apply generar_numero_factura_ok in Hgen as [Hdig ->].
  unfold str_digits_ok in Hdig. apply Nat.leb_le in Hdig.
  rewrite Z.abs_eq in Hdig by lia.
  unfold Routes.extraer_ultimo_numero.
  rewrite format_04d_nonneg by lia.
  unfold py_str_of_Z.
  destruct (Z.ltb_spec anio 0) as [|_]; [lia|].
  destruct (Z.ltb_spec (n + 1) 0) as [|_]; [lia|].
  change ("F" +:+ str_of_nonneg anio +:+ "-" +:+ String c EmptyString
          +:+ zfill 4 (str_of_nonneg (n + 1)))
    with (String "F" (str_of_nonneg anio)
          +:+ String "-" (String c (zfill 4 (str_of_nonneg (n + 1))))).
  rewrite split_on_first.
  - cbn [split_on]. apply Ascii.eqb_neq in Hc. rewrite Hc.
    rewrite split_on_free.
    + cbn [lookup list_lookup drop_first].
      rewrite py_int_zfill; [reflexivity | lia | unfold int_max_str_digits; lia
                            | exact Hdig].
    + apply digits_dash_free. unfold zfill, str_of_nonneg.
      rewrite all_chars_app, zeros_digits, string_of_uint_digits. reflexivity.
  - cbn [all_chars]. change (negb (Ascii.eqb "F" "-")) with true.
    cbn [andb]. apply digits_dash_free, string_of_uint_digits.
Qed.

(** What the numbering does achieve: a number that [generar_numero_factura]
    returns is ["F{anio}-{serie}"] followed by [n + 1] padded with zeros to
    four digits; and when the series is one character other than the hyphen
    and the year is not negative, the extraction of [crear_factura] recovers
    [n + 1] from it, so that the number after it is built from [n + 1]. *)
Lemma numero_factura_sequential (c : ascii) (anio n : Z) (numero : string) :
  c ≠ "-"%char → (0 ≤ anio)%Z → (0 ≤ n)%Z →
  let serie := String c EmptyString in
  generar_numero_factura serie anio n = Ok numero →
  numero = "F" +:+ py_str_of_Z anio +:+ "-" +:+ serie
           +:+ zfill 4 (py_str_of_Z (n + 1))
  ∧ Routes.extraer_ultimo_numero (VStr numero) = (n + 1)%Z
  ∧ ∀ ultima : gmap string value,
      ultima !! "numero" = Some (VStr numero) →
      Routes.siguiente_numero serie anio (Some ultima)
      = generar_numero_factura serie anio (n + 1).
Proof.
  intros Hc Hanio Hn serie Hgen. split; [|split].
  - apply generar_numero_factura_ok in Hgen as [_ ->].
    rewrite format_04d_nonneg by lia. reflexivity.
  - exact (extraer_generado c anio n numero Hc Hanio Hn Hgen).
  - intros ultima Hnum. unfold Routes.siguiente_numero. rewrite Hnum.
    rewrite (extraer_generado c anio n numero Hc Hanio Hn Hgen). reflexivity.
Qed.

(** C2.  [crear_factura] gives an invoice that arrives without a number a
    number that is already stored, in two cases.  With a series of two
    letters the number of the last invoice reads back as 0 ([int] fails on
    what is left after one character is dropped, and the bare [except]
    keeps 0), so the second invoice of series AB is numbered F2025-AB0001
    like the first.  Past 9999 the descending sort of [numero], a sort of
    strings, finds 9999 and not 10000 as the last invoice, so the invoice
    after F2025-A10000 is numbered F2025-A10000 again. *)
Theorem numero_asignado_repetido :
  let factura serie numero : gmap string value :=
    {[ "serie" := VStr serie; "numero" := VStr numero ]} in
  let db1 := {| Routes.patients := ∅;
                Routes.facturas := {[ 1%positive := factura "AB" "F2025-AB0001" ]} |} in
  let db2 := {| Routes.patients := ∅;
                Routes.facturas :=
                  {[ 1%positive := factura "A" "F2025-A9999";
                     2%positive := factura "A" "F2025-A10000" ]} |} in
  generar_numero_factura "AB" 2025 0 = Ok "F2025-AB0001"%string
  ∧ Routes.ultima_factura db1 "AB" 2025 = Some (factura "AB" "F2025-AB0001")
  ∧ Routes.extraer_ultimo_numero (VStr "F2025-AB0001") = 0%Z
  ∧ Routes.numero_asignado db1 "" "AB" 2025 = Ok "F2025-AB0001"%string
  ∧ generar_numero_factura "A" 2025 9998 = Ok "F2025-A9999"%string
  ∧ generar_numero_factura "A" 2025 9999 = Ok "F2025-A10000"%string
  ∧ Routes.ultima_factura db2 "A" 2025 = Some (factura "A" "F2025-A9999")
  ∧ Routes.numero_asignado db2 "" "A" 2025 = Ok "F2025-A10000"%string.
Proof.
  intros factura db1 db2.
  split; [vm_compute; reflexivity|].
  split; [vm_compute; reflexivity|].
  split; [vm_compute; reflexivity|].
  split; [vm_compute; reflexivity|].
  split; [vm_compute; reflexivity|].
  split; [vm_compute; reflexivity|].
  split; vm_compute; reflexivity.
Qed.

End Numeros.

(** ** The verification hash *)

Section HashProps.
Variable py_str : value → string.
Variable json_dumps : gmap string value → result string.
Variable sha256_hexdigest : string → string.

#[local] Abbreviation hash :=
  (generar_hash_verifactu py_str json_dumps sha256_hexdigest).

Lemma hash_mismos_campos (d1 d2 : gmap string value) :
  Spec.mismos_campos d1 d2 → hash d1 = hash d2.
Proof.
  intros (Hnum & Hfecha & Hnif & Hnombre & Htotal).
  unfold generar_hash_verifactu, campos_hash.
  rewrite Hnum, Hfecha, Hnif, Hnombre, Htotal. reflexivity.
Qed.

Lemma dict_get_insert_ne (d : gmap string value) (k k' : string) (v : value) :
  k ≠ k' → dict_get (<[k := v]> d) k' = dict_get d k'.
Proof. intros Hk. unfold dict_get. rewrite lookup_insert_ne by exact Hk. reflexivity. Qed.

Lemma dict_get_nested_insert_ne (d : gmap string value) (k k1 k2 : string)
    (v : value) :
  k ≠ k1 → dict_get_nested (<[k := v]> d) k1 k2 = dict_get_nested d k1 k2.
Proof.
  intros Hk. unfold dict_get_nested.
  rewrite lookup_insert_ne by exact Hk. reflexivity.
Qed.

Lemma dict_get_nested_inner (d e : gmap string value) (k1 k2 k : string)
    (v : value) :
  d !! k1 = Some (VDict e) → k ≠ k2 →
  dict_get_nested (<[k1 := VDict (<[k := v]> e)]> d) k1 k2
  = dict_get_nested d k1 k2.
Proof.
  intros Hd Hk. unfold dict_get_nested.
  rewrite lookup_insert_eq, Hd. simpl.
  rewrite dict_get_insert_ne by exact Hk. reflexivity.
Qed.

(** C4.  The hash of an invoice dictionary is the SHA-256 digest of the JSON
    dump of five entries read from it; two invoice dictionaries that agree
    on [numero], [fecha_emision], the emitter's [nif], the receiver's
    [nombre_completo] and [total_factura] have the same hash; and the hash
    does not change when any other field of the invoice, or any other field
    of the emitter or of the receiver, is set to any value. *)
Theorem generar_hash_verifactu_core_fields :
  (∀ d emisor receptor hash_string,
     d !! "emisor" = Some (VDict emisor) →
     d !! "receptor" = Some (VDict receptor) →
     json_dumps
       {[ "numero" := dict_get d "numero";
          "fecha_emision" := VStr (py_str (dict_get d "fecha_emision"));
          "emisor_nif" := dict_get emisor "nif";
          "receptor_nombre" := dict_get receptor "nombre_completo";
          "total_factura" := VStr (py_str (dict_get d "total_factura")) ]}
     = Ok hash_string →
     hash d = Ok (sha256_hexdigest hash_string))
  ∧ (∀ d1 d2, Spec.mismos_campos d1 d2 → hash d1 = hash d2)
  ∧ (∀ d k v, k ∉ Spec.campos_nucleo → hash (<[k := v]> d) = hash d)
  ∧ (∀ d e k v, d !! "emisor" = Some (VDict e) → k ≠ "nif"%string →
       hash (<["emisor" := VDict (<[k := v]> e)]> d) = hash d)
  ∧ (∀ d e k v, d !! "receptor" = Some (VDict e) →
       k ≠ "nombre_completo"%string →
       hash (<["receptor" := VDict (<[k := v]> e)]> d) = hash d).
Proof.
  split; [|split; [exact hash_mismos_campos|split; [|split]]].
  - intros d emisor receptor hash_string He Hr Hjson.
    unfold generar_hash_verifactu, campos_hash, dict_get_nested.
    rewrite He, Hr. simpl. rewrite Hjson. reflexivity.
  - intros d k v Hk. apply hash_mismos_campos.
    unfold Spec.campos_nucleo in Hk.
    rewrite !not_elem_of_cons in Hk.
    destruct Hk as (H1 & H2 & H3 & H4 & H5 & _).
    repeat split;
      first [ apply dict_get_insert_ne | apply dict_get_nested_insert_ne ];
      assumption.
  - intros d e k v Hd Hk. apply hash_mismos_campos.
    split; [|split; [|split; [|split]]];
      first [ apply dict_get_nested_inner; assumption
            | apply dict_get_insert_ne; discriminate
            | apply dict_get_nested_insert_ne; discriminate ].
  - intros d e k v Hd Hk. apply hash_mismos_campos.
    split; [|split; [|split; [|split]]];
      first [ apply dict_get_nested_inner; assumption
            | apply dict_get_insert_ne; discriminate
            | apply dict_get_nested_insert_ne; discriminate ].
Qed.
End HashProps.

(** A run of C4 with stand-ins for the library functions: changing [estado]
    leaves the hash as it was. *)
Lemma generar_hash_verifactu_core_fields_witness :
  let py_str := λ v, match v with VStr s => s | _ => "None"%string end in
  let json_dumps := λ d : gmap string value,
    match d !! "numero" with Some (VStr s) => Ok s | _ => Raise TypeError end in
  let factura : gmap string value :=
    {[ "numero" := VStr "F2025-A0001";
       "emisor" := VDict {[ "nif" := VStr "B12345678" ]};
       "estado" := VStr "borrador" ]} in
  generar_hash_verifactu py_str json_dumps id
    (<["estado" := VStr "emitida"]> factura)
  = generar_hash_verifactu py_str json_dumps id factura.
Proof.
  intros py_str json_dumps factura.
  refine (proj1 (proj2 (proj2 (generar_hash_verifactu_core_fields
                                 py_str json_dumps id))) factura "estado" _ _).
  unfold Spec.campos_nucleo. rewrite !not_elem_of_cons.
  repeat split; try discriminate. apply not_elem_of_nil.
Defined.

(** ** Analytics *)

Section Analytics.

Lemma find_unique (pid : doc_id) (ps : list PatientDoc) (p : PatientDoc) :
  NoDup (map _id ps) → p ∈ ps → _id p = pid →
  List.find (λ q, bool_decide (_id q = pid)) ps = Some p.
Proof.
  induction ps as [|q ps IH]; intros Hnd Hin Hid.
  - inversion Hin.
  - cbn [map] in Hnd. apply NoDup_cons in Hnd as [Hq Hnd].
    cbn [List.find]. destruct (decide (_id q = pid)) as [Hqid|Hqid].
    + rewrite (bool_decide_eq_true_2 _ Hqid).
      apply elem_of_cons in Hin as [->|Hin]; [reflexivity|].
      exfalso. apply Hq. rewrite Hqid, <- Hid.
      apply list_elem_of_fmap. exists p. split; [reflexivity | exact Hin].
    + rewrite (bool_decide_eq_false_2 _ Hqid).
      apply elem_of_cons in Hin as [->|Hin]; [contradiction|].
      apply IH; assumption.
Qed.

Lemma find_none (pid : doc_id) (ps : list PatientDoc) :
  (∀ p, p ∈ ps → _id p ≠ pid) →
  List.find (λ q, bool_decide (_id q = pid)) ps = None.
Proof.
  induction ps as [|q ps IH]; intros Hall; [reflexivity|].
  cbn [List.find].
  rewrite bool_decide_eq_false_2 by (apply Hall; left).
  apply IH. intros p Hp. apply Hall. right. exact Hp.
Qed.

Lemma facturas_del_paciente (p : PatientDoc) (l : list FacturaDoc) :
  filter (λ f, receptor_nombre f = name p)
    (filter (λ f, factura_emitida_o_pagada f = true) l)
  = filter (Spec.factura_de p) l.
Proof.
  rewrite list_filter_filter. apply list_filter_iff. intros f.
  unfold Spec.factura_de, factura_emitida_o_pagada, receptor_nombre.
  rewrite andb_true_iff.
  destruct (receptor f) as [r|]; [|cbn].
  - destruct (nombre_completo r) as [n|]; cbn.
    + destruct (estado f) as [e|].
      * rewrite bool_decide_eq_true, !elem_of_cons, elem_of_nil.
        split.
        -- intros (Hn & _ & [->| [->|[]]]); (split; [auto | eauto]).
        -- intros ([[= ->]|[= ->]] & n' & [= <-] & Hn'); auto.
      * split; [intros (_ & _ & [=]) | intros ([[=]|[=]] & _)].
    + split; [intros (_ & [=] & _) | intros (_ & n' & [=] & _)].
  - split; [intros (_ & [=] & _) | intros (_ & n' & [=] & _)].
Qed.

(** What the function computes from the id it is given: the sum, rounded to
    two decimals, of [total_factura] over the invoices whose [estado] is
    ["emitida"] or ["pagada"] and whose receiver has the name of the patient
    stored under that very id, taken in stored order; 0 when no patient is
    stored under it. *)
Lemma calculate_patient_ltv_billed (patient_id : doc_id) (db : Db) :
  ((∀ p, p ∈ patients db → _id p ≠ patient_id) →
   calculate_patient_ltv patient_id db = 0%float)
  ∧ (∀ p, NoDup (map _id (patients db)) → p ∈ patients db →
       _id p = patient_id →
       calculate_patient_ltv patient_id db
       = round2 (py_sum (map (λ f, default 0%float (total_factura f))
                            (filter (Spec.factura_de p) (facturas db))))).
Proof.
  unfold calculate_patient_ltv. split.
  - intros Hnone. rewrite (find_none _ _ Hnone). reflexivity.
  - intros p Hnd Hin Hid. rewrite (find_unique _ _ p Hnd Hin Hid).
    rewrite facturas_del_paciente. reflexivity.
Qed.

(** C5.  [calculate_patient_ltv] receives the patient id as the string of
    the request and queries [{"_id": patient_id}] with it, without the
    [ObjectId(...)] that the route handlers apply.  The patients the
    application stores have an [ObjectId] as [_id], which no string equals:
    no patient is found and the function returns 0 for every id, whatever
    has been billed to the patient. *)
Theorem calculate_patient_ltv_str_id (patient_id : string) (db : Db) :
  (∀ p, p ∈ patients db → ∃ hex, _id p = IdObject hex) →
  calculate_patient_ltv (IdStr patient_id) db = 0%float.
Proof.
  intros Hids.
  apply (proj1 (calculate_patient_ltv_billed (IdStr patient_id) db)).
  intros p Hp Hid. destruct (Hids p Hp) as [hex Hhex]. congruence.
Qed.

(** Ana has been billed 72.60 in two invoices; asked with her id as the
    request carries it, the function returns 0. *)
Lemma calculate_patient_ltv_str_id_witness :
  let ana := {| _id := IdObject "507f1f77bcf86cd799439011";
                name := Some "Ana Ruiz"%string |} in
  let luis := {| _id := IdObject "507f1f77bcf86cd799439012";
                 name := Some "Luis Gil"%string |} in
  let factura nombre estado total :=
    {| estado := Some estado;
       receptor := Some {| nombre_completo := Some nombre |};
       total_factura := Some total |} in
  let db :=
    {| facturas := [ factura "Ana Ruiz" "pagada" 60.5%float;
                     factura "Luis Gil" "emitida" 30%float;
                     factura "Ana Ruiz" "borrador" 99%float;
                     factura "Ana Ruiz" "emitida" 12.1%float ]%string;
       patients := [ana; luis];
       appointments := [] |} in
  calculate_patient_ltv (IdStr "507f1f77bcf86cd799439011") db = 0%float
  ∧ calculate_patient_ltv (IdObject "507f1f77bcf86cd799439011") db
    = 72.6%float.
Proof.
  intros ana luis factura db. split.
  - apply calculate_patient_ltv_str_id. intros p Hp. cbn in Hp.
    apply elem_of_cons in Hp as [->|Hp]; [eexists; reflexivity|].
    apply elem_of_cons in Hp as [->|Hp]; [eexists; reflexivity|].
    inversion Hp.
  - vm_compute. reflexivity.
Defined.

Lemma max_by_date_key (rest : list AppointmentDoc) (first : AppointmentDoc) :
  date_key (max_by_date first rest)
  = Spec.ultima_fecha (date_key first) (map date_key rest).
Proof.
  unfold max_by_date, Spec.ultima_fecha.
  revert first. induction rest as [|a rest IH]; intros first; [reflexivity|].
  cbn [fold_left map]. rewrite IH. f_equal.
  destruct (Z.ltb_spec (date_key first) (date_key a)); lia.
Qed.

Lemma max_by_date_in (rest : list AppointmentDoc) (first : AppointmentDoc) :
  max_by_date first rest ∈ first :: rest.
Proof.
  unfold max_by_date.
  revert first. induction rest as [|a rest IH]; intros first; [left|].
  cbn [fold_left].
  destruct (date_key first <? date_key a)%Z.
  - right. apply IH.
  - specialize (IH first). apply elem_of_cons in IH as [->|IH].
    + left.
    + right. right. exact IH.
Qed.

(** C6.  When every appointment carries its date, the churn risk is ["alto"]
    for an empty list; otherwise it is ["alto"] when the average interval is
    positive and the days since the latest appointment divided by it exceed
    2, ["medio"] when that ratio exceeds 1.5, and otherwise ["medio"] for
    fewer than 3 visits and ["bajo"] in every remaining case. *)
Theorem calculate_churn_risk_label (now visits : Z) (avg_days : float)
    (appointments : list AppointmentDoc) :
  Forall (λ a, is_Some (date a)) appointments →
  _calculate_churn_risk now visits avg_days appointments
  = Ok (Spec.churn_label now visits avg_days (map date_key appointments)).
Proof.
  intros Hdates. destruct appointments as [|first rest]; [reflexivity|].
  cbn [_calculate_churn_risk Spec.churn_label map].
  pose proof (max_by_date_in rest first) as Hin.
  rewrite Forall_forall in Hdates. destruct (Hdates _ Hin) as [d Hd].
  rewrite Hd.
  pose proof (max_by_date_key rest first) as Hkey.
  unfold date_key at 1 in Hkey. rewrite Hd in Hkey. cbn in Hkey.
  rewrite <- Hkey. unfold timedelta_days.
  destruct (0 <? avg_days)%float; cbn [andb]; [|reflexivity].
  destruct (2 <? _)%float; [reflexivity|].
  destruct (1.5 <? _)%float; reflexivity.
Qed.

Lemma calculate_churn_risk_label_witness :
  let day := microseconds_per_day in
  let cita d := {| date := Some (d * day)%Z; status := Some "completada"%string;
                   treatment_name := None |} in
  _calculate_churn_risk (1000 * day) 5 90 [cita 100; cita 700; cita 400]%Z
  = Ok "alto"%string.
Proof.
  intros day cita.
  refine (eq_trans (calculate_churn_risk_label _ _ _ _ _) _).
  - repeat constructor; eexists; reflexivity.
  - vm_compute. reflexivity.
Defined.

Lemma rate_conversion_rate (a b : nat) :
  rate (Z.of_nat a) (Z.of_nat b) = Spec.conversion_rate a b.
Proof.
  unfold rate, Spec.conversion_rate. destruct b as [|b]; [reflexivity|].
  destruct (Z.ltb_spec 0 (Z.of_nat (S b))); [reflexivity | lia].
Qed.

(** C7, on the code.  The three rates [analyze_conversion_funnel] computes
    are the guarded quotients the specification describes, but the call
    never returns a funnel: the model requires ten fields the call does not
    pass, so its constructor raises for every period and every content of
    the appointment collection. *)
Theorem analyze_conversion_funnel_raises (period_start period_end : Z) (db : Db) :
  let citas :=
    filter (λ a, in_period period_start period_end a = true) (appointments db) in
  let inquiries := length citas in
  let consultations := length (filter (λ a, is_completada a = true) citas) in
  let treatments := length (filter (λ a, has_treatment a = true) citas) in
  let kw := funnel_kwargs period_start period_end citas in
  kw !! "consultation_conversion_rate"
    = Some (Spec.conversion_rate consultations inquiries)
  ∧ kw !! "treatment_conversion_rate"
    = Some (Spec.conversion_rate treatments consultations)
  ∧ kw !! "overall_conversion_rate"
    = Some (Spec.conversion_rate treatments inquiries)
  ∧ kw !! "scheduled_appointments" = None
  ∧ analyze_conversion_funnel period_start period_end db = Raise ValidationError.
Proof.
  intros citas inquiries consultations treatments kw.
  unfold analyze_conversion_funnel. fold citas. fold kw.
  assert (Hmissing : kw !! "scheduled_appointments" = None).
  { unfold kw, funnel_kwargs.
    rewrite !lookup_insert_ne by discriminate.
    apply lookup_singleton_ne. discriminate. }
  unfold kw at 1 2 3. unfold funnel_kwargs.
  rewrite !rate_conversion_rate.
  split; [|split; [|split; [|split]]].
  - rewrite !lookup_insert_ne by discriminate. apply lookup_insert_eq.
  - rewrite !lookup_insert_ne by discriminate. apply lookup_insert_eq.
  - rewrite !lookup_insert_ne by discriminate. apply lookup_singleton_eq.
  - exact Hmissing.
  - unfold new_ConversionFunnel.
    assert (field_datetime kw "period_start" = Ok period_start) as ->.
    { unfold field_datetime, kw, funnel_kwargs.
      rewrite lookup_insert_eq. reflexivity. }
    assert (field_datetime kw "period_end" = Ok period_end) as ->.
    { unfold field_datetime, kw, funnel_kwargs.
      rewrite lookup_insert_ne by discriminate.
      rewrite lookup_insert_eq. reflexivity. }
    assert (field_count kw "total_inquiries" = Ok (Z.of_nat inquiries)) as ->.
    { unfold field_count, kw, funnel_kwargs.
      rewrite !lookup_insert_ne by discriminate.
      rewrite lookup_insert_eq. fold inquiries.
      destruct (Z.leb_spec 0 (Z.of_nat inquiries)); [reflexivity | lia]. }
    cbn [bind]. unfold field_count at 1. rewrite Hmissing. reflexivity.
Qed.

End Analytics.

(** ** Route handlers *)

Section RouteProps.
Context {oid : Type} `{Countable oid}.
Variable ObjectId_of : string → option oid.
Variable Factura_error : gmap string value → option string.

#[local] Abbreviation get_patient := (Routes.get_patient ObjectId_of).
#[local] Abbreviation update_patient := (Routes.update_patient ObjectId_of).
#[local] Abbreviation delete_patient := (Routes.delete_patient ObjectId_of).
#[local] Abbreviation obtener_factura :=
  (Routes.obtener_factura ObjectId_of Factura_error).
#[local] Abbreviation actualizar_factura :=
  (Routes.actualizar_factura ObjectId_of Factura_error).
#[local] Abbreviation anular_factura := (Routes.anular_factura ObjectId_of).
#[local] Abbreviation obtener_qr_factura :=
  (Routes.obtener_qr_factura ObjectId_of).
#[local] Abbreviation enviar_factura_hacienda :=
  (Routes.enviar_factura_hacienda ObjectId_of).
#[local] Abbreviation procesar_pago_factura :=
  (Routes.procesar_pago_factura ObjectId_of).
#[local] Abbreviation get_appointment := (Routes.get_appointment ObjectId_of).
#[local] Abbreviation update_appointment :=
  (Routes.update_appointment ObjectId_of).
#[local] Abbreviation delete_appointment :=
  (Routes.delete_appointment ObjectId_of).
#[local] Abbreviation get_conversation := (Routes.get_conversation ObjectId_of).
#[local] Abbreviation update_conversation_status :=
  (Routes.update_conversation_status ObjectId_of).
#[local] Abbreviation get_message_template :=
  (Routes.get_message_template ObjectId_of).
#[local] Abbreviation update_message_template :=
  (Routes.update_message_template ObjectId_of).
#[local] Abbreviation delete_message_template :=
  (Routes.delete_message_template ObjectId_of).

Lemma checked_id_valid (id : string) (o : oid) :
  Routes.is_valid ObjectId_of id = true → ObjectId_of id = Some o →
  Routes.checked_id ObjectId_of id = Some o.
Proof. intros Hv Ho. unfold Routes.checked_id. rewrite Hv. exact Ho. Qed.

Lemma checked_id_invalid (id : string) :
  Routes.is_valid ObjectId_of id = false →
  Routes.checked_id ObjectId_of id = None.
Proof. intros Hv. unfold Routes.checked_id. rewrite Hv. reflexivity. Qed.

(** C8, as amended.  For patients, appointments, conversations, message
    templates and invoices: with an id that is a well-formed [ObjectId]
    matching no stored document, reading, updating and deleting fail with
    404 and leave the database as it was, except that an update of a
    patient, an appointment or a message template whose request sets no
    field fails with 400 before any lookup; with an id that is not a
    well-formed [ObjectId] every one of them fails with 400 and leaves the
    database as it was. *)
Theorem crud_not_found (db : Routes.Db oid)
    (appointments conversations message_templates : gmap oid (gmap string value))
    (id : string) :
  (∀ o, Routes.is_valid ObjectId_of id = true → ObjectId_of id = Some o →
     Routes.patients db !! o = None →
     get_patient db id = Raise (HTTPException 404 "Paciente no encontrado")
     ∧ (∀ patient now, dom patient ≠ ∅ →
          update_patient db id patient now
          = (db, Raise (HTTPException 404 "Paciente no encontrado")))
     ∧ (∀ now, update_patient db id ∅ now
          = (db, Raise (HTTPException 400 "No hay datos para actualizar")))
     ∧ delete_patient db id
       = (db, Raise (HTTPException 404 "Paciente no encontrado")))
  ∧ (∀ o, Routes.is_valid ObjectId_of id = true → ObjectId_of id = Some o →
     Routes.facturas db !! o = None →
     obtener_factura db id = Raise (HTTPException 404 "Factura no encontrada")
     ∧ (∀ factura_update now,
          actualizar_factura db id factura_update now
          = (db, Raise (HTTPException 404 "Factura no encontrada")))
     ∧ (∀ now, anular_factura db id now
          = (db, Raise (HTTPException 404 "Factura no encontrada")))
     ∧ obtener_qr_factura db id
       = Raise (HTTPException 404 "Factura no encontrada")
     ∧ (∀ fecha_envio now, enviar_factura_hacienda db id fecha_envio now
          = (db, Raise (HTTPException 404 "Factura no encontrada")))
     ∧ (∀ metodo_pago now, procesar_pago_factura db id metodo_pago now
          = (db, Raise (HTTPException 404 "Factura no encontrada"))))
  ∧ (∀ o, Routes.is_valid ObjectId_of id = true → ObjectId_of id = Some o →
     appointments !! o = None →
     get_appointment appointments id
     = Raise (HTTPException 404 "Cita no encontrada")
     ∧ (∀ appointment, dom appointment ≠ ∅ →
          update_appointment appointments id appointment
          = (appointments, Raise (HTTPException 404 "Cita no encontrada")))
     ∧ update_appointment appointments id ∅
       = (appointments, Raise (HTTPException 400 "No hay datos para actualizar"))
     ∧ delete_appointment appointments id
       = (appointments, Raise (HTTPException 404 "Cita no encontrada")))
  ∧ (∀ o, Routes.is_valid ObjectId_of id = true → ObjectId_of id = Some o →
     conversations !! o = None →
     get_conversation conversations id
     = Raise (HTTPException 404 "Conversación no encontrada")
     ∧ (∀ status, update_conversation_status conversations id status
          = (conversations,
             Raise (HTTPException 404 "Conversación no encontrada"))))
  ∧ (∀ o, Routes.is_valid ObjectId_of id = true → ObjectId_of id = Some o →
     message_templates !! o = None →
     get_message_template message_templates id
     = Raise (HTTPException 404 "Plantilla no encontrada")
     ∧ (∀ template, dom template ≠ ∅ →
          update_message_template message_templates id template
          = (message_templates,
             Raise (HTTPException 404 "Plantilla no encontrada")))
     ∧ update_message_template message_templates id ∅
       = (message_templates,
          Raise (HTTPException 400 "No hay datos para actualizar"))
     ∧ delete_message_template message_templates id
       = (message_templates,
          Raise (HTTPException 404 "Plantilla no encontrada")))
  ∧ (Routes.is_valid ObjectId_of id = false →
     get_patient db id = Raise (HTTPException 400 "ID de paciente inválido")
     ∧ (∀ patient now, update_patient db id patient now
          = (db, Raise (HTTPException 400 "ID de paciente inválido")))
     ∧ delete_patient db id
       = (db, Raise (HTTPException 400 "ID de paciente inválido"))
     ∧ obtener_factura db id = Raise (HTTPException 400 "ID de factura invalido")
     ∧ (∀ factura_update now, actualizar_factura db id factura_update now
          = (db, Raise (HTTPException 400 "ID de factura invalido")))
     ∧ (∀ now, anular_factura db id now
          = (db, Raise (HTTPException 400 "ID de factura invalido")))
     ∧ obtener_qr_factura db id
       = Raise (HTTPException 400 "ID de factura invalido")
     ∧ (∀ fecha_envio now, enviar_factura_hacienda db id fecha_envio now
          = (db, Raise (HTTPException 400 "ID de factura invalido")))
     ∧ (∀ metodo_pago now, procesar_pago_factura db id metodo_pago now
          = (db, Raise (HTTPException 400 "ID de factura invalido")))
     ∧ get_appointment appointments id
       = Raise (HTTPException 400 "ID de cita inválido")
     ∧ (∀ appointment, update_appointment appointments id appointment
          = (appointments, Raise (HTTPException 400 "ID de cita inválido")))
     ∧ delete_appointment appointments id
       = (appointments, Raise (HTTPException 400 "ID de cita inválido"))
     ∧ get_conversation conversations id
       = Raise (HTTPException 400 "ID de conversación inválido")
     ∧ (∀ status, update_conversation_status conversations id status
          = (conversations,
             Raise (HTTPException 400 "ID de conversación inválido")))
     ∧ get_message_template message_templates id
       = Raise (HTTPException 400 "ID de plantilla inválido")
     ∧ (∀ template, update_message_template message_templates id template
          = (message_templates,
             Raise (HTTPException 400 "ID de plantilla inválido")))
     ∧ delete_message_template message_templates id
       = (message_templates,
          Raise (HTTPException 400 "ID de plantilla inválido"))).
Proof.
  split; [|split; [|split; [|split; [|split]]]].
  - intros o Hv Ho Hnone.
    unfold Routes.get_patient, Routes.update_patient, Routes.delete_patient.
    rewrite (checked_id_valid id o Hv Ho), Hnone. split; [reflexivity|]. split; [|split].
    + intros patient now Hdom.
      rewrite (bool_decide_eq_false_2 _ Hdom). reflexivity.
    + intros now. rewrite dom_empty_L.
      rewrite bool_decide_eq_true_2 by reflexivity. reflexivity.
    + reflexivity.
  - intros o Hv Ho Hnone.
    unfold Routes.obtener_factura, Routes.actualizar_factura,
      Routes.anular_factura, Routes.obtener_qr_factura,
      Routes.enviar_factura_hacienda, Routes.procesar_pago_factura.
    rewrite (checked_id_valid id o Hv Ho), Hnone. repeat split.
  - intros o Hv Ho Hnone.
    unfold Routes.get_appointment, Routes.update_appointment,
      Routes.delete_appointment.
    rewrite (checked_id_valid id o Hv Ho), Hnone. split; [reflexivity|]. split; [|split].
    + intros appointment Hdom.
      rewrite (bool_decide_eq_false_2 _ Hdom). reflexivity.
    + rewrite dom_empty_L.
      rewrite bool_decide_eq_true_2 by reflexivity. reflexivity.
    + reflexivity.
  - intros o Hv Ho Hnone.
    unfold Routes.get_conversation, Routes.update_conversation_status.
    rewrite (checked_id_valid id o Hv Ho), Hnone. split; reflexivity.
  - intros o Hv Ho Hnone.
    unfold Routes.get_message_template, Routes.update_message_template,
      Routes.delete_message_template.
    rewrite (checked_id_valid id o Hv Ho), Hnone. split; [reflexivity|]. split; [|split].
    + intros template Hdom.
      rewrite (bool_decide_eq_false_2 _ Hdom). reflexivity.
    + rewrite dom_empty_L.
      rewrite bool_decide_eq_true_2 by reflexivity. reflexivity.
    + reflexivity.
  - intros Hinv.
    unfold Routes.get_patient, Routes.update_patient, Routes.delete_patient,
      Routes.obtener_factura, Routes.actualizar_factura,
      Routes.anular_factura, Routes.obtener_qr_factura,
      Routes.enviar_factura_hacienda, Routes.procesar_pago_factura,
      Routes.get_appointment,
      Routes.update_appointment, Routes.delete_appointment,
      Routes.get_conversation, Routes.update_conversation_status,
      Routes.get_message_template, Routes.update_message_template,
      Routes.delete_message_template.
    rewrite (checked_id_invalid id Hinv).
    split; [reflexivity|]. split; [reflexivity|]. split; [reflexivity|].
    split; [reflexivity|]. split; [reflexivity|]. split; [reflexivity|].
    split; [reflexivity|]. split; [reflexivity|]. split; [reflexivity|].
    split; [reflexivity|]. split; [reflexivity|]. split; [reflexivity|].
    split; [reflexivity|]. split; [reflexivity|]. split; [reflexivity|].
    split; reflexivity.
Qed.

(** C9.  For a stored invoice whose [estado] is ["emitida"] or ["pagada"],
    [actualizar_factura] rejects every update with a 400 and leaves the
    database, and so the stored invoice, as it was. *)
Theorem actualizar_factura_emitida (db : Routes.Db oid) (id : string) (o : oid)
    (factura factura_update : gmap string value) (now : Z) :
  Routes.is_valid ObjectId_of id = true → ObjectId_of id = Some o →
  Routes.facturas db !! o = Some factura →
  factura !! "estado" = Some (VStr "emitida")
  ∨ factura !! "estado" = Some (VStr "pagada") →
  actualizar_factura db id factura_update now
  = (db, Raise (HTTPException 400
                  "No se pueden editar facturas emitidas o pagadas"))
  ∧ Routes.facturas (actualizar_factura db id factura_update now).1 !! o
    = Some factura.
Proof.
  intros Hv Ho Hdoc Hestado.
  assert (Hrej : actualizar_factura db id factura_update now
    = (db, Raise (HTTPException 400
                    "No se pueden editar facturas emitidas o pagadas"))).
  { unfold Routes.actualizar_factura.
    rewrite (checked_id_valid id o Hv Ho), Hdoc.
    unfold dict_get. destruct Hestado as [-> | ->]; reflexivity. }
  split; [exact Hrej|]. rewrite Hrej. exact Hdoc.
Qed.

(** C10.  For a stored invoice, [anular_factura] answers with its message
    and keeps the same set of invoice ids (so the same number of invoices);
    the targeted invoice has [estado] set to ["anulada"] and [updated_at]
    set to the time of the call and every other field as before; every
    other invoice and the patients are as before. *)
Theorem anular_factura_frame (db : Routes.Db oid) (id : string) (o : oid)
    (factura : gmap string value) (now : Z) :
  Routes.is_valid ObjectId_of id = true → ObjectId_of id = Some o →
  Routes.facturas db !! o = Some factura →
  ∃ db' factura',
    anular_factura db id now
    = (db', Ok {[ "message" := VStr "Factura anulada correctamente";
                  "factura_id" := VStr id ]})
    ∧ size (Routes.facturas db') = size (Routes.facturas db)
    ∧ dom (Routes.facturas db') = dom (Routes.facturas db)
    ∧ Routes.facturas db' !! o = Some factura'
    ∧ factura' !! "estado" = Some (VStr "anulada")
    ∧ factura' !! "updated_at" = Some (VDate now)
    ∧ (∀ k, k ≠ "estado"%string → k ≠ "updated_at"%string →
         factura' !! k = factura !! k)
    ∧ (∀ o', o' ≠ o → Routes.facturas db' !! o' = Routes.facturas db !! o')
    ∧ Routes.patients db' = Routes.patients db.
Proof.
  intros Hv Ho Hdoc. unfold Routes.anular_factura.
  rewrite (checked_id_valid id o Hv Ho), Hdoc.
  eexists _, _. split; [reflexivity|].
  cbn [Routes.set_facturas Routes.facturas Routes.patients].
  split; [|split; [|split; [|split; [|split; [|split; [|split]]]]]].
  - apply map_size_insert_Some. eauto.
  - apply dom_insert_lookup_L. eauto.
  - apply lookup_insert_eq.
  - unfold Routes.apply_set. apply lookup_union_Some_l.
    apply lookup_insert_eq.
  - unfold Routes.apply_set. apply lookup_union_Some_l.
    rewrite lookup_insert_ne by discriminate. apply lookup_singleton_eq.
  - intros k Hk1 Hk2. unfold Routes.apply_set. apply lookup_union_r.
    rewrite lookup_insert_ne by congruence.
    apply lookup_singleton_ne. congruence.
  - intros o' Ho'. apply lookup_insert_ne. congruence.
  - reflexivity.
Qed.
End RouteProps.

(** An update of a patient that sets no field: well-formed id, no such
    patient, and the answer is 400, not 404. *)
Lemma update_patient_sin_datos :
  Routes.is_valid Routes.hex24 "507f1f77bcf86cd799439011" = true
  ∧ Routes.hex24 "507f1f77bcf86cd799439011"
    = Some "507f1f77bcf86cd799439011"%string
  ∧ Routes.update_patient Routes.hex24
      {| Routes.patients := ∅; Routes.facturas := ∅ |}
      "507f1f77bcf86cd799439011" ∅ 0
    = ({| Routes.patients := ∅; Routes.facturas := ∅ |},
       Raise (HTTPException 400 "No hay datos para actualizar")).
Proof. split; [|split]; vm_compute; reflexivity. Qed.

Lemma crud_not_found_witness :
  Routes.delete_patient Routes.hex24
    {| Routes.patients := ∅; Routes.facturas := ∅ |}
    "507f1f77bcf86cd799439011"
  = ({| Routes.patients := ∅; Routes.facturas := ∅ |},
     Raise (HTTPException 404 "Paciente no encontrado"))
  ∧ Routes.update_appointment Routes.hex24 ∅ "507f1f77bcf86cd799439011"
      {[ "status" := VStr "cancelled" ]}
    = (∅, Raise (HTTPException 404 "Cita no encontrada"))
  ∧ Routes.obtener_factura Routes.hex24 (λ _, None)
      {| Routes.patients := ∅; Routes.facturas := ∅ |} "123"
    = Raise (HTTPException 400 "ID de factura invalido").
Proof.
  pose proof (crud_not_found Routes.hex24 (λ _, None)
                {| Routes.patients := ∅; Routes.facturas := ∅ |} ∅ ∅ ∅
                "507f1f77bcf86cd799439011") as (Hp & _ & Ha & _).
  pose proof (crud_not_found Routes.hex24 (λ _, None)
                {| Routes.patients := ∅; Routes.facturas := ∅ |} ∅ ∅ ∅
                "123") as (_ & _ & _ & _ & _ & Hinv).
  split; [|split].
  - refine (proj2 (proj2 (proj2 (Hp "507f1f77bcf86cd799439011"%string _ _ _))));
      vm_compute; reflexivity.
  - refine (proj1 (proj2 (Ha "507f1f77bcf86cd799439011"%string _ _ _)) _ _);
      [vm_compute; reflexivity ..|].
    apply (bool_decide_eq_false_1 (dom _ = ∅)). vm_compute. reflexivity.
  - refine (proj1 (proj2 (proj2 (proj2 (Hinv _))))). vm_compute. reflexivity.
Defined.

Lemma actualizar_factura_emitida_witness :
  let factura : gmap string value :=
    {[ "numero" := VStr "F2025-A0001"; "estado" := VStr "emitida";
       "total_factura" := VFloat 121 ]} in
  let db := {| Routes.patients := ∅;
               Routes.facturas := {[ "507f1f77bcf86cd799439011"%string := factura ]} |} in
  Routes.actualizar_factura Routes.hex24 (λ _, None) db
    "507f1f77bcf86cd799439011" {[ "total_factura" := VFloat 1 ]} 7
  = (db, Raise (HTTPException 400
                  "No se pueden editar facturas emitidas o pagadas")).
Proof.
  intros factura db.
  refine (proj1 (actualizar_factura_emitida Routes.hex24 (λ _, None) db
                   "507f1f77bcf86cd799439011" "507f1f77bcf86cd799439011"%string
                   factura _ 7 _ _ _ _)).
  - vm_compute. reflexivity.
  - vm_compute. reflexivity.
  - apply lookup_singleton_eq.
  - left. vm_compute. reflexivity.
Defined.

Lemma anular_factura_frame_witness :
  let factura : gmap string value :=
    {[ "numero" := VStr "F2025-A0001"; "estado" := VStr "emitida";
       "total_factura" := VFloat 121 ]} in
  let db := {| Routes.patients := ∅;
               Routes.facturas := {[ "507f1f77bcf86cd799439011"%string := factura ]} |} in
  ∃ db' factura',
    (Routes.anular_factura Routes.hex24 db "507f1f77bcf86cd799439011" 7).1 = db'
    ∧ size (Routes.facturas db') = 1%nat
    ∧ Routes.facturas db' !! "507f1f77bcf86cd799439011"%string = Some factura'
    ∧ factura' !! "estado" = Some (VStr "anulada")
    ∧ factura' !! "numero" = Some (VStr "F2025-A0001").
Proof.
  intros factura db.
  destruct (anular_factura_frame Routes.hex24 db
              "507f1f77bcf86cd799439011" "507f1f77bcf86cd799439011"%string
              factura 7 eq_refl eq_refl (lookup_singleton_eq _ _))
    as (db' & factura' & Hrun & Hsize & _ & Hdoc & Hestado & _ & Hframe & _).
  exists db', factura'. rewrite Hrun.
  split; [reflexivity|]. split; [|split; [|split]].
  - rewrite Hsize. reflexivity.
  - exact Hdoc.
  - exact Hestado.
  - rewrite Hframe by discriminate. vm_compute. reflexivity.
Defined.

(** ** NIF and CIF validation *)

Section Nif.

Lemma length_7 (s : string) :
  String.length s = 7%nat →
  ∃ c1 c2 c3 c4 c5 c6 c7,
    s = String c1 (String c2 (String c3 (String c4 (String c5 (String c6
          (String c7 EmptyString)))))).
Proof.
  intros Hlen.
  do 7 (destruct s as [|? s]; [discriminate Hlen|]).
  destruct s; [|discriminate Hlen]. eauto 8.
Qed.

Lemma length_app_string (s1 s2 : string) :
  String.length (s1 +:+ s2) = (String.length s1 + String.length s2)%nat.
Proof. induction s1 as [|c s1 IH]; simpl; [reflexivity|]. rewrite IH. reflexivity. Qed.

(** The accepted values, character by character. *)
Lemma validar_nif_cif_chars (c0 c8 : ascii) (cs : string) :
  String.length cs = 7%nat →
  validar_nif_cif (String c0 (cs +:+ String c8 EmptyString))
  = all_chars is_digit cs && (is_alpha c0 || is_digit c0 && is_alpha c8).
Proof.
  intros Hlen. destruct (length_7 cs Hlen) as (c1&c2&c3&c4&c5&c6&c7&->).
  cbv -[is_alpha is_digit].
  destruct (is_alpha c0), (is_digit c0), (is_digit c1), (is_digit c2),
    (is_digit c3), (is_digit c4), (is_digit c5), (is_digit c6),
    (is_digit c7), (is_alpha c8); reflexivity.
Qed.

End Nif.

(** ** NIF and CIF validation, continued *)

Section NifProps.

Lemma length_9 (s : string) :
  String.length s = 9%nat →
  ∃ c0 cs c8, s = String c0 (cs +:+ String c8 EmptyString)
              ∧ String.length cs = 7%nat.
Proof.
  intros Hlen.
  do 9 (destruct s as [|? s]; [discriminate Hlen|]).
  destruct s; [|discriminate Hlen].
  eexists _, (String _ (String _ (String _ (String _ (String _ (String _
                (String _ EmptyString))))))), _.
  split; reflexivity.
Qed.

Lemma validar_nif_cif_length (s : string) :
  validar_nif_cif s = true → String.length s = 9%nat.
Proof.
  unfold validar_nif_cif.
  destruct (String.eqb s ""); [discriminate|]. cbn [orb].
  destruct (Nat.eqb_spec (String.length s) 9) as [Hlen|]; [auto | discriminate].
Qed.

(** X1. A value, of ASCII characters, is accepted exactly when it has nine
    characters, the second to the eighth are digits, and either the first is
    a letter or the first is a digit and the last a letter. *)
Theorem validar_nif_cif_accepts (s : string) :
  validar_nif_cif s = true
  ↔ ∃ c0 cs c8,
      s = String c0 (cs +:+ String c8 EmptyString)
      ∧ String.length cs = 7%nat
      ∧ all_chars is_digit cs = true
      ∧ (is_alpha c0 = true ∨ is_digit c0 = true ∧ is_alpha c8 = true).
Proof.
  split.
  - intros Hv. pose proof (validar_nif_cif_length s Hv) as Hlen.
    destruct (length_9 s Hlen) as (c0 & cs & c8 & -> & Hcs).
    rewrite (validar_nif_cif_chars c0 c8 cs Hcs) in Hv.
    apply andb_true_iff in Hv as [Hd Hv].
    exists c0, cs, c8. repeat (split; [assumption || reflexivity|]).
    apply orb_true_iff in Hv as [Hv|Hv]; [left; exact Hv|].
    right. apply andb_true_iff. exact Hv.
  - intros (c0 & cs & c8 & -> & Hcs & Hd & Hv).
    rewrite (validar_nif_cif_chars c0 c8 cs Hcs), Hd. cbn [andb].
    destruct Hv as [->| [-> ->]]; [reflexivity|]. apply orb_true_r.
Qed.

(** X2. No control character is checked: an accepted value stays accepted
    when its last character is replaced by any letter, and, when it starts
    with a letter, by any character at all. *)
Theorem validar_nif_cif_last_char (c0 c8 c : ascii) (cs : string) :
  String.length cs = 7%nat →
  validar_nif_cif (String c0 (cs +:+ String c8 EmptyString)) = true →
  is_alpha c = true ∨ is_alpha c0 = true →
  validar_nif_cif (String c0 (cs +:+ String c EmptyString)) = true.
Proof.
  intros Hcs Hv Hc.
  rewrite (validar_nif_cif_chars c0 c8 cs Hcs) in Hv.
  rewrite (validar_nif_cif_chars c0 c cs Hcs).
  apply andb_true_iff in Hv as [-> Hv]. cbn [andb].
  destruct (is_alpha c0); [reflexivity|]. cbn [orb] in *.
  apply andb_true_iff in Hv as [-> _]. cbn [andb].
  destruct Hc as [Hc|Hc]; [exact Hc | discriminate].
Qed.

Lemma validar_nif_cif_last_char_witness :
  validar_nif_cif "12345678Z" = true ∧ validar_nif_cif "12345678A" = true
  ∧ validar_nif_cif "B1234567?" = true.
Proof.
  split; [reflexivity|]. split.
  - refine (validar_nif_cif_last_char "1" "Z" "A" "2345678" _ _ _);
      [reflexivity | reflexivity | left; reflexivity].
  - refine (validar_nif_cif_last_char "B" "8" "?" "1234567" _ _ _);
      [reflexivity | reflexivity | right; reflexivity].
Defined.

End NifProps.

(** ** Loops that stop at the first exception *)

Section ForEach.

Lemma for_each_ok {A B} (f : A → result B) (l : list A) (bs : list B) :
  for_each f l = Ok bs → Forall2 (λ a b, f a = Ok b) l bs.
Proof.
  revert bs. induction l as [|a l IH]; intros bs; cbn [for_each].
  - intros [= <-]. constructor.
  - destruct (f a) as [b|e] eqn:Hfa; [|discriminate]. cbn [bind].
    destruct (for_each f l) as [bs'|e]; [|discriminate]. cbn [bind].
    intros [= <-]. constructor; [exact Hfa | apply IH; reflexivity].
Qed.

Lemma for_each_raise_in {A B} (f : A → result B) (l : list A) (e : exn) :
  for_each f l = Raise e → ∃ a, a ∈ l ∧ f a = Raise e.
Proof.
  induction l as [|a l IH]; cbn [for_each]; [discriminate|].
  destruct (f a) as [b|e'] eqn:Hfa; cbn [bind].
  - destruct (for_each f l) as [bs|e'']; cbn [bind]; [discriminate|].
    intros [= ->]. destruct (IH eq_refl) as (a' & Hin & Ha').
    exists a'. split; [right; exact Hin | exact Ha'].
  - intros [= ->]. exists a. split; [left | exact Hfa].
Qed.

End ForEach.

(** ** The financial dashboard *)

Section Dashboard.

Import DashboardService.

Lemma assoc_In {A} (k : string) (x : A) (d : list (string * A)) :
  Spec.assoc k d = Some x → (k, x) ∈ d.
Proof.
  induction d as [|[k' y] d IH]; [discriminate|]. cbn [Spec.assoc].
  destruct (String.eqb_spec k' k) as [->|Hk].
  - intros [= ->]. left.
  - intros Hd. right. apply IH. exact Hd.
Qed.

Lemma assoc_None {A} (k : string) (d : list (string * A)) :
  Spec.assoc k d = None ↔ k ∉ map fst d.
Proof.
  induction d as [|[k' y] d IH]; cbn [Spec.assoc map fst].
  - split; [intros _; apply not_elem_of_nil | reflexivity].
  - rewrite not_elem_of_cons.
    destruct (String.eqb_spec k' k) as [->|Hk].
    + split; [discriminate | intros [Hk _]; congruence].
    + rewrite IH. split; [intros Hd; split; [congruence | exact Hd] | intros [_ Hd]; exact Hd].
Qed.

Lemma assoc_NoDup {A} (k : string) (x : A) (d : list (string * A)) :
  NoDup (map fst d) → (k, x) ∈ d → Spec.assoc k d = Some x.
Proof.
  induction d as [|[k' y] d IH]; intros Hnd Hin; [inversion Hin|].
  cbn [map fst] in Hnd. apply NoDup_cons in Hnd as [Hk' Hnd].
  cbn [Spec.assoc]. apply elem_of_cons in Hin as [[= <- <-]|Hin].
  - rewrite String.eqb_refl. reflexivity.
  - destruct (String.eqb_spec k' k) as [->|Hk].
    + exfalso. apply Hk'. apply list_elem_of_fmap. exists (k, x). split; [reflexivity | exact Hin].
    + apply IH; assumption.
Qed.

Lemma assoc_upsert_eq {A} (k : string) (f : A → A) (v : A)
    (d : list (string * A)) :
  Spec.assoc k (upsert k f v d)
  = Some (match Spec.assoc k d with Some x => f x | None => v end).
Proof.
  induction d as [|[k' y] d IH]; cbn [upsert Spec.assoc].
  - rewrite String.eqb_refl. reflexivity.
  - destruct (String.eqb_spec k' k) as [->|Hk]; cbn [Spec.assoc].
    + rewrite String.eqb_refl. reflexivity.
    + destruct (String.eqb_spec k' k); [contradiction | exact IH].
Qed.

Lemma assoc_upsert_ne {A} (k k0 : string) (f : A → A) (v : A)
    (d : list (string * A)) :
  k ≠ k0 → Spec.assoc k0 (upsert k f v d) = Spec.assoc k0 d.
Proof.
  intros Hne. induction d as [|[k' y] d IH]; cbn [upsert Spec.assoc].
  - destruct (String.eqb_spec k k0); [contradiction | reflexivity].
  - destruct (String.eqb_spec k' k) as [->|Hk]; cbn [Spec.assoc].
    + destruct (String.eqb_spec k k0); [contradiction | reflexivity].
    + rewrite IH. reflexivity.
Qed.

Lemma upsert_keys {A} (k : string) (f : A → A) (v : A) (d : list (string * A)) :
  map fst (upsert k f v d)
  = if bool_decide (k ∈ map fst d) then map fst d else map fst d ++ [k].
Proof.
  induction d as [|[k' y] d IH]; cbn [upsert map fst].
  - rewrite bool_decide_eq_false_2 by apply not_elem_of_nil. reflexivity.
  - destruct (String.eqb_spec k' k) as [->|Hk]; cbn [map fst].
    + rewrite bool_decide_eq_true_2 by left. reflexivity.
    + rewrite IH. destruct (decide (k ∈ map fst d)) as [Hin|Hin].
      * rewrite !bool_decide_eq_true_2; [reflexivity | right; exact Hin | exact Hin].
      * rewrite !bool_decide_eq_false_2; [reflexivity | | exact Hin].
        rewrite not_elem_of_cons. split; [congruence | exact Hin].
Qed.

Lemma upsert_NoDup {A} (k : string) (f : A → A) (v : A) (d : list (string * A)) :
  NoDup (map fst d) → NoDup (map fst (upsert k f v d)).
Proof.
  intros Hnd. rewrite upsert_keys. case_bool_decide as Hin; [exact Hnd|].
  apply NoDup_app. split; [exact Hnd|]. split; [|apply NoDup_singleton].
  intros x Hx Hk. apply list_elem_of_singleton in Hk as ->. contradiction.
Qed.

Lemma distribucion_fold (facturas : list Factura) (acc : list (string * Z)) :
  NoDup (map fst acc) →
  NoDup (map fst (fold_left contar_estado facturas acc))
  ∧ ∀ e, Spec.assoc e (fold_left contar_estado facturas acc)
         = match Spec.facturas_en_estado e facturas, Spec.assoc e acc with
           | O, a => a
           | S n, Some m => Some (m + Z.of_nat (S n))%Z
           | S n, None => Some (Z.of_nat (S n))
           end.
Proof.
  revert acc. induction facturas as [|f facturas IH]; intros acc Hnd.
  - split; [exact Hnd|]. intros e. cbn. reflexivity.
  - cbn [fold_left].
    destruct (IH (contar_estado acc f) (upsert_NoDup _ _ _ _ Hnd)) as [Hnd' Hcount].
    split; [exact Hnd'|]. intros e. rewrite Hcount.
    unfold Spec.facturas_en_estado. cbn [List.filter]. unfold con_estado at 2.
    unfold contar_estado.
    destruct (String.eqb_spec (estado f) e) as [<-|Hne].
    + cbn [length]. rewrite assoc_upsert_eq.
      destruct (length (List.filter (con_estado (estado f)) facturas)) as [|n];
        destruct (Spec.assoc (estado f) acc) as [m|]; f_equal; lia.
    + rewrite assoc_upsert_ne by exact Hne. reflexivity.
Qed.

Lemma sum_cantidades_fold (facturas : list Factura) (acc : list (string * Z)) :
  foldr (λ kv t, (kv.2 + t)%Z) 0%Z (fold_left contar_estado facturas acc)
  = (foldr (λ kv t, (kv.2 + t)%Z) 0%Z acc + Z.of_nat (length facturas))%Z.
Proof.
  revert acc. induction facturas as [|f facturas IH]; intros acc.
  - cbn. lia.
  - cbn [fold_left length]. rewrite IH.
    assert (Hstep : ∀ k d,
      foldr (λ kv t, (kv.2 + t)%Z) 0%Z (upsert k (λ n, (n + 1)%Z) 1%Z d)
      = (foldr (λ kv t, (kv.2 + t)%Z) 0%Z d + 1)%Z).
    { intros k d. induction d as [|[k' y] d IHd]; cbn [upsert foldr].
      - cbn. lia.
      - destruct (String.eqb k' k); cbn [foldr snd]; [cbn; lia|].
        rewrite IHd. cbn. lia. }
    unfold contar_estado. rewrite Hstep. lia.
Qed.

(** X3. The distribution by [estado] lists each [estado] that occurs once,
    with the number of invoices in it, and lists no other; the quantities
    add up to the number of invoices. *)
Theorem calcular_distribucion_estados_counts (facturas : list Factura) :
  NoDup (map fst (calcular_distribucion_estados facturas))
  ∧ (∀ e n, (e, n) ∈ calcular_distribucion_estados facturas
            ↔ n = Z.of_nat (Spec.facturas_en_estado e facturas) ∧ (0 < n)%Z)
  ∧ foldr (λ kv t, (kv.2 + t)%Z) 0%Z (calcular_distribucion_estados facturas)
    = Z.of_nat (length facturas).
Proof.
  unfold calcular_distribucion_estados.
  destruct (distribucion_fold facturas [] (NoDup_nil_2)) as [Hnd Hcount].
  split; [exact Hnd|]. split.
  - intros e n. split.
    + intros Hin. apply (assoc_NoDup _ _ _ Hnd) in Hin.
      rewrite Hcount in Hin. cbn [Spec.assoc] in Hin.
      destruct (Spec.facturas_en_estado e facturas); [discriminate|].
      injection Hin as <-. split; lia.
    + intros [-> Hpos]. apply assoc_In. rewrite Hcount. cbn [Spec.assoc].
      destruct (Spec.facturas_en_estado e facturas); [lia | reflexivity].
  - rewrite sum_cantidades_fold. cbn. lia.
Qed.

Lemma metricas_ingresos_total (facturas : list Factura) (mes anio : Z) :
  calcular_metricas_mensuales facturas mes anio !! "ingresos_total"
  = Some (value_of_number (ingresos_total_del_mes facturas mes anio)).
Proof.
  unfold calcular_metricas_mensuales, ingresos_total_del_mes.
  rewrite !lookup_insert_ne by discriminate. apply lookup_insert_eq.
Qed.

Lemma filter_del_mes_skip (l1 l2 : list Factura) (f : Factura) (mes anio : Z) :
  del_mes mes anio f = false →
  List.filter (del_mes mes anio) (l1 ++ f :: l2)
  = List.filter (del_mes mes anio) (l1 ++ l2).
Proof.
  intros Hf. rewrite !List.filter_app. cbn [List.filter]. rewrite Hf. reflexivity.
Qed.

(** X4. The metrics of a month are those of its invoices alone: an invoice
    issued in another month, wherever it is stored, changes none of them;
    and the month's paid invoices are never more than its invoices. *)
Theorem calcular_metricas_mensuales_month (l1 l2 : list Factura) (f : Factura)
    (mes anio : Z) :
  del_mes mes anio f = false →
  calcular_metricas_mensuales (l1 ++ f :: l2) mes anio
  = calcular_metricas_mensuales (l1 ++ l2) mes anio
  ∧ ∃ n p, calcular_metricas_mensuales (l1 ++ f :: l2) mes anio !! "num_facturas"
           = Some (VInt n)
         ∧ calcular_metricas_mensuales (l1 ++ f :: l2) mes anio
             !! "num_facturas_pagadas" = Some (VInt p)
         ∧ (0 ≤ p ≤ n)%Z.
Proof.
  intros Hf. unfold calcular_metricas_mensuales.
  rewrite (filter_del_mes_skip l1 l2 f mes anio Hf).
  split; [reflexivity|]. eexists _, _. split; [|split].
  - rewrite !lookup_insert_ne by discriminate. apply lookup_insert_eq.
  - rewrite !lookup_insert_ne by discriminate. apply lookup_singleton_eq.
  - split; [lia|]. apply inj_le, List.filter_length_le.
Qed.

Lemma calcular_metricas_mensuales_month_witness :
  let fecha m := {| year := 2025; month := m; day := 3; hour := 10;
                    minute := 0; second := 0; microsecond := 0 |} in
  let factura m t e := {| fecha_emision := fecha m; lineas := [];
                          total_factura := t; estado := e |} in
  calcular_metricas_mensuales
    [factura 5%Z 60.5%float "pagada"%string; factura 4%Z 99%float "pagada"%string;
     factura 5%Z 12.1%float "emitida"%string] 5%Z 2025%Z
  = calcular_metricas_mensuales
      [factura 5%Z 60.5%float "pagada"%string;
       factura 5%Z 12.1%float "emitida"%string] 5%Z 2025%Z.
Proof.
  intros fecha factura.
  refine (proj1 (calcular_metricas_mensuales_month
                   [factura 5%Z 60.5%float "pagada"%string]
                   [factura 5%Z 12.1%float "emitida"%string]
                   (factura 4%Z 99%float "pagada"%string) 5%Z 2025%Z _)).
  reflexivity.
Defined.

Lemma partition_estados (facturas : list Factura) :
  (Spec.facturas_en_estado "emitida" facturas
   + Spec.facturas_en_estado "pagada" facturas
   + Spec.facturas_en_estado "anulada" facturas
   + length (List.filter Spec.en_otro_estado facturas))%nat
  = length facturas.
Proof.
  unfold Spec.facturas_en_estado, Spec.en_otro_estado, con_estado.
  induction facturas as [|f facturas IH]; [reflexivity|].
  cbn [List.filter].
  destruct (String.eqb_spec (estado f) "emitida") as [He|He];
    destruct (String.eqb_spec (estado f) "pagada") as [Hp|Hp];
    destruct (String.eqb_spec (estado f) "anulada") as [Ha|Ha];
    try congruence; cbn [negb andb length]; lia.
Qed.




Section Handler.
Variable sorted_by_value : list (string * float) → list (string * float).
Variable Factura_de : gmap string value → result Factura.
Variable str_of_exn : exn → string.

#[local] Abbreviation dashboard :=
  (obtener_dashboard_financiero sorted_by_value Factura_de str_of_exn).


Lemma dashboard_financiero_contadores (facturas : list Factura)
    (ahora : datetime) :
  let d := dashboard_financiero sorted_by_value facturas ahora in
  total_facturas d = Z.of_nat (length facturas)
  ∧ (facturas_pendientes d + facturas_pagadas d + facturas_anuladas d
     + Z.of_nat (length (List.filter Spec.en_otro_estado facturas)))%Z
    = total_facturas d
  ∧ foldr (λ kv t, (kv.2 + t)%Z) 0%Z (facturas_por_estado d)
    = total_facturas d.
Proof.
  intros d. unfold d, dashboard_financiero.
  destruct (month ahora =? 1)%Z;
    cbn [total_facturas facturas_pendientes facturas_pagadas facturas_anuladas
         facturas_por_estado].
  all: split; [reflexivity|]; split;
    [ pose proof (partition_estados facturas) as Hp;
      unfold Spec.facturas_en_estado in Hp; lia
    | unfold calcular_distribucion_estados; rewrite sum_cantidades_fold;
      cbn; lia ].
Qed.

(** The two ways the handler ends. *)
Lemma obtener_dashboard_financiero_cases (facturas_list : list (gmap string value))
    (ahora : datetime) :
  (∃ facturas,
     Forall2 (λ doc f, Factura_de doc = Ok f) facturas_list facturas
     ∧ dashboard facturas_list ahora
       = Ok (dashboard_financiero sorted_by_value facturas ahora))
  ∨ (∃ doc e,
       doc ∈ facturas_list ∧ Factura_de doc = Raise e
       ∧ dashboard facturas_list ahora
         = Raise (HTTPException 500
                    ("Error al obtener dashboard: " +:+ str_of_exn e))).
Proof.
  unfold obtener_dashboard_financiero.
  destruct (for_each Factura_de facturas_list) as [facturas|e] eqn:Hval.
  - left. exists facturas. split; [|reflexivity].
    apply for_each_ok. exact Hval.
  - right. destruct (for_each_raise_in _ _ _ Hval) as (doc & Hin & Hdoc).
    exists doc, e. split; [exact Hin|]. split; [exact Hdoc | reflexivity].
Qed.


(** X6.  When the dashboard is answered, it counts every stored invoice
    once: [total_facturas] is the number of stored documents, and the
    pending, paid and annulled invoices, with those in any other state,
    make up the total, as do the quantities of the distribution by state.
    The only other answer is the 500 for a document that [Factura]
    rejects. *)
Theorem dashboard_counters (facturas_list : list (gmap string value))
    (ahora : datetime) :
  match dashboard facturas_list ahora with
  | Raise e =>
      ∃ doc e', doc ∈ facturas_list ∧ Factura_de doc = Raise e'
                ∧ e = HTTPException 500
                        ("Error al obtener dashboard: " +:+ str_of_exn e')
  | Ok d =>
      ∃ facturas,
        Forall2 (λ doc f, Factura_de doc = Ok f) facturas_list facturas
        ∧ total_facturas d = Z.of_nat (length facturas_list)
        ∧ (facturas_pendientes d + facturas_pagadas d + facturas_anuladas d
           + Z.of_nat (length (List.filter Spec.en_otro_estado facturas)))%Z
          = total_facturas d
        ∧ foldr (λ kv t, (kv.2 + t)%Z) 0%Z (facturas_por_estado d)
          = total_facturas d
  end.
Proof.
  destruct (obtener_dashboard_financiero_cases facturas_list ahora)
    as [(facturas & Hval & ->) | (doc & e & Hin & Hdoc & ->)].
  - exists facturas. split; [exact Hval|].
    destruct (dashboard_financiero_contadores facturas ahora)
      as (Htotal & Hpart & Hdist).
    split; [|split; [exact Hpart | exact Hdist]].
    rewrite Htotal. f_equal. symmetry. exact (Forall2_length _ _ _ Hval).
  - exists doc, e. split; [exact Hin|]. split; [exact Hdoc | reflexivity].
Qed.

(** What Python guarantees of [sorted]: the items of the result are those of
    the argument. *)
Hypothesis sorted_by_value_perm : ∀ l, Permutation (sorted_by_value l) l.

Lemma acumular_lineas_NoDup (ls : list LineaFactura) (acc : list (string * float)) :
  NoDup (map fst acc) → NoDup (map fst (fold_left acumular_linea ls acc)).
Proof.
  revert acc. induction ls as [|l ls IH]; intros acc Hnd; [exact Hnd|].
  cbn [fold_left]. apply IH. apply upsert_NoDup. exact Hnd.
Qed.

Lemma acumular_lineas_assoc (ls : list LineaFactura)
    (acc : list (string * float)) (c : string) :
  Spec.assoc c (fold_left acumular_linea ls acc)
  = Spec.sumar (Spec.assoc c acc) (Spec.importes_de c ls).
Proof.
  revert acc. induction ls as [|l ls IH]; intros acc; [reflexivity|].
  cbn [fold_left]. rewrite IH. unfold acumular_linea, Spec.importes_de.
  cbn [List.filter].
  destruct (String.eqb_spec (concepto l) c) as [<-|Hne].
  - rewrite assoc_upsert_eq. reflexivity.
  - rewrite assoc_upsert_ne by exact Hne. reflexivity.
Qed.

Lemma importes_de_app (c : string) (l1 l2 : list LineaFactura) :
  Spec.importes_de c (l1 ++ l2)
  = Spec.importes_de c l1 ++ Spec.importes_de c l2.
Proof. unfold Spec.importes_de. rewrite List.filter_app, map_app. reflexivity. Qed.

Lemma acumular_ingresos_fold (fs : list Factura) (acc : list (string * float)) :
  NoDup (map fst acc) →
  NoDup (map fst (fold_left acumular_factura fs acc))
  ∧ ∀ c, Spec.assoc c (fold_left acumular_factura fs acc)
         = Spec.sumar (Spec.assoc c acc)
             (Spec.importes_de c (Spec.lineas_facturadas fs)).
Proof.
  revert acc. induction fs as [|f fs IH]; intros acc Hnd.
  - split; [exact Hnd | reflexivity].
  - cbn [fold_left]. unfold Spec.lineas_facturadas. cbn [List.filter].
    unfold acumular_factura at 2 4.
    destruct (emitida_o_pagada f).
    + destruct (IH _ (acumular_lineas_NoDup (lineas f) acc Hnd)) as [Hnd' Hc].
      split; [exact Hnd'|]. intros c. rewrite Hc, acumular_lineas_assoc.
      cbn [map concat]. rewrite importes_de_app.
      unfold Spec.sumar. rewrite fold_left_app. reflexivity.
    + exact (IH acc Hnd).
Qed.

(** X7. The income by treatment lists each concept billed in an invoice that
    is ["emitida"] or ["pagada"] once, and no other, with the amounts of its
    lines added in stored order and rounded to two decimals. *)
Theorem calcular_ingresos_por_tratamiento_groups (facturas : list Factura) :
  NoDup (map fst (calcular_ingresos_por_tratamiento sorted_by_value facturas))
  ∧ ∀ c v, (c, v) ∈ calcular_ingresos_por_tratamiento sorted_by_value facturas
           ↔ round2 <$> Spec.sumar None
                          (Spec.importes_de c (Spec.lineas_facturadas facturas))
             = Some v.
Proof.
  unfold calcular_ingresos_por_tratamiento, acumular_ingresos.
  destruct (acumular_ingresos_fold facturas [] NoDup_nil_2) as [Hnd Hc].
  set (acc := fold_left acumular_factura facturas []) in *.
  pose proof (sorted_by_value_perm acc) as Hperm.
  split.
  - rewrite map_map. cbn [fst].
    change (map (λ x : string * float, x.1)) with (map (@fst string float)).
    rewrite Hperm. exact Hnd.
  - intros c v. pose proof (Hc c) as Hcc. cbn [Spec.assoc] in Hcc.
    rewrite <- Hcc. split.
    + intros Hin. apply list_elem_of_fmap in Hin as ([c' v0] & [= -> ->] & Hin).
      rewrite Hperm in Hin. rewrite (assoc_NoDup _ _ _ Hnd Hin). reflexivity.
    + intros Hv. destruct (Spec.assoc c acc) as [v0|] eqn:Ha; [|discriminate].
      injection Hv as <-. apply assoc_In in Ha. rewrite <- Hperm in Ha.
      apply list_elem_of_fmap. exists (c, v0). split; [reflexivity | exact Ha].
Qed.
End Handler.

Lemma insertar_desc_perm (kv : string * float) (l : list (string * float)) :
  Permutation (insertar_desc kv l) (kv :: l).
Proof.
  induction l as [|kv' l IH]; cbn [insertar_desc]; [reflexivity|].
  destruct (kv'.2 <? kv.2)%float; [reflexivity|].
  rewrite IH. apply perm_swap.
Qed.

Lemma ordenar_desc_perm (l : list (string * float)) :
  Permutation (ordenar_desc l) l.
Proof.
  unfold ordenar_desc. transitivity (rev l); [|symmetry; apply Permutation_rev].
  induction (rev l) as [|kv l' IH]; cbn [foldr]; [reflexivity|].
  rewrite insertar_desc_perm, IH. reflexivity.
Qed.


(** Two invoices that count and a draft that does not: the cleanings of the
    first two add up to 121. *)
Lemma calcular_ingresos_por_tratamiento_groups_witness :
  let fecha := {| year := 2025; month := 5; day := 3; hour := 10;
                  minute := 0; second := 0; microsecond := 0 |} in
  let linea c t := {| Models.concepto := c; Models.cantidad := 1;
                      Models.precio_unitario := t; Models.descuento := 0;
                      Models.tipo_iva := "0"; Models.base_imponible := t;
                      Models.cuota_iva := 0; Models.total_linea := t |} in
  let factura e ls := {| fecha_emision := fecha; lineas := ls;
                         total_factura := 0; estado := e |} in
  ("Limpieza"%string, 121%float)
  ∈ calcular_ingresos_por_tratamiento ordenar_desc
      [factura "pagada"%string
         [linea "Limpieza"%string 60.5%float; linea "Empaste"%string 80%float];
       factura "borrador"%string [linea "Limpieza"%string 1%float];
       factura "emitida"%string [linea "Limpieza"%string 60.5%float]].
Proof.
  intros fecha linea factura.
  apply (proj2 (calcular_ingresos_por_tratamiento_groups
                  ordenar_desc ordenar_desc_perm _)).
  vm_compute. reflexivity.
Defined.

End Dashboard.

(** ** Invoices built from treatments *)

Section DesdeTratamientos.

Import Tratamientos.

Context {EmisorData ReceptorData : Type}.

Lemma try_each_ok {A B} (f : A → outcome B) (l : list A) (bs : list B) :
  try_each f l = Return bs → Forall2 (λ a b, f a = Return b) l bs.
Proof.
  revert bs. induction l as [|a l IH]; intros bs; cbn [try_each].
  - intros [= <-]. constructor.
  - destruct (f a) as [b|e] eqn:Hfa; [|discriminate]. cbn [and_then].
    destruct (try_each f l) as [bs'|e]; [|discriminate]. cbn [and_then].
    intros [= <-]. constructor; [exact Hfa | apply IH; reflexivity].
Qed.

Lemma try_each_throw {A B} (f : A → outcome B) (l : list A) (a : A) :
  a ∈ l → (∃ e, f a = Throw e) → ∃ e, try_each f l = Throw e.
Proof.
  intros Hin Ha. induction l as [|a' l IH]; [inversion Hin|].
  cbn [try_each]. destruct (f a') as [b|e] eqn:Hfa; [|eauto].
  cbn [and_then]. apply elem_of_cons in Hin as [->|Hin].
  - destruct Ha as [e He]. congruence.
  - destruct (IH Hin) as [e ->]. eauto.
Qed.

(** On a string, three floats and a string the function is the one of the
    declared types. *)
Lemma calcular_linea_factura_valores_floats (c : string) (q p d : float)
    (t : string) :
  calcular_linea_factura_valores (VStr c) (VFloat q) (VFloat p) (VStr t)
    (VFloat d)
  = lift (calcular_linea_factura c q p t d).
Proof.
  unfold calcular_linea_factura_valores, calcular_linea_factura.
  cbn [py_mul py_gt_0 as_number num_op to_float and_then iva_de].
  destruct (0 <? d)%float;
    cbn [py_div_100 py_mul py_sub py_add py_round_2 as_number num_op to_float
         and_then round2_number value_of_number new_LineaFactura_valores
         campo_float];
    reflexivity.
Qed.

Lemma new_LineaFactura_valores_ok
    (c q p d t b cu to : value) (l : LineaFactura) :
  new_LineaFactura_valores c q p d t b cu to = Return l →
  LineaFactura_valid l = true ∧ t = VStr (Models.tipo_iva l)
  ∧ c = VStr (Models.concepto l).
Proof.
  unfold new_LineaFactura_valores.
  destruct c as [| | | |c| | |]; try discriminate.
  destruct t as [| | | |t| | |]; try discriminate.
  destruct (campo_float q); [|discriminate].
  destruct (campo_float p); [|discriminate].
  destruct (campo_float d); [|discriminate].
  destruct (campo_float b); [|discriminate].
  destruct (campo_float cu); [|discriminate].
  destruct (campo_float to); [|discriminate].
  unfold new_LineaFactura. destruct (LineaFactura_valid _) eqn:Hv;
    [|discriminate].
  intros [= <-]. split; [exact Hv | split; reflexivity].
Qed.

Lemma calcular_linea_factura_valores_ok (c q p t d : value) (l : LineaFactura) :
  calcular_linea_factura_valores c q p t d = Return l →
  LineaFactura_valid l = true ∧ t = VStr (Models.tipo_iva l)
  ∧ c = VStr (Models.concepto l).
Proof.
  unfold calcular_linea_factura_valores.
  repeat match goal with
         | |- and_then ?x _ = Return _ → _ =>
             destruct x; cbn [and_then]; [|discriminate]
         end.
  apply new_LineaFactura_valores_ok.
Qed.

(** A VAT type that is not one of the five strings never gives a line. *)
Lemma calcular_linea_factura_valores_tipo (c q p t d : value) :
  (∀ x, t = VStr x → x ∉ tipos_iva) →
  ∃ e, calcular_linea_factura_valores c q p t d = Throw e.
Proof.
  intros Ht.
  destruct (calcular_linea_factura_valores c q p t d) as [l|e] eqn:Hl;
    [|eauto].
  apply calcular_linea_factura_valores_ok in Hl as (Hv & -> & _).
  exfalso. apply (Ht _ eq_refl).
  unfold LineaFactura_valid in Hv.
  repeat (apply andb_true_iff in Hv as [Hv ?]).
  match goal with
  | H : bool_decide _ = true |- _ => exact (bool_decide_eq_true_1 _ H)
  end.
Qed.

#[local] Abbreviation crear :=
  (@crear_factura_desde_tratamientos EmisorData ReceptorData).

(** X8.  With no treatment the service returns no invoice: the model asks
    for at least one line, and the call raises a validation error whenever
    the due date is in range. *)
Theorem crear_factura_desde_tratamientos_empty (now : Z) (emisor : EmisorData)
    (receptor : ReceptorData) (serie forma_pago : string)
    (notas appointment_id : option string) :
  (∀ f, crear now emisor receptor [] serie forma_pago notas appointment_id
        ≠ Return f)
  ∧ ((0 ≤ now)%Z ∧ (now + 30 * 86400000000 ≤ datetime_max)%Z →
     crear now emisor receptor [] serie forma_pago notas appointment_id
     = Throw (Known ValidationError)).
Proof.
  unfold crear_factura_desde_tratamientos, calcular_fecha_vencimiento, add_days.
  cbn [try_each and_then]. split.
  - intros f. destruct (_ && _); cbn [and_then lift new_FacturaCreate];
      [|discriminate].
    unfold new_FacturaCreate. cbn [lineas length Nat.eqb negb andb lift].
    discriminate.
  - intros [H0 Hmax].
    destruct (Z.leb_spec 0 (now + 30 * 86400000000)); [|lia].
    destruct (Z.leb_spec (now + 30 * 86400000000) datetime_max); [|lia].
    reflexivity.
Qed.

(** X9.  One treatment whose [tipo_iva] is not one of the five strings
    makes the whole call raise and return no invoice, whatever the other
    treatments hold and wherever it stands in the list: the line model
    rejects it if nothing has raised before. *)
Theorem crear_factura_desde_tratamientos_tipo_iva (now : Z) (emisor : EmisorData)
    (receptor : ReceptorData) (tratamientos : list Tratamiento)
    (serie forma_pago : string) (notas appointment_id : option string)
    (t : Tratamiento) (v : value) :
  t ∈ tratamientos → t !! "tipo_iva" = Some v →
  (∀ x, v = VStr x → x ∉ tipos_iva) →
  ∃ e, crear now emisor receptor tratamientos serie forma_pago notas
         appointment_id
       = Throw e.
Proof.
  intros Hin Hv Hbad. unfold crear_factura_desde_tratamientos.
  destruct (try_each_throw linea_de_tratamiento tratamientos t Hin) as [e ->].
  - unfold linea_de_tratamiento. rewrite Hv. cbn [default].
    apply calcular_linea_factura_valores_tipo. exact Hbad.
  - exists e. reflexivity.
Qed.

(** X10.  An invoice the service returns is a draft without number, due
    thirty days after its date of issue; it has one valid line for each
    treatment, in the order of the treatments, each the line that
    [calcular_linea_factura] returns on the values of that treatment, and
    carries the totals of those lines. *)
Theorem crear_factura_desde_tratamientos_invoice (now : Z) (emisor : EmisorData)
    (receptor : ReceptorData) (tratamientos : list Tratamiento)
    (serie forma_pago : string) (notas appointment_id : option string)
    (f : FacturaCreate) :
  crear now emisor receptor tratamientos serie forma_pago notas appointment_id
  = Return f →
  tratamientos ≠ []
  ∧ Forall2 (λ t l, linea_de_tratamiento t = Return l
                    ∧ LineaFactura_valid l = true)
      tratamientos (lineas f)
  ∧ calcular_totales_factura (lineas f) !! "subtotal" = Some (subtotal f)
  ∧ calcular_totales_factura (lineas f) !! "total_iva" = Some (total_iva f)
  ∧ calcular_totales_factura (lineas f) !! "total_factura" = Some (total_factura f)
  ∧ numero f = ""%string ∧ estado f = "borrador"%string
  ∧ fecha_emision f = now
  ∧ fecha_vencimiento f = (now + 30 * 86400000000)%Z
  ∧ timedelta_days (fecha_vencimiento f) (fecha_emision f) = 30%Z.
Proof.
  unfold crear_factura_desde_tratamientos, calcular_fecha_vencimiento, add_days.
  destruct (try_each linea_de_tratamiento tratamientos) as [ls|e] eqn:Hls;
    [|discriminate]. cbn [and_then].
  destruct (_ && _); [|discriminate]. cbn [and_then].
  unfold new_FacturaCreate. cbn [lineas subtotal total_iva total_factura].
  destruct (negb (length ls =? 0)%nat) eqn:Hne; [|discriminate]. cbn [andb].
  destruct (_ && _ && _); [|discriminate]. cbn [lift].
  intros [= <-].
  cbn [lineas subtotal total_iva total_factura numero estado fecha_emision
       fecha_vencimiento].
  pose proof (try_each_ok _ _ _ Hls) as Hf2.
  split; [|split; [|split; [|split; [|split]]]].
  - intros ->. inversion Hf2; subst. discriminate Hne.
  - eapply Forall2_impl; [exact Hf2|]. intros t l Hl. split; [exact Hl|].
    unfold linea_de_tratamiento in Hl.
    apply calcular_linea_factura_valores_ok in Hl. apply Hl.
  - unfold total, calcular_totales_factura.
    rewrite lookup_insert_eq. reflexivity.
  - unfold total, calcular_totales_factura.
    rewrite !lookup_insert_ne by discriminate.
    rewrite lookup_insert_eq. reflexivity.
  - unfold total, calcular_totales_factura.
    rewrite !lookup_insert_ne by discriminate.
    rewrite lookup_singleton_eq. reflexivity.
  - repeat (split; [reflexivity|]).
    unfold timedelta_days, microseconds_per_day.
    replace (now + 30 * 86400000000 - now)%Z with (30 * 86400000000)%Z by lia.
    reflexivity.
Qed.

End DesdeTratamientos.

Lemma crear_factura_desde_tratamientos_empty_witness :
  Tratamientos.crear_factura_desde_tratamientos 0 () () []
    "A" "transferencia" None None
  = Throw (Known ValidationError).
Proof.
  apply (proj2 (crear_factura_desde_tratamientos_empty
                  0 () () "A" "transferencia" None None)).
  unfold datetime_max. lia.
Defined.

(** A second treatment with VAT type ["99"], and one with the number 21. *)
Lemma crear_factura_desde_tratamientos_tipo_iva_witness :
  let limpieza : Tratamientos.Tratamiento :=
    {[ "concepto" := VStr "Limpieza"; "precio_unitario" := VInt 60 ]} in
  let empaste : Tratamientos.Tratamiento :=
    {[ "concepto" := VStr "Empaste"; "precio_unitario" := VFloat 80;
       "tipo_iva" := VStr "99" ]} in
  let corona : Tratamientos.Tratamiento :=
    {[ "concepto" := VStr "Corona"; "precio_unitario" := VInt 300;
       "tipo_iva" := VInt 21 ]} in
  (∃ e, Tratamientos.crear_factura_desde_tratamientos 0 () ()
          [limpieza; empaste] "A" "transferencia" None None
        = Throw e)
  ∧ (∃ e, Tratamientos.crear_factura_desde_tratamientos 0 () ()
            [corona] "A" "transferencia" None None
          = Throw e).
Proof.
  intros limpieza empaste corona. split.
  - apply (crear_factura_desde_tratamientos_tipo_iva
             0 () () [limpieza; empaste] "A" "transferencia" None None
             empaste (VStr "99")).
    + apply list_elem_of_further, list_elem_of_here.
    + reflexivity.
    + intros x [= <-]. unfold tipos_iva. rewrite !not_elem_of_cons.
      repeat split; try discriminate. apply not_elem_of_nil.
  - apply (crear_factura_desde_tratamientos_tipo_iva
             0 () () [corona] "A" "transferencia" None None
             corona (VInt 21)).
    + apply list_elem_of_here.
    + reflexivity.
    + intros x [=].
Defined.

(** Three units at a price that is an integer past 2^53: the base of the
    line is the float nearest to the exact product. *)
Lemma crear_factura_desde_tratamientos_invoice_witness :
  let tratamiento : Tratamientos.Tratamiento :=
    {[ "concepto" := VStr "Implante"; "cantidad" := VInt 3;
       "precio_unitario" := VInt 9007199254740993; "tipo_iva" := VStr "0" ]} in
  ∃ f l, Tratamientos.crear_factura_desde_tratamientos 0 () () [tratamiento]
           "A" "transferencia" None None
         = Return f
         ∧ Tratamientos.lineas f = [l]
         ∧ Models.base_imponible l = float_of_Z 27021597764222979
         ∧ Tratamientos.estado f = "borrador"%string
         ∧ timedelta_days (Tratamientos.fecha_vencimiento f)
             (Tratamientos.fecha_emision f) = 30%Z.
Proof.
  intros tratamiento.
  destruct (Tratamientos.crear_factura_desde_tratamientos 0 () () [tratamiento]
              "A" "transferencia" None None) as [f|e] eqn:Hrun;
    [|vm_compute in Hrun; discriminate].
  pose proof (crear_factura_desde_tratamientos_invoice
                0 () () [tratamiento] "A" "transferencia" None None f Hrun)
    as (_ & Hlineas & _ & _ & _ & _ & Hestado & _ & _ & Hdias).
  destruct (Tratamientos.lineas f) as [|l ls] eqn:Hls; [inversion Hlineas|].
  apply Forall2_cons_1 in Hlineas as [[Hl _] Hrest].
  destruct ls; [|inversion Hrest].
  exists f, l. split; [reflexivity|]. split; [exact Hls|].
  split; [|split; [exact Hestado | exact Hdias]].
  vm_compute in Hl. injection Hl as <-. vm_compute. reflexivity.
Defined.

(** ** Route handlers: creating, updating, deleting, sending and paying *)

Section RouteFlows.
Context {oid : Type} `{Countable oid}.
Variable ObjectId_of : string → option oid.
Variable Factura_error : gmap string value → option string.

#[local] Abbreviation get_patient := (Routes.get_patient ObjectId_of).
#[local] Abbreviation update_patient := (Routes.update_patient ObjectId_of).
#[local] Abbreviation delete_patient := (Routes.delete_patient ObjectId_of).
#[local] Abbreviation actualizar_factura :=
  (Routes.actualizar_factura ObjectId_of Factura_error).
#[local] Abbreviation anular_factura := (Routes.anular_factura ObjectId_of).
#[local] Abbreviation enviar_factura_hacienda :=
  (Routes.enviar_factura_hacienda ObjectId_of).
#[local] Abbreviation procesar_pago_factura :=
  (Routes.procesar_pago_factura ObjectId_of).
#[local] Abbreviation obtener_qr_factura :=
  (Routes.obtener_qr_factura ObjectId_of).

Lemma checked_id_ok (id : string) (o : oid) :
  Routes.is_valid ObjectId_of id = true → ObjectId_of id = Some o →
  Routes.checked_id ObjectId_of id = Some o.
Proof. intros Hv Ho. unfold Routes.checked_id. rewrite Hv. exact Ho. Qed.

(** X11. A patient that was created is read back under its new id as the
    request body with the two timestamps, and no other patient and no
    invoice is touched. *)
Theorem create_patient_get (db : Routes.Db oid) (new_id : oid) (id : string)
    (patient : gmap string value) (created_at updated_at : Z) :
  Routes.patients db !! new_id = None →
  Routes.is_valid ObjectId_of id = true → ObjectId_of id = Some new_id →
  ∃ db' doc,
    Routes.create_patient db new_id patient created_at updated_at
    = (db', Return doc)
    ∧ get_patient db' id = Ok doc
    ∧ doc !! "created_at" = Some (VDate created_at)
    ∧ doc !! "updated_at" = Some (VDate updated_at)
    ∧ (∀ k, k ≠ "created_at"%string → k ≠ "updated_at"%string →
         doc !! k = patient !! k)
    ∧ (∀ o, o ≠ new_id → Routes.patients db' !! o = Routes.patients db !! o)
    ∧ size (Routes.patients db') = S (size (Routes.patients db))
    ∧ Routes.facturas db' = Routes.facturas db.
Proof.
  intros Hfresh Hv Ho. unfold Routes.create_patient, Routes.insert_one.
  rewrite Hfresh. eexists _, _. split; [reflexivity|].
  unfold Routes.get_patient. rewrite (checked_id_ok id new_id Hv Ho).
  cbn [Routes.set_patients Routes.patients Routes.facturas].
  rewrite lookup_insert_eq.
  split; [reflexivity|]. split; [|split; [|split; [|split; [|split]]]].
  - rewrite lookup_insert_ne by discriminate. apply lookup_insert_eq.
  - apply lookup_insert_eq.
  - intros k Hk1 Hk2. rewrite !lookup_insert_ne by congruence. reflexivity.
  - intros o Hne. apply lookup_insert_ne. congruence.
  - apply map_size_insert_None. exact Hfresh.
  - reflexivity.
Qed.

(** X12. An update of a stored patient that sets at least one field stores
    and returns the patient with the fields of the request, [None] values
    included, and the time of the update, every other field and every other
    patient as before; reading the patient afterwards gives the same. *)
Theorem update_patient_applies (db : Routes.Db oid) (id : string) (o : oid)
    (doc patient : gmap string value) (now : Z) :
  Routes.is_valid ObjectId_of id = true → ObjectId_of id = Some o →
  Routes.patients db !! o = Some doc → dom patient ≠ ∅ →
  ∃ db' doc',
    update_patient db id patient now = (db', Ok doc')
    ∧ get_patient db' id = Ok doc'
    ∧ doc' !! "updated_at" = Some (VDate now)
    ∧ (∀ k v, k ≠ "updated_at"%string → patient !! k = Some v →
         doc' !! k = Some v)
    ∧ (∀ k, k ≠ "updated_at"%string → patient !! k = None →
         doc' !! k = doc !! k)
    ∧ (∀ o', o' ≠ o → Routes.patients db' !! o' = Routes.patients db !! o')
    ∧ Routes.facturas db' = Routes.facturas db.
Proof.
  intros Hv Ho Hdoc Hdom. unfold Routes.update_patient.
  rewrite (checked_id_ok id o Hv Ho), (bool_decide_eq_false_2 _ Hdom), Hdoc.
  eexists _, _. split; [reflexivity|].
  unfold Routes.get_patient. rewrite (checked_id_ok id o Hv Ho).
  cbn [Routes.set_patients Routes.patients Routes.facturas].
  rewrite lookup_insert_eq. unfold Routes.apply_set.
  split; [reflexivity|]. split; [|split; [|split; [|split]]].
  - apply lookup_union_Some_l. apply lookup_insert_eq.
  - intros k v Hk Hpk. apply lookup_union_Some_l.
    rewrite lookup_insert_ne by congruence. exact Hpk.
  - intros k Hk Hpk. apply lookup_union_r.
    rewrite lookup_insert_ne by congruence. exact Hpk.
  - intros o' Hne. apply lookup_insert_ne. congruence.
  - reflexivity.
Qed.

(** X13. Deleting a stored patient removes that patient and nothing else;
    after it, reading or deleting the same id answers 404. *)
Theorem delete_patient_removes (db : Routes.Db oid) (id : string) (o : oid)
    (doc : gmap string value) :
  Routes.is_valid ObjectId_of id = true → ObjectId_of id = Some o →
  Routes.patients db !! o = Some doc →
  ∃ db',
    delete_patient db id = (db', Ok ())
    ∧ Routes.patients db' !! o = None
    ∧ (∀ o', o' ≠ o → Routes.patients db' !! o' = Routes.patients db !! o')
    ∧ S (size (Routes.patients db')) = size (Routes.patients db)
    ∧ Routes.facturas db' = Routes.facturas db
    ∧ get_patient db' id = Raise (HTTPException 404 "Paciente no encontrado")
    ∧ delete_patient db' id
      = (db', Raise (HTTPException 404 "Paciente no encontrado")).
Proof.
  intros Hv Ho Hdoc. unfold Routes.delete_patient, Routes.get_patient.
  rewrite (checked_id_ok id o Hv Ho), Hdoc.
  eexists. split; [reflexivity|].
  cbn [Routes.set_patients Routes.patients Routes.facturas].
  rewrite lookup_delete_eq.
  split; [reflexivity|]. split; [|split; [|split; [|split]]]; try reflexivity.
  - intros o' Hne. apply lookup_delete_ne. congruence.
  - rewrite map_size_delete_Some by eauto.
    pose proof (map_size_non_empty_iff (Routes.patients db)) as Hsz.
    assert (Routes.patients db ≠ ∅) as Hne.
    { intros Hempty. rewrite Hempty, lookup_empty in Hdoc. discriminate. }
    apply Hsz in Hne. lia.
Qed.

Lemma actualizar_factura_run (db : Routes.Db oid) (id : string) (o : oid)
    (factura factura_update : gmap string value) (now : Z) :
  Routes.is_valid ObjectId_of id = true → ObjectId_of id = Some o →
  Routes.facturas db !! o = Some factura →
  in_strs (dict_get factura "estado") ["emitida"; "pagada"]%string = false →
  ∃ r factura',
    actualizar_factura db id factura_update now
    = (Routes.set_facturas db (<[o := factura']> (Routes.facturas db)), r)
    ∧ (∀ k, factura' !! k = Spec.campo_actualizado factura_update factura now k)
    ∧ (r = Ok factura' ∨ ∃ detail, r = Raise (HTTPException 500 detail)).
Proof.
  intros Hv Ho Hdoc Hestado. unfold Routes.actualizar_factura.
  rewrite (checked_id_ok id o Hv Ho), Hdoc, Hestado.
  eexists _, _. split; [reflexivity|]. split.
  - intros k. unfold Spec.campo_actualizado, Routes.apply_set.
    case_decide as Hk.
    + subst k. apply lookup_union_Some_l. apply lookup_insert_eq.
    + rewrite lookup_union, lookup_insert_ne by congruence.
      rewrite map_lookup_filter.
      destruct (factura_update !! k) as [v|]; cbn.
      * destruct (Routes.is_none v) eqn:Hnone.
        -- rewrite option_guard_False by (cbn; congruence).
           cbn. destruct (factura !! k); reflexivity.
        -- rewrite option_guard_True by (cbn; reflexivity).
           cbn. destruct (factura !! k); reflexivity.
      * destruct (factura !! k); reflexivity.
  - unfold Routes.as_Factura. destruct (Factura_error _); eauto.
Qed.

(** X14. An update of a stored invoice that is neither ["emitida"] nor
    ["pagada"] is written to the database whether the answer is the invoice
    or a 500: each field of the request that is not [None] is replaced, a
    field given as [None] or not given keeps its value, [updated_at] is the
    time of the update, and every other invoice is as before. *)
Theorem actualizar_factura_applies (db : Routes.Db oid) (id : string) (o : oid)
    (factura factura_update : gmap string value) (now : Z) :
  Routes.is_valid ObjectId_of id = true → ObjectId_of id = Some o →
  Routes.facturas db !! o = Some factura →
  in_strs (dict_get factura "estado") ["emitida"; "pagada"]%string = false →
  ∃ db' r factura',
    actualizar_factura db id factura_update now = (db', r)
    ∧ Routes.facturas db' !! o = Some factura'
    ∧ (∀ k, factura' !! k = Spec.campo_actualizado factura_update factura now k)
    ∧ (∀ o', o' ≠ o → Routes.facturas db' !! o' = Routes.facturas db !! o')
    ∧ Routes.patients db' = Routes.patients db
    ∧ (r = Ok factura' ∨ ∃ detail, r = Raise (HTTPException 500 detail)).
Proof.
  intros Hv Ho Hdoc Hestado.
  destruct (actualizar_factura_run db id o factura factura_update now
              Hv Ho Hdoc Hestado) as (r & factura' & Hrun & Hfields & Hr).
  eexists _, r, factura'. split; [exact Hrun|].
  cbn [Routes.set_facturas Routes.facturas Routes.patients].
  split; [apply lookup_insert_eq|]. split; [exact Hfields|].
  split; [|split; [reflexivity | exact Hr]].
  intros o' Hne. apply lookup_insert_ne. congruence.
Qed.

Lemma actualizar_factura_bloqueada (db : Routes.Db oid) (id : string) (o : oid)
    (factura factura_update : gmap string value) (now : Z) :
  Routes.is_valid ObjectId_of id = true → ObjectId_of id = Some o →
  Routes.facturas db !! o = Some factura →
  in_strs (dict_get factura "estado") ["emitida"; "pagada"]%string = true →
  actualizar_factura db id factura_update now
  = (db, Raise (HTTPException 400
                  "No se pueden editar facturas emitidas o pagadas")).
Proof.
  intros Hv Ho Hdoc Hestado. unfold Routes.actualizar_factura.
  rewrite (checked_id_ok id o Hv Ho), Hdoc, Hestado. reflexivity.
Qed.

(** X15. Sending a stored invoice to Hacienda does not look at its state:
    whatever the invoice was, draft, annulled or paid, it is stored as
    ["emitida"] with the time of sending, the simulated answer and the time
    of the update, every other field, every other invoice and the patients
    as before; and from then on [actualizar_factura] rejects every update of
    it with a 400 and changes nothing. *)
Theorem enviar_factura_hacienda_emitida (db : Routes.Db oid) (id : string)
    (o : oid) (factura : gmap string value) (fecha_envio now : Z) :
  Routes.is_valid ObjectId_of id = true → ObjectId_of id = Some o →
  Routes.facturas db !! o = Some factura →
  ∃ db' factura',
    enviar_factura_hacienda db id fecha_envio now
    = (db', Ok {[ "message" := VStr "Factura enviada a Hacienda correctamente";
                  "factura_id" := VStr id;
                  "estado" := VStr "emitida" ]})
    ∧ Routes.facturas db' !! o = Some factura'
    ∧ factura' !! "estado" = Some (VStr "emitida")
    ∧ factura' !! "fecha_envio_hacienda" = Some (VDate fecha_envio)
    ∧ factura' !! "respuesta_hacienda" = Some (VStr "Aceptada (simulado)")
    ∧ factura' !! "updated_at" = Some (VDate now)
    ∧ (∀ k, k ∉ ["estado"; "fecha_envio_hacienda"; "respuesta_hacienda";
                 "updated_at"]%string →
         factura' !! k = factura !! k)
    ∧ (∀ o', o' ≠ o → Routes.facturas db' !! o' = Routes.facturas db !! o')
    ∧ Routes.patients db' = Routes.patients db
    ∧ (∀ factura_update now',
         actualizar_factura db' id factura_update now'
         = (db', Raise (HTTPException 400
                          "No se pueden editar facturas emitidas o pagadas"))).
Proof.
  intros Hv Ho Hdoc. unfold Routes.enviar_factura_hacienda.
  rewrite (checked_id_ok id o Hv Ho), Hdoc.
  eexists _, _. split; [reflexivity|].
  cbn [Routes.set_facturas Routes.facturas Routes.patients].
  assert (Hestado : Routes.apply_set
            {[ "estado" := VStr "emitida";
               "fecha_envio_hacienda" := VDate fecha_envio;
               "respuesta_hacienda" := VStr "Aceptada (simulado)";
               "updated_at" := VDate now ]} factura !! "estado"
          = Some (VStr "emitida")).
  { apply lookup_union_Some_l. apply lookup_insert_eq. }
  split; [apply lookup_insert_eq|]. split; [exact Hestado|].
  split; [|split; [|split; [|split; [|split; [|split]]]]].
  - apply lookup_union_Some_l.
    rewrite lookup_insert_ne by discriminate. apply lookup_insert_eq.
  - apply lookup_union_Some_l.
    rewrite !lookup_insert_ne by discriminate. apply lookup_insert_eq.
  - apply lookup_union_Some_l.
    rewrite !lookup_insert_ne by discriminate. apply lookup_singleton_eq.
  - intros k Hk. rewrite !not_elem_of_cons in Hk.
    destruct Hk as (H1 & H2 & H3 & H4 & _).
    apply lookup_union_r. rewrite !lookup_insert_ne by congruence.
    apply lookup_singleton_ne. congruence.
  - intros o' Hne. apply lookup_insert_ne. congruence.
  - reflexivity.
  - intros factura_update now'.
    eapply actualizar_factura_bloqueada; [exact Hv | exact Ho | |].
    + cbn [Routes.facturas]. apply lookup_insert_eq.
    + unfold dict_get. rewrite Hestado. reflexivity.
Qed.

(** X16. Paying a stored invoice does not look at its state either: whatever
    the invoice was, it is stored as ["pagada"] with the given method of
    payment and the time of the update, every other field, every other
    invoice and the patients as before; and from then on
    [actualizar_factura] rejects every update of it with a 400 and changes
    nothing. *)
Theorem procesar_pago_factura_pagada (db : Routes.Db oid)
    (id metodo_pago : string) (o : oid) (factura : gmap string value)
    (now : Z) :
  Routes.is_valid ObjectId_of id = true → ObjectId_of id = Some o →
  Routes.facturas db !! o = Some factura →
  ∃ db' factura',
    procesar_pago_factura db id metodo_pago now
    = (db', Ok {[ "message" := VStr "Pago procesado correctamente";
                  "factura_id" := VStr id;
                  "metodo_pago" := VStr metodo_pago;
                  "estado" := VStr "pagada" ]})
    ∧ Routes.facturas db' !! o = Some factura'
    ∧ factura' !! "estado" = Some (VStr "pagada")
    ∧ factura' !! "forma_pago" = Some (VStr metodo_pago)
    ∧ factura' !! "updated_at" = Some (VDate now)
    ∧ (∀ k, k ∉ ["estado"; "forma_pago"; "updated_at"]%string →
         factura' !! k = factura !! k)
    ∧ (∀ o', o' ≠ o → Routes.facturas db' !! o' = Routes.facturas db !! o')
    ∧ Routes.patients db' = Routes.patients db
    ∧ (∀ factura_update now',
         actualizar_factura db' id factura_update now'
         = (db', Raise (HTTPException 400
                          "No se pueden editar facturas emitidas o pagadas"))).
Proof.
  intros Hv Ho Hdoc. unfold Routes.procesar_pago_factura.
  rewrite (checked_id_ok id o Hv Ho), Hdoc.
  eexists _, _. split; [reflexivity|].
  cbn [Routes.set_facturas Routes.facturas Routes.patients].
  assert (Hestado : Routes.apply_set
            {[ "estado" := VStr "pagada";
               "forma_pago" := VStr metodo_pago;
               "updated_at" := VDate now ]} factura !! "estado"
          = Some (VStr "pagada")).
  { apply lookup_union_Some_l. apply lookup_insert_eq. }
  split; [apply lookup_insert_eq|]. split; [exact Hestado|].
  split; [|split; [|split; [|split; [|split]]]].
  - apply lookup_union_Some_l.
    rewrite lookup_insert_ne by discriminate. apply lookup_insert_eq.
  - apply lookup_union_Some_l.
    rewrite !lookup_insert_ne by discriminate. apply lookup_singleton_eq.
  - intros k Hk. rewrite !not_elem_of_cons in Hk.
    destruct Hk as (H1 & H2 & H3 & _).
    apply lookup_union_r. rewrite !lookup_insert_ne by congruence.
    apply lookup_singleton_ne. congruence.
  - intros o' Hne. apply lookup_insert_ne. congruence.
  - reflexivity.
  - intros factura_update now'.
    eapply actualizar_factura_bloqueada; [exact Hv | exact Ho | |].
    + cbn [Routes.facturas]. apply lookup_insert_eq.
    + unfold dict_get. rewrite Hestado. reflexivity.
Qed.

(** X17. Annulling does not freeze an invoice: after [anular_factura] on a
    stored invoice, of any state, [actualizar_factura] is not rejected as
    for an invoice that is ["emitida"] or ["pagada"], but writes the update
    over the annulled invoice, so that an update that sets [estado] takes
    the invoice out of ["anulada"]. *)
Theorem anular_factura_editable (db : Routes.Db oid) (id : string) (o : oid)
    (factura factura_update : gmap string value) (now now' : Z) :
  Routes.is_valid ObjectId_of id = true → ObjectId_of id = Some o →
  Routes.facturas db !! o = Some factura →
  ∃ db1 r1 anulada db2 r2 factura2,
    anular_factura db id now = (db1, r1)
    ∧ Routes.facturas db1 !! o = Some anulada
    ∧ anulada !! "estado" = Some (VStr "anulada")
    ∧ actualizar_factura db1 id factura_update now' = (db2, r2)
    ∧ Routes.facturas db2 !! o = Some factura2
    ∧ (∀ k, factura2 !! k
            = Spec.campo_actualizado factura_update anulada now' k)
    ∧ (∀ estado, factura_update !! "estado" = Some (VStr estado) →
         factura2 !! "estado" = Some (VStr estado))
    ∧ (r2 = Ok factura2 ∨ ∃ detail, r2 = Raise (HTTPException 500 detail)).
Proof.
  intros Hv Ho Hdoc. unfold Routes.anular_factura.
  rewrite (checked_id_ok id o Hv Ho), Hdoc.
  set (anulada := Routes.apply_set _ factura).
  set (db1 := Routes.set_facturas db _).
  assert (Hdoc1 : Routes.facturas db1 !! o = Some anulada)
    by apply lookup_insert_eq.
  assert (Hestado : anulada !! "estado" = Some (VStr "anulada")).
  { apply lookup_union_Some_l. apply lookup_insert_eq. }
  destruct (actualizar_factura_run db1 id o anulada factura_update now'
              Hv Ho Hdoc1) as (r2 & factura2 & Hrun & Hfields & Hr).
  { unfold dict_get. rewrite Hestado. reflexivity. }
  eexists db1, _, anulada, _, r2, factura2.
  split; [reflexivity|]. split; [exact Hdoc1|]. split; [exact Hestado|].
  split; [exact Hrun|].
  cbn [Routes.set_facturas Routes.facturas].
  split; [apply lookup_insert_eq|]. split; [exact Hfields|].
  split; [|exact Hr].
  intros estado Hupd. rewrite Hfields. unfold Spec.campo_actualizado.
  rewrite decide_False by discriminate. rewrite Hupd. reflexivity.
Qed.

Lemma dict_get_apply_set (update_data doc : gmap string value) (k : string) :
  update_data !! k = None →
  dict_get (Routes.apply_set update_data doc) k = dict_get doc k.
Proof.
  intros Hk. unfold dict_get, Routes.apply_set.
  rewrite (lookup_union_r _ _ _ Hk). reflexivity.
Qed.

(** X18.  The QR answer of a stored invoice does not follow the invoice.
    Annulling, sending and paying leave [numero], [qr_data] and
    [verificacion_hash] as they were; and so does an update as far as
    [qr_data] and [verificacion_hash] go, which are no fields of the update
    model: they stay what they were whatever the update changes, be it the
    number or the total from which the hash was computed. *)
Theorem obtener_qr_factura_stable (db : Routes.Db oid) (id : string) (o : oid)
    (factura : gmap string value) :
  Routes.is_valid ObjectId_of id = true → ObjectId_of id = Some o →
  Routes.facturas db !! o = Some factura →
  let qr numero : gmap string value :=
    {[ "factura_id" := VStr id;
       "numero" := numero;
       "qr_data" := dict_get factura "qr_data";
       "verificacion_hash" := dict_get factura "verificacion_hash" ]} in
  obtener_qr_factura db id = Ok (qr (dict_get factura "numero"))
  ∧ (∀ now, obtener_qr_factura (anular_factura db id now).1 id
            = obtener_qr_factura db id)
  ∧ (∀ fecha_envio now,
       obtener_qr_factura (enviar_factura_hacienda db id fecha_envio now).1 id
       = obtener_qr_factura db id)
  ∧ (∀ metodo_pago now,
       obtener_qr_factura (procesar_pago_factura db id metodo_pago now).1 id
       = obtener_qr_factura db id)
  ∧ (∀ factura_update now,
       factura_update !! "qr_data" = None →
       factura_update !! "verificacion_hash" = None →
       ∃ numero,
         obtener_qr_factura (actualizar_factura db id factura_update now).1 id
         = Ok (qr numero)).
Proof.
  intros Hv Ho Hdoc qr.
  assert (Hqr : ∀ c update_data,
    update_data !! "qr_data" = None →
    update_data !! "verificacion_hash" = None →
    obtener_qr_factura
      (Routes.set_facturas db
         (<[o := Routes.apply_set update_data factura]> c)) id
    = Ok (qr (dict_get (Routes.apply_set update_data factura) "numero"))).
  { intros c update_data Hq Hh. unfold Routes.obtener_qr_factura.
    rewrite (checked_id_ok id o Hv Ho).
    cbn [Routes.set_facturas Routes.facturas]. rewrite lookup_insert_eq.
    rewrite (dict_get_apply_set _ _ "qr_data" Hq),
      (dict_get_apply_set _ _ "verificacion_hash" Hh). reflexivity. }
  assert (Hbase : obtener_qr_factura db id = Ok (qr (dict_get factura "numero"))).
  { unfold Routes.obtener_qr_factura.
    rewrite (checked_id_ok id o Hv Ho), Hdoc. reflexivity. }
  split; [exact Hbase|]. rewrite Hbase.
  split; [|split; [|split]].
  - intros now. unfold Routes.anular_factura.
    rewrite (checked_id_ok id o Hv Ho), Hdoc. cbn [fst].
    rewrite Hqr by reflexivity.
    rewrite dict_get_apply_set by reflexivity. reflexivity.
  - intros fecha_envio now. unfold Routes.enviar_factura_hacienda.
    rewrite (checked_id_ok id o Hv Ho), Hdoc. cbn [fst].
    rewrite Hqr by reflexivity.
    rewrite dict_get_apply_set by reflexivity. reflexivity.
  - intros metodo_pago now. unfold Routes.procesar_pago_factura.
    rewrite (checked_id_ok id o Hv Ho), Hdoc. cbn [fst].
    rewrite Hqr by reflexivity.
    rewrite dict_get_apply_set by reflexivity. reflexivity.
  - intros factura_update now Hq Hh. unfold Routes.actualizar_factura.
    rewrite (checked_id_ok id o Hv Ho), Hdoc.
    destruct (in_strs _ _); cbn [fst].
    + eexists. exact Hbase.
    + eexists. apply Hqr.
      * rewrite lookup_insert_ne by discriminate.
        rewrite map_lookup_filter, Hq. reflexivity.
      * rewrite lookup_insert_ne by discriminate.
        rewrite map_lookup_filter, Hh. reflexivity.
Qed.

Section Crear.
Variable py_str : value → string.
Variable json_dumps : gmap string value → result string.
Variable sha256_hexdigest : string → string.
Variable qr_data_of : gmap string value → result string.
Variable str_of_exception : exception → string.

#[local] Abbreviation crear_factura :=
  (Routes.crear_factura Factura_error py_str json_dumps sha256_hexdigest
     qr_data_of str_of_exception).
(** X19. Whatever the request and whatever fails on the way, [crear_factura]
    never changes or removes an invoice that is stored and never touches the
    patients: the only id under which the invoices can differ afterwards is
    the new one; and the only error it answers with is a 500 whose detail
    starts with ["Error al crear factura: "]. *)
Theorem crear_factura_frame (db : Routes.Db oid) (new_id : oid)
    (factura : gmap string value) (anio_actual created_at updated_at : Z) :
  ∃ db' r,
    crear_factura db new_id factura anio_actual created_at updated_at
    = (db', r)
    ∧ Routes.patients db' = Routes.patients db
    ∧ (∀ o f, Routes.facturas db !! o = Some f →
              Routes.facturas db' !! o = Some f)
    ∧ (∀ o, o ≠ new_id → Routes.facturas db' !! o = Routes.facturas db !! o)
    ∧ (∀ e, r = Raise e →
         ∃ detail,
           e = HTTPException 500 ("Error al crear factura: " +:+ detail)).
Proof.
  unfold Routes.crear_factura, Routes.insert_one, Routes.as_Factura.
  destruct (Routes.numero_asignado _ _ _ _) as [numero|e0].
  2:{ eexists _, _. split; [reflexivity|]. repeat split; auto.
      intros e He. injection He as <-. eauto. }
  destruct (generar_hash_verifactu _ _ _ _) as [h|e1].
  2:{ eexists _, _. split; [reflexivity|]. repeat split; auto.
      intros e He. injection He as <-. eauto. }
  destruct (qr_data_of _) as [q|e2].
  2:{ eexists _, _. split; [reflexivity|]. repeat split; auto.
      intros e He. injection He as <-. eauto. }
  destruct (Routes.facturas db !! new_id) as [old|] eqn:Hnew.
  { eexists _, _. split; [reflexivity|]. repeat split; auto.
    intros e He. injection He as <-. eauto. }
  eexists _, _. split; [reflexivity|].
  cbn [Routes.set_facturas Routes.facturas Routes.patients].
  split; [reflexivity|]. split; [|split].
  - intros o f Hof. rewrite lookup_insert_ne; [exact Hof|].
    intros ->. rewrite Hnew in Hof. discriminate.
  - intros o Hne. apply lookup_insert_ne. congruence.
  - intros e He. destruct (Factura_error _); [|discriminate].
    injection He as <-. eauto.
Qed.

End Crear.

End RouteFlows.

Lemma create_patient_get_witness :
  let db : Routes.Db string := {| Routes.patients := ∅; Routes.facturas := ∅ |} in
  ∃ db' doc,
    Routes.create_patient db "507f1f77bcf86cd799439011"
      {[ "name" := VStr "Ana" ]} 5 6
    = (db', Return doc)
    ∧ Routes.get_patient Routes.hex24 db' "507F1F77BCF86CD799439011" = Ok doc
    ∧ doc !! "name" = Some (VStr "Ana").
Proof.
  intros db.
  destruct (create_patient_get Routes.hex24 db "507f1f77bcf86cd799439011"
              "507F1F77BCF86CD799439011" {[ "name" := VStr "Ana" ]} 5 6
              (lookup_empty _) eq_refl eq_refl)
    as (db' & doc & Hrun & Hget & _ & _ & Hframe & _).
  exists db', doc. split; [exact Hrun|]. split; [exact Hget|].
  rewrite Hframe by discriminate. apply lookup_singleton_eq.
Defined.

Lemma update_patient_applies_witness :
  let paciente : gmap string value :=
    {[ "name" := VStr "Ana"; "phone" := VStr "664123456" ]} in
  let db := {| Routes.patients := {[ "507f1f77bcf86cd799439011"%string := paciente ]};
               Routes.facturas := ∅ |} in
  ∃ db' doc',
    Routes.update_patient Routes.hex24 db "507f1f77bcf86cd799439011"
      {[ "phone" := VNone ]} 7
    = (db', Ok doc')
    ∧ doc' !! "phone" = Some VNone
    ∧ doc' !! "name" = Some (VStr "Ana").
Proof.
  intros paciente db.
  destruct (update_patient_applies Routes.hex24 db "507f1f77bcf86cd799439011"
              "507f1f77bcf86cd799439011"%string paciente
              {[ "phone" := VNone ]} 7 eq_refl eq_refl
              (lookup_singleton_eq _ _))
    as (db' & doc' & Hrun & _ & _ & Hset & Hkeep & _).
  { apply (bool_decide_eq_false_1 (dom _ = ∅)). vm_compute. reflexivity. }
  exists db', doc'. split; [exact Hrun|]. split.
  - apply Hset; [discriminate | apply lookup_singleton_eq].
  - rewrite Hkeep; [| discriminate | apply lookup_singleton_ne; discriminate].
    vm_compute. reflexivity.
Defined.

Lemma delete_patient_removes_witness :
  let db := {| Routes.patients :=
                 {[ "507f1f77bcf86cd799439011"%string
                    := ({[ "name" := VStr "Ana" ]} : gmap string value) ]};
               Routes.facturas := ∅ |} in
  ∃ db',
    Routes.delete_patient Routes.hex24 db "507f1f77bcf86cd799439011"
    = (db', Ok ())
    ∧ Routes.get_patient Routes.hex24 db' "507f1f77bcf86cd799439011"
      = Raise (HTTPException 404 "Paciente no encontrado").
Proof.
  intros db.
  destruct (delete_patient_removes Routes.hex24 db "507f1f77bcf86cd799439011"
              "507f1f77bcf86cd799439011"%string {[ "name" := VStr "Ana" ]}
              eq_refl eq_refl (lookup_singleton_eq _ _))
    as (db' & Hrun & _ & _ & _ & _ & Hget & _).
  exists db'. split; [exact Hrun | exact Hget].
Defined.

Lemma actualizar_factura_applies_witness :
  let factura : gmap string value :=
    {[ "numero" := VStr "F2025-A0001"; "estado" := VStr "borrador";
       "notas" := VStr "Revisar" ]} in
  let db := {| Routes.patients := ∅;
               Routes.facturas := {[ "507f1f77bcf86cd799439011"%string := factura ]} |} in
  ∃ db' r factura',
    Routes.actualizar_factura Routes.hex24 (λ _, None) db
      "507f1f77bcf86cd799439011"
      {[ "estado" := VStr "emitida"; "notas" := VNone ]} 7
    = (db', r)
    ∧ Routes.facturas db' !! "507f1f77bcf86cd799439011"%string = Some factura'
    ∧ factura' !! "estado" = Some (VStr "emitida")
    ∧ factura' !! "notas" = Some (VStr "Revisar").
Proof.
  intros factura db.
  destruct (actualizar_factura_applies Routes.hex24 (λ _, None) db
              "507f1f77bcf86cd799439011" "507f1f77bcf86cd799439011"%string
              factura {[ "estado" := VStr "emitida"; "notas" := VNone ]} 7
              eq_refl eq_refl (lookup_singleton_eq _ _) eq_refl)
    as (db' & r & factura' & Hrun & Hdoc & Hfields & _).
  exists db', r, factura'. split; [exact Hrun|]. split; [exact Hdoc|].
  rewrite !Hfields. split; vm_compute; reflexivity.
Defined.

(** An annulled invoice is sent: it is stored as ["emitida"] and keeps its
    number. *)
Lemma enviar_factura_hacienda_emitida_witness :
  let factura : gmap string value :=
    {[ "numero" := VStr "F2025-A0001"; "estado" := VStr "anulada" ]} in
  let db := {| Routes.patients := ∅;
               Routes.facturas := {[ "507f1f77bcf86cd799439011"%string := factura ]} |} in
  ∃ db' factura',
    (Routes.enviar_factura_hacienda Routes.hex24 db
       "507f1f77bcf86cd799439011" 7 8).1 = db'
    ∧ Routes.facturas db' !! "507f1f77bcf86cd799439011"%string = Some factura'
    ∧ factura' !! "estado" = Some (VStr "emitida")
    ∧ factura' !! "numero" = Some (VStr "F2025-A0001")
    ∧ Routes.actualizar_factura Routes.hex24 (λ _, None) db'
        "507f1f77bcf86cd799439011" {[ "estado" := VStr "borrador" ]} 9
      = (db', Raise (HTTPException 400
                       "No se pueden editar facturas emitidas o pagadas")).
Proof.
  intros factura db.
  destruct (enviar_factura_hacienda_emitida Routes.hex24 (λ _, None) db
              "507f1f77bcf86cd799439011" "507f1f77bcf86cd799439011"%string
              factura 7 8 eq_refl eq_refl (lookup_singleton_eq _ _))
    as (db' & factura' & Hrun & Hdoc & Hestado & _ & _ & _ & Hkeep & _ & _
        & Hbloq).
  exists db', factura'. rewrite Hrun.
  split; [reflexivity|]. split; [exact Hdoc|]. split; [exact Hestado|].
  split; [|apply Hbloq].
  rewrite Hkeep; [vm_compute; reflexivity|].
  rewrite !not_elem_of_cons. repeat split; try discriminate.
  apply not_elem_of_nil.
Defined.

Lemma procesar_pago_factura_pagada_witness :
  let factura : gmap string value :=
    {[ "numero" := VStr "F2025-A0001"; "estado" := VStr "borrador";
       "forma_pago" := VStr "transferencia" ]} in
  let db := {| Routes.patients := ∅;
               Routes.facturas := {[ "507f1f77bcf86cd799439011"%string := factura ]} |} in
  ∃ db' factura',
    (Routes.procesar_pago_factura Routes.hex24 db
       "507f1f77bcf86cd799439011" "bizum" 8).1 = db'
    ∧ Routes.facturas db' !! "507f1f77bcf86cd799439011"%string = Some factura'
    ∧ factura' !! "estado" = Some (VStr "pagada")
    ∧ factura' !! "forma_pago" = Some (VStr "bizum")
    ∧ Routes.actualizar_factura Routes.hex24 (λ _, None) db'
        "507f1f77bcf86cd799439011" {[ "estado" := VStr "borrador" ]} 9
      = (db', Raise (HTTPException 400
                       "No se pueden editar facturas emitidas o pagadas")).
Proof.
  intros factura db.
  destruct (procesar_pago_factura_pagada Routes.hex24 (λ _, None) db
              "507f1f77bcf86cd799439011" "bizum"
              "507f1f77bcf86cd799439011"%string
              factura 8 eq_refl eq_refl (lookup_singleton_eq _ _))
    as (db' & factura' & Hrun & Hdoc & Hestado & Hpago & _ & _ & _ & _
        & Hbloq).
  exists db', factura'. rewrite Hrun.
  split; [reflexivity|]. split; [exact Hdoc|]. split; [exact Hestado|].
  split; [exact Hpago | apply Hbloq].
Defined.

(** An invoice that was sent is annulled and then put back to draft. *)
Lemma anular_factura_editable_witness :
  let factura : gmap string value :=
    {[ "numero" := VStr "F2025-A0001"; "estado" := VStr "emitida" ]} in
  let db := {| Routes.patients := ∅;
               Routes.facturas := {[ "507f1f77bcf86cd799439011"%string := factura ]} |} in
  ∃ db1 db2 factura2,
    (Routes.anular_factura Routes.hex24 db "507f1f77bcf86cd799439011" 7).1
    = db1
    ∧ (Routes.actualizar_factura Routes.hex24 (λ _, None) db1
         "507f1f77bcf86cd799439011" {[ "estado" := VStr "borrador" ]} 9).1
      = db2
    ∧ Routes.facturas db2 !! "507f1f77bcf86cd799439011"%string = Some factura2
    ∧ factura2 !! "estado" = Some (VStr "borrador").
Proof.
  intros factura db.
  destruct (anular_factura_editable Routes.hex24 (λ _, None) db
              "507f1f77bcf86cd799439011" "507f1f77bcf86cd799439011"%string
              factura {[ "estado" := VStr "borrador" ]} 7 9
              eq_refl eq_refl (lookup_singleton_eq _ _))
    as (db1 & r1 & anulada & db2 & r2 & factura2 & Hrun1 & _ & _ & Hrun2
        & Hdoc & _ & Hestado & _).
  exists db1, db2, factura2. rewrite Hrun1, Hrun2.
  split; [reflexivity|]. split; [reflexivity|]. split; [exact Hdoc|].
  apply Hestado. apply lookup_singleton_eq.
Defined.

(** A draft whose total is changed keeps the hash and the QR data it was
    stored with. *)
Lemma obtener_qr_factura_stable_witness :
  let factura : gmap string value :=
    {[ "numero" := VStr "F2025-A0001"; "estado" := VStr "borrador";
       "total_factura" := VFloat 121; "qr_data" := VStr "qr";
       "verificacion_hash" := VStr "9f2c" ]} in
  let db := {| Routes.patients := ∅;
               Routes.facturas := {[ "507f1f77bcf86cd799439011"%string := factura ]} |} in
  ∃ numero,
    Routes.obtener_qr_factura Routes.hex24
      (Routes.actualizar_factura Routes.hex24 (λ _, None) db
         "507f1f77bcf86cd799439011" {[ "total_factura" := VFloat 1 ]} 7).1
      "507f1f77bcf86cd799439011"
    = Ok {[ "factura_id" := VStr "507f1f77bcf86cd799439011";
            "numero" := numero;
            "qr_data" := VStr "qr";
            "verificacion_hash" := VStr "9f2c" ]}.
Proof.
  intros factura db.
  exact (proj2 (proj2 (proj2 (proj2
           (obtener_qr_factura_stable Routes.hex24 (λ _, None) db
              "507f1f77bcf86cd799439011" "507f1f77bcf86cd799439011"%string
              factura eq_refl eq_refl (lookup_singleton_eq _ _)))))
           {[ "total_factura" := VFloat 1 ]} 7%Z eq_refl eq_refl).
Defined.
